(** * Folder hierarchy and trash cascades of the image-folder backend

    A shallow embedding of [routes/folders.js], [routes/trash.js], the
    image routes and [middleware/auth.js], over the documents of
    [models/Folder.js] and [models/Image.js].

    - JavaScript strings are [string]s (code units below 256).
    - A MongoDB collection is the list of its documents.
    - [new Date()] is an explicit time argument (milliseconds).
    - The object store (Cloudinary) is an oracle telling which [destroy]
      calls resolve, together with the log of the calls made.
    - Route parameters are ids already cast to ObjectId.
    - The [$regex] patterns the folder routes build from stored paths are
      parsed and matched for a part of the engine's syntax; for every
      other pattern the engine is a parameter of the routes.
    - [models/Image.js] declares neither [isDeleted] nor [deletedAt] and
      the schema is strict: no stored image carries these fields, a write
      of them is dropped, and a filter on them is compared with a missing
      field. *)

From Stdlib Require Import String Ascii List Bool Arith ZArith Lia.
From Stdlib Require Import Sorted Permutation.
Import ListNotations.
Open Scope string_scope.

(** ** JavaScript string operations used by the routes *)

Module JsString.

(** White space removed by [String.prototype.trim], among the code units
    below 256: TAB, LF, VT, FF, CR, SPACE and NBSP. *)
Definition isWhiteSpace (c : ascii) : bool :=
  let n := nat_of_ascii c in
  (((9 <=? n) && (n <=? 13)) || (n =? 32) || (n =? 160))%nat.

Fixpoint trimStart (s : string) : string :=
  match s with
  | EmptyString => EmptyString
  | String c s' => if isWhiteSpace c then trimStart s' else s
  end.

Fixpoint trimEnd (s : string) : string :=
  match s with
  | EmptyString => EmptyString
  | String c s' =>
      match trimEnd s' with
      | EmptyString => if isWhiteSpace c then EmptyString else String c EmptyString
      | r => String c r
      end
  end.

Definition trim (s : string) : string := trimEnd (trimStart s).

(** Truthiness of a string: the empty string is falsy. *)
Definition truthy (s : string) : bool :=
  match s with EmptyString => false | _ => true end.

Fixpoint startsWith (p s : string) : bool :=
  match p, s with
  | EmptyString, _ => true
  | String _ _, EmptyString => false
  | String a p', String b s' => Ascii.eqb a b && startsWith p' s'
  end.

Fixpoint drop (n : nat) (s : string) : string :=
  match n, s with
  | O, _ => s
  | S _, EmptyString => EmptyString
  | S n', String _ s' => drop n' s'
  end.

(** Leftmost occurrence of [pat] in [s]: the text before it and the text
    after it. *)
Fixpoint splitAtFirst (pat s : string) : option (string * string) :=
  if startsWith pat s then Some (EmptyString, drop (String.length pat) s)
  else match s with
       | EmptyString => None
       | String c s' =>
           match splitAtFirst pat s' with
           | Some (b, a) => Some (String c b, a)
           | None => None
           end
       end.

(** GetSubstitution for a string pattern (no capture groups): [$$] is a
    dollar, [$&] the match, [$`] the text before the match, [$'] the text
    after it; any other [$] stands for itself. *)
Fixpoint getSubstitution (matched before after templ : string) : string :=
  match templ with
  | EmptyString => EmptyString
  | String c tl =>
      if Ascii.eqb c "$" then
        match tl with
        | EmptyString => String c EmptyString
        | String d rest =>
            if Ascii.eqb d "$" then
              String "$" (getSubstitution matched before after rest)
            else if Ascii.eqb d "&" then
              matched ++ getSubstitution matched before after rest
            else if Ascii.eqb d "`" then
              before ++ getSubstitution matched before after rest
            else if Ascii.eqb d "'" then
              after ++ getSubstitution matched before after rest
            else String c (getSubstitution matched before after tl)
        end
      else String c (getSubstitution matched before after tl)
  end.

(** [s.replace(pat, templ)] with a string pattern: only the first
    occurrence is replaced. *)
Definition replace (s pat templ : string) : string :=
  match splitAtFirst pat s with
  | None => s
  | Some (before, after) =>
      before ++ getSubstitution pat before after templ ++ after
  end.

Definition hasChar (c : ascii) (s : string) : bool :=
  existsb (Ascii.eqb c) (list_ascii_of_string s).

End JsString.

(** [String.prototype.toLowerCase] on code units below 256. *)
Definition lowerChar (c : ascii) : ascii :=
  let n := nat_of_ascii c in
  if (((65 <=? n) && (n <=? 90))
      || ((192 <=? n) && (n <=? 222) && negb (n =? 215)))%nat
  then ascii_of_nat (n + 32) else c.

Fixpoint toLowerCase (s : string) : string :=
  match s with
  | EmptyString => EmptyString
  | String c s' => String (lowerChar c) (toLowerCase s')
  end.

(** [s.split(sep)] for a one-character separator: the first field and the
    fields after it. *)
Fixpoint splitOn (sep : ascii) (s : string) : string * list string :=
  match s with
  | EmptyString => (EmptyString, [])
  | String c s' =>
      let (h, t) := splitOn sep s' in
      if Ascii.eqb c sep then (EmptyString, h :: t) else (String c h, t)
  end.

Definition split (sep : ascii) (s : string) : list string :=
  let (h, t) := splitOn sep s in h :: t.

(** ** The [$regex] operator *)

Module Regex.

Definition metachars : string := "\^$.[]|()?*+{}".

(** No character of [p] is special to the regular-expression engine. *)
Definition literal (p : string) : bool :=
  forallb (fun c => negb (JsString.hasChar c metachars))
          (list_ascii_of_string p).

(** The modelled part of the pattern syntax: characters, escaped
    metacharacters, [.], the assertions [^] and [$], groups, alternation
    and the quantifiers [*], [+] and [?]. *)
Inductive re :=
| Eps
| Chr (c : ascii)
| Any
| Bol
| Eol
| Seq (a b : re)
| Alt (a b : re)
| Star (a : re).

Inductive token :=
| TOpen | TClose | TBar | TStar | TPlus | TOpt | TEscape | TDot | TCaret
| TDollar | TBracket | TChar.

Definition classify (c : ascii) : token :=
  if Ascii.eqb c "(" then TOpen
  else if Ascii.eqb c ")" then TClose
  else if Ascii.eqb c "|" then TBar
  else if Ascii.eqb c "*" then TStar
  else if Ascii.eqb c "+" then TPlus
  else if Ascii.eqb c "?" then TOpt
  else if Ascii.eqb c "\" then TEscape
  else if Ascii.eqb c "." then TDot
  else if Ascii.eqb c "^" then TCaret
  else if Ascii.eqb c "$" then TDollar
  else if Ascii.eqb c "[" || Ascii.eqb c "]"
          || Ascii.eqb c "{" || Ascii.eqb c "}" then TBracket
  else TChar.

(** A group under construction: the alternatives already closed (last
    first), the atoms of the current alternative (last first), and
    whether a quantifier may follow. *)
Record frame := mkFrame {
  alts : list re;
  atoms : list re;
  quantifiable : bool
}.

Definition emptyFrame : frame := mkFrame [] [] false.

Definition push (a : re) (f : frame) : frame :=
  mkFrame (alts f) (a :: atoms f) true.

Definition pushAssertion (a : re) (f : frame) : frame :=
  mkFrame (alts f) (a :: atoms f) false.

Definition seqOf (atomsRev : list re) : re :=
  fold_left (fun acc a => Seq a acc) atomsRev Eps.

Definition closeFrame (f : frame) : re :=
  fold_left (fun acc e => Alt e acc) (alts f) (seqOf (atoms f)).

Definition nextAlt (f : frame) : frame :=
  mkFrame (seqOf (atoms f) :: alts f) [] false.

Definition quantify (t : token) (a : re) : re :=
  match t with
  | TStar => Star a
  | TPlus => Seq a (Star a)
  | _ => Alt a Eps
  end.

(** What the engine makes of a pattern: a modelled expression, a pattern
    it rejects (unbalanced parentheses), or syntax outside the model
    (classes, braces, special groups, backslash sequences other than an
    escaped metacharacter, a quantifier after anything but a character, a
    dot or a group). *)
Inductive syntax :=
| Parsed (r : re)
| Invalid
| Unknown.

(** [unmatched]: a closing parenthesis without an opening one was seen;
    the scan goes on, since syntax outside the model takes precedence. *)
Fixpoint parseFrom (p : string) (cur : frame) (stack : list frame)
  (unmatched : bool) : syntax :=
  match p with
  | EmptyString =>
      if unmatched then Invalid
      else match stack with
           | [] => Parsed (closeFrame cur)
           | _ :: _ => Invalid
           end
  | String c p' =>
      match classify c with
      | TOpen =>
          match p' with
          | String d _ =>
              match classify d with
              | TStar | TPlus | TOpt => Unknown
              | _ => parseFrom p' emptyFrame (cur :: stack) unmatched
              end
          | EmptyString => parseFrom p' emptyFrame (cur :: stack) unmatched
          end
      | TClose =>
          match stack with
          | [] => parseFrom p' cur [] true
          | outer :: stack' =>
              parseFrom p' (push (closeFrame cur) outer) stack' unmatched
          end
      | TBar => parseFrom p' (nextAlt cur) stack unmatched
      | TStar | TPlus | TOpt =>
          match atoms cur, quantifiable cur with
          | a :: rest, true =>
              parseFrom p'
                (mkFrame (alts cur) (quantify (classify c) a :: rest) false)
                stack unmatched
          | _, _ => Unknown
          end
      | TEscape =>
          match p' with
          | String d p'' =>
              if JsString.hasChar d metachars
              then parseFrom p'' (push (Chr d) cur) stack unmatched
              else Unknown
          | EmptyString => Unknown
          end
      | TDot => parseFrom p' (push Any cur) stack unmatched
      | TCaret => parseFrom p' (pushAssertion Bol cur) stack unmatched
      | TDollar => parseFrom p' (pushAssertion Eol cur) stack unmatched
      | TBracket => Unknown
      | TChar => parseFrom p' (push (Chr c) cur) stack unmatched
      end
  end.

Definition parse (p : string) : syntax := parseFrom p emptyFrame [] false.

Definition newline : ascii := "010"%char.

(** [matchRe n r s k]: [r] matches a prefix of [s], the rest of a subject
    of length [n], and [k] accepts what follows.  [.] is any character but
    the newline, [^] holds at the start of the subject, [$] at its end or
    before a newline that ends it.  A repetition goes on only after an
    iteration that consumed something. *)
Fixpoint matchRe (n : nat) (r : re) (s : string) (k : string -> bool)
  {struct r} : bool :=
  match r with
  | Eps => k s
  | Chr c =>
      match s with
      | String d s' => Ascii.eqb c d && k s'
      | EmptyString => false
      end
  | Any =>
      match s with
      | String d s' => negb (Ascii.eqb d newline) && k s'
      | EmptyString => false
      end
  | Bol => Nat.eqb (String.length s) n && k s
  | Eol =>
      (String.eqb s EmptyString || String.eqb s (String newline EmptyString))
      && k s
  | Seq a b => matchRe n a s (fun s' => matchRe n b s' k)
  | Alt a b => matchRe n a s k || matchRe n b s k
  | Star a =>
      (fix iter (fuel : nat) (s : string) : bool :=
         k s
         || match fuel with
            | O => false
            | S fuel' =>
                matchRe n a s
                  (fun s' => Nat.ltb (String.length s') (String.length s)
                             && iter fuel' s')
            end) (String.length s) s
  end.

(** A match may start anywhere in the subject. *)
Fixpoint searchFrom (n : nat) (r : re) (s : string) : bool :=
  matchRe n r s (fun _ => true)
  || match s with
     | String _ s' => searchFrom n r s'
     | EmptyString => false
     end.

Definition test (r : re) (subject : string) : bool :=
  searchFrom (String.length subject) r subject.

(** The database's engine on the patterns outside the model: [None] when
    it rejects the pattern, else the strings the pattern matches. *)
Definition engine := string -> option (string -> bool).

(** [{ $regex: p }]: [None] when the query is rejected. *)
Definition compile (rx : engine) (p : string) : option (string -> bool) :=
  match parse p with
  | Parsed r => Some (test r)
  | Invalid => None
  | Unknown => rx p
  end.

End Regex.

(** ** Documents *)

Definition ObjectId := nat.
Definition Date := Z.
Bind Scope Z_scope with Date.

Definition eqbOptId (a b : option ObjectId) : bool :=
  match a, b with
  | None, None => true
  | Some x, Some y => Nat.eqb x y
  | _, _ => false
  end.

(** [$in] over a list of ids. *)
Definition inIds (x : ObjectId) (ids : list ObjectId) : bool :=
  existsb (Nat.eqb x) ids.

(** [models/Folder.js] *)
Module Folder.

Record doc := mk {
  _id : ObjectId;
  name : string;
  parentFolder : option ObjectId;
  user : ObjectId;
  path : string;
  isDeleted : bool;
  deletedAt : option Date
}.

Definition setNamePath (n p : string) (d : doc) : doc :=
  mk (_id d) n (parentFolder d) (user d) p (isDeleted d) (deletedAt d).

Definition setPath (p : string) (d : doc) : doc :=
  mk (_id d) (name d) (parentFolder d) (user d) p (isDeleted d) (deletedAt d).

Definition setTrash (b : bool) (t : option Date) (d : doc) : doc :=
  mk (_id d) (name d) (parentFolder d) (user d) (path d) b t.

(** Key of the unique index [{ user: 1, parentFolder: 1, name: 1 }]. *)
Definition sameKey (a b : doc) : bool :=
  Nat.eqb (user a) (user b)
  && eqbOptId (parentFolder a) (parentFolder b)
  && String.eqb (name a) (name b).

(** [doc.save()] of a new document: fails on a duplicate [_id] or a
    duplicate key of the unique index. *)
Definition insert (d : doc) (c : list doc) : option (list doc) :=
  if existsb (fun e => Nat.eqb (_id e) (_id d) || sameKey e d) c
  then None else Some (c ++ [d])%list.

(** [doc.save()] after [doc.name] and [doc.path] were assigned: sets both
    fields on the stored document; fails when another document holds the
    same key of the unique index. *)
Definition saveNamePath (d : doc) (c : list doc) : option (list doc) :=
  if existsb (fun e => negb (Nat.eqb (_id e) (_id d)) && sameKey e d) c
  then None
  else Some (map (fun e => if Nat.eqb (_id e) (_id d)
                           then setNamePath (name d) (path d) e else e) c).

(** [doc.save()] after [doc.path] was assigned. *)
Definition savePath (d : doc) (c : list doc) : list doc :=
  map (fun e => if Nat.eqb (_id e) (_id d) then setPath (path d) e else e) c.

End Folder.

(** [models/Image.js].  The schema has no [isDeleted] and no [deletedAt]
    path; it is strict, and filters go to the database as the routes write
    them (no [strictQuery]). *)
Module Image.

Record doc := mk {
  _id : ObjectId;
  name : string;
  originalName : string;
  cloudinaryUrl : string;
  cloudinaryPublicId : string;
  folder : ObjectId;
  user : ObjectId;
  size : Z;
  mimeType : string
}.

Definition setName (n : string) (d : doc) : doc :=
  mk (_id d) n (originalName d) (cloudinaryUrl d) (cloudinaryPublicId d)
     (folder d) (user d) (size d) (mimeType d).

(** The filter [isDeleted: b] on an image: the stored document has no such
    field, and a missing field equals neither [true] nor [false]. *)
Definition isDeletedIs (b : bool) (d : doc) : bool := false.

(** The filter [deletedAt: { $lt: cutoff }] on an image: a missing field
    is below no date. *)
Definition deletedAtLt (cutoff : Date) (d : doc) : bool := false.

(** Setting [isDeleted] and [deletedAt] on an image, by an update or by
    assignment before [save()]: both paths are outside the strict schema
    and nothing is written. *)
Definition setTrash (b : bool) (t : option Date) (d : doc) : doc := d.

(** The [required] validators of the string paths: an empty string fails. *)
Definition valid (d : doc) : bool :=
  JsString.truthy (name d)
  && JsString.truthy (originalName d)
  && JsString.truthy (cloudinaryUrl d)
  && JsString.truthy (cloudinaryPublicId d)
  && JsString.truthy (mimeType d).

(** [doc.save()] of a new document: fails on a validation error or a
    duplicate [_id]. *)
Definition insert (d : doc) (c : list doc) : option (list doc) :=
  if negb (valid d) || existsb (fun e => Nat.eqb (_id e) (_id d)) c
  then None else Some (c ++ [d])%list.

End Image.

Record store := mkStore {
  folders : list Folder.doc;
  images : list Image.doc
}.

(** ** Collection operations *)

Section Collection.
Context {A : Type}.

Definition findOne (q : A -> bool) (c : list A) : option A := List.find q c.

Definition find (q : A -> bool) (c : list A) : list A := List.filter q c.

Definition updateMany (q : A -> bool) (u : A -> A) (c : list A) : list A :=
  map (fun d => if q d then u d else d) c.

Definition deleteMany (q : A -> bool) (c : list A) : list A :=
  List.filter (fun d => negb (q d)) c.

Fixpoint deleteOne (q : A -> bool) (c : list A) : list A :=
  match c with
  | [] => []
  | d :: c' => if q d then c' else d :: deleteOne q c'
  end.

(** [findOneAndUpdate(q, u, { new: true })]: the updated document, if any,
    and the collection. *)
Fixpoint findOneAndUpdate (q : A -> bool) (u : A -> A) (c : list A)
  : option A * list A :=
  match c with
  | [] => (None, [])
  | d :: c' =>
      if q d then (Some (u d), u d :: c')
      else let (r, c'') := findOneAndUpdate q u c' in (r, d :: c'')
  end.

End Collection.

(** [Folder.find({ user, path: { $regex: pattern } })]; [None] when the
    database rejects the pattern. *)
Definition findByPathRegex (rx : Regex.engine) (userId : ObjectId)
  (pattern : string) (c : list Folder.doc) : option (list Folder.doc) :=
  match Regex.compile rx pattern with
  | None => None
  | Some matches =>
      Some (find (fun f => Nat.eqb (Folder.user f) userId
                           && matches (Folder.path f)) c)
  end.

(** ** Responses *)

Inductive response :=
| Json201 (folder : Folder.doc)
| Json200 (message : string) (folder : option Folder.doc)
| Json201Image (message : string) (image : Image.doc)
| Json200Image (message : string) (image : Image.doc)
| Status400 (message : string)
| Status404 (message : string)
| Status500 (message : string).

(** ** Object store *)

(** [destroyOk publicId] tells whether [cloudinary.uploader.destroy]
    resolves for that public id (otherwise it rejects). *)
Definition oracle := string -> bool.

(** The loop of the hard delete: each [destroy] sits in its own
    [try]/[catch], a rejection is logged and the loop goes on.  Returns the
    public ids [destroy] was called with. *)
Fixpoint destroyEachCaught (destroyOk : oracle) (imgs : list Image.doc)
  : list string :=
  match imgs with
  | [] => []
  | img :: rest =>
      if JsString.truthy (Image.cloudinaryPublicId img) then
        if destroyOk (Image.cloudinaryPublicId img)
        then Image.cloudinaryPublicId img :: destroyEachCaught destroyOk rest
        else Image.cloudinaryPublicId img :: destroyEachCaught destroyOk rest
      else destroyEachCaught destroyOk rest
  end.

(** The loop of the trash routes and of the cleanup: a rejected [destroy]
    leaves the loop.  Returns the calls made and whether the loop ran to
    its end. *)
Fixpoint destroyEach (destroyOk : oracle) (imgs : list Image.doc)
  : list string * bool :=
  match imgs with
  | [] => ([], true)
  | img :: rest =>
      if JsString.truthy (Image.cloudinaryPublicId img) then
        if destroyOk (Image.cloudinaryPublicId img)
        then let (l, b) := destroyEach destroyOk rest in
             (Image.cloudinaryPublicId img :: l, b)
        else ([Image.cloudinaryPublicId img], false)
      else destroyEach destroyOk rest
  end.

(** ** [routes/folders.js] *)

Definition nameMissing (name : string) : bool :=
  negb (JsString.truthy name) || negb (JsString.truthy (JsString.trim name)).

(** [POST /]: create a folder.  [newId] is the [_id] given to the new
    document. *)
Definition createFolder (newId userId : ObjectId) (name : string)
  (parentFolderId : option ObjectId) (s : store) : response * store :=
  if nameMissing name then (Status400 "Folder name is required", s)
  else
    let located :=
      match parentFolderId with
      | Some pid =>
          match findOne (fun f => Nat.eqb (Folder._id f) pid
                                  && Nat.eqb (Folder.user f) userId)
                        (folders s) with
          | None => None
          | Some parentFolder =>
              Some (Folder.path parentFolder ++ "/" ++ JsString.trim name)
          end
      | None => Some (JsString.trim name)
      end in
    match located with
    | None => (Status404 "Parent folder not found", s)
    | Some path =>
        let folder := Folder.mk newId (JsString.trim name) parentFolderId
                                userId path false None in
        match Folder.insert folder (folders s) with
        | None => (Status500 "Server error creating folder", s)
        | Some fs => (Json201 folder, mkStore fs (images s))
        end
    end.

(** [DELETE /soft/:folderId]: move a folder to the trash.  [tF] and [tI]
    are the two [new Date()] of the handler. *)
Definition softDeleteFolder (rx : Regex.engine) (tF tI : Date)
  (userId folderId : ObjectId) (s : store) : response * store :=
  match findOne (fun f => Nat.eqb (Folder._id f) folderId
                          && Nat.eqb (Folder.user f) userId) (folders s) with
  | None => (Status404 "Folder not found", s)
  | Some folder =>
      match findByPathRegex rx userId ("^" ++ Folder.path folder)
                            (folders s) with
      | None => (Status500 "Server error deleting folder", s)
      | Some foldersToDelete =>
          let folderIds := map Folder._id foldersToDelete in
          let fs := updateMany (fun f => inIds (Folder._id f) folderIds)
                               (Folder.setTrash true (Some tF)) (folders s) in
          let ims := updateMany (fun i => inIds (Image.folder i) folderIds)
                               (Image.setTrash true (Some tI)) (images s) in
          (Json200 "Folder and contents moved to trash" None, mkStore fs ims)
      end
  end.

(** [DELETE /hard/:folderId]: remove a folder from the database and its
    images from the object store.  The third component is the list of
    [destroy] calls. *)
Definition hardDeleteFolder (rx : Regex.engine) (destroyOk : oracle)
  (userId folderId : ObjectId) (s : store)
  : response * store * list string :=
  match findOne (fun f => Nat.eqb (Folder._id f) folderId
                          && Nat.eqb (Folder.user f) userId) (folders s) with
  | None => (Status404 "Folder not found", s, [])
  | Some folder =>
      match findByPathRegex rx userId ("^" ++ Folder.path folder)
                            (folders s) with
      | None => (Status500 "Server error deleting folder", s, [])
      | Some foldersToDelete =>
          let folderIds := map Folder._id foldersToDelete in
          let imagesToDelete :=
            find (fun i => inIds (Image.folder i) folderIds) (images s) in
          let calls := destroyEachCaught destroyOk imagesToDelete in
          let ims := deleteMany (fun i => inIds (Image.folder i) folderIds)
                               (images s) in
          let fs := deleteMany (fun f => inIds (Folder._id f) folderIds)
                               (folders s) in
          (Json200 "Folder, subfolders, and all images permanently deleted"
                   None,
           mkStore fs ims, calls)
      end
  end.

(** The loop over [subfolders] of the rename: each document gets its path
    with [oldPath] replaced and is saved. *)
Definition rewriteSubfolders (oldPath newPath : string)
  (subfolders c : list Folder.doc) : list Folder.doc :=
  fold_left
    (fun c sub =>
       Folder.savePath
         (Folder.setPath (JsString.replace (Folder.path sub) oldPath newPath)
                         sub) c)
    subfolders c.

(** [PUT /:folderId]: rename a folder.  The folder is saved before the
    query for its subfolders: when the database rejects that query, the
    answer is 500 and the folder keeps its new name and path. *)
Definition renameFolder (rx : Regex.engine) (userId folderId : ObjectId)
  (name : string) (s : store) : response * store :=
  if nameMissing name then (Status400 "New folder name is required", s)
  else
    match findOne (fun f => Nat.eqb (Folder._id f) folderId
                            && Nat.eqb (Folder.user f) userId
                            && negb (Folder.isDeleted f)) (folders s) with
    | None => (Status404 "Folder not found or is in trash", s)
    | Some folder =>
        match findOne (fun f => negb (Nat.eqb (Folder._id f) folderId)
                                && eqbOptId (Folder.parentFolder f)
                                            (Folder.parentFolder folder)
                                && Nat.eqb (Folder.user f) userId
                                && String.eqb (Folder.name f) (JsString.trim name)
                                && negb (Folder.isDeleted f))
                      (folders s) with
        | Some _ =>
            (Status400
               "A folder with this name already exists in the same location",
             s)
        | None =>
            let oldPath := Folder.path folder in
            let recomputed :=
              match Folder.parentFolder folder with
              | Some pid =>
                  match findOne (fun f => Nat.eqb (Folder._id f) pid)
                                (folders s) with
                  | Some parent =>
                      Some (Folder.path parent ++ "/" ++ JsString.trim name)
                  | None => None
                  end
              | None => Some (JsString.trim name)
              end in
            match recomputed with
            | None => (Status500 "Server error renaming folder", s)
            | Some newPath =>
                let folder' :=
                  Folder.setNamePath (JsString.trim name) newPath folder in
                match Folder.saveNamePath folder' (folders s) with
                | None => (Status500 "Server error renaming folder", s)
                | Some fs1 =>
                    match findByPathRegex rx userId ("^" ++ oldPath ++ "/")
                                          fs1 with
                    | None =>
                        (Status500 "Server error renaming folder",
                         mkStore fs1 (images s))
                    | Some subfolders =>
                        (Json200 "Folder renamed successfully" (Some folder'),
                         mkStore (rewriteSubfolders oldPath newPath
                                                    subfolders fs1)
                                 (images s))
                    end
                end
            end
        end
    end.

(** ** The image routes *)

(** [req.file] as the upload middleware gives it. *)
Record file := mkFile {
  originalname : string;
  fileSize : Z;
  mimetype : string
}.

(** What the object store answers to a stored payload. *)
Record uploadResult := mkResult {
  secure_url : string;
  public_id : string
}.

Definition quoted (s : string) : string :=
  String "034"%char (s ++ String "034"%char EmptyString).

(** [POST /folder/:folderId]: upload an image.  [reqFile] is [req.file],
    if any; [uploaded] is the answer of the object store, [None] when the
    upload rejects; [newId] is the [_id] given to the new document.  The
    500 response also carries the text of the error, which is left out. *)
Definition uploadImage (newId userId folderId : ObjectId)
  (reqFile : option file) (uploaded : option uploadResult) (s : store)
  : response * store :=
  match findOne (fun f => Nat.eqb (Folder._id f) folderId
                          && Nat.eqb (Folder.user f) userId
                          && negb (Folder.isDeleted f)) (folders s) with
  | None => (Status404 "Folder not found", s)
  | Some folder =>
      match reqFile with
      | None =>
          (Status400 ("No file uploaded. Use key " ++ quoted "image" ++ "."), s)
      | Some f =>
          match uploaded with
          | None => (Status500 "Server error uploading image", s)
          | Some result =>
              let newImage :=
                Image.mk newId
                         (JsString.trim
                            (hd EmptyString (split "." (originalname f))))
                         (originalname f) (secure_url result)
                         (public_id result) (Folder._id folder) userId
                         (fileSize f) (mimetype f) in
              match Image.insert newImage (images s) with
              | None => (Status500 "Server error uploading image", s)
              | Some ims =>
                  (Json201Image "Image uploaded successfully" newImage,
                   mkStore (folders s) ims)
              end
          end
      end
  end.

(** [GET /folder/:folderId]: the images of a folder. *)
Definition listImages (userId folderId : ObjectId) (s : store)
  : list Image.doc :=
  find (fun i => Nat.eqb (Image.folder i) folderId
                 && Nat.eqb (Image.user i) userId
                 && Image.isDeletedIs false i) (images s).

(** [DELETE /id/:imageId/soft] *)
Definition softDeleteImage (t : Date) (userId imageId : ObjectId)
  (s : store) : response * store :=
  match findOne (fun i => Nat.eqb (Image._id i) imageId
                          && Nat.eqb (Image.user i) userId
                          && Image.isDeletedIs false i) (images s) with
  | None => (Status404 "Image not found", s)
  | Some _ =>
      (Json200 "Image moved to trash" None,
       mkStore (folders s)
               (map (fun i => if Nat.eqb (Image._id i) imageId
                              then Image.setTrash true (Some t) i else i)
                    (images s)))
  end.

(** [PUT /id/:imageId]: rename an image. *)
Definition renameImage (userId imageId : ObjectId) (newName : string)
  (s : store) : response * store :=
  if nameMissing newName then (Status400 "New image name is required", s)
  else
    match findOne (fun i => Nat.eqb (Image._id i) imageId
                            && Nat.eqb (Image.user i) userId
                            && Image.isDeletedIs false i) (images s) with
    | None => (Status404 "Image not found or is in trash", s)
    | Some image =>
        let image' := Image.setName (JsString.trim newName) image in
        (Json200Image "Image renamed successfully" image',
         mkStore (folders s)
                 (map (fun i => if Nat.eqb (Image._id i) imageId
                                then Image.setName (JsString.trim newName) i
                                else i)
                      (images s)))
    end.

(** ** [routes/trash.js] *)

(** The [:type] parameter after [trim().toLowerCase()]. *)
Definition normType (type : string) : string :=
  toLowerCase (JsString.trim type).

(** [POST /restore/:type/:id] with type [folder]. *)
Definition restoreFolder (userId id : ObjectId) (s : store)
  : response * store :=
  match findOneAndUpdate
          (fun f => Nat.eqb (Folder._id f) id
                    && Nat.eqb (Folder.user f) userId
                    && Folder.isDeleted f)
          (Folder.setTrash false None) (folders s) with
  | (None, _) => (Status404 "Folder not found or not in trash", s)
  | (Some folder, fs) =>
      let ims := updateMany (fun i => Nat.eqb (Image.folder i) id
                                     && Nat.eqb (Image.user i) userId
                                     && Image.isDeletedIs true i)
                           (Image.setTrash false None) (images s) in
      (Json200 "folder restored successfully" (Some folder), mkStore fs ims)
  end.

(** [POST /restore/:type/:id] with type [image]. *)
Definition restoreImage (userId id : ObjectId) (s : store)
  : response * store :=
  match findOneAndUpdate
          (fun i => Nat.eqb (Image._id i) id
                    && Nat.eqb (Image.user i) userId
                    && Image.isDeletedIs true i)
          (Image.setTrash false None) (images s) with
  | (None, _) => (Status404 "Image not found or not in trash", s)
  | (Some image, ims) =>
      (Json200Image "image restored successfully" image,
       mkStore (folders s) ims)
  end.

Definition restoreItem (userId : ObjectId) (type : string) (id : ObjectId)
  (s : store) : response * store :=
  if String.eqb (normType type) "folder" then restoreFolder userId id s
  else if String.eqb (normType type) "image" then restoreImage userId id s
  else (Status400 "Invalid type parameter", s).

(** [DELETE /permanent/:type/:id] with type [folder]. *)
Definition permanentDeleteFolder (destroyOk : oracle) (userId id : ObjectId)
  (s : store) : response * store * list string :=
  match findOne (fun f => Nat.eqb (Folder._id f) id
                          && Nat.eqb (Folder.user f) userId
                          && Folder.isDeleted f) (folders s) with
  | None => (Status404 "Folder not found or not in trash", s, [])
  | Some _ =>
      let imgs := find (fun i => Nat.eqb (Image.folder i) id
                                 && Nat.eqb (Image.user i) userId) (images s) in
      match destroyEach destroyOk imgs with
      | (calls, false) =>
          (Status500 "Error permanently deleting item", s, calls)
      | (calls, true) =>
          let ims := deleteMany (fun i => Nat.eqb (Image.folder i) id
                                         && Nat.eqb (Image.user i) userId)
                               (images s) in
          let fs := deleteOne (fun f => Nat.eqb (Folder._id f) id) (folders s) in
          (Json200 "folder permanently deleted" None, mkStore fs ims, calls)
      end
  end.

(** [DELETE /permanent/:type/:id] with type [image]. *)
Definition permanentDeleteImage (destroyOk : oracle) (userId id : ObjectId)
  (s : store) : response * store * list string :=
  match findOne (fun i => Nat.eqb (Image._id i) id
                          && Nat.eqb (Image.user i) userId
                          && Image.isDeletedIs true i) (images s) with
  | None => (Status404 "Image not found or not in trash", s, [])
  | Some image =>
      match destroyEach destroyOk [image] with
      | (calls, false) =>
          (Status500 "Error permanently deleting item", s, calls)
      | (calls, true) =>
          (Json200 "image permanently deleted" None,
           mkStore (folders s)
                   (deleteOne (fun i => Nat.eqb (Image._id i) id) (images s)),
           calls)
      end
  end.

Definition permanentDelete (destroyOk : oracle) (userId : ObjectId)
  (type : string) (id : ObjectId) (s : store)
  : response * store * list string :=
  if String.eqb (normType type) "image"
  then permanentDeleteImage destroyOk userId id s
  else if String.eqb (normType type) "folder"
  then permanentDeleteFolder destroyOk userId id s
  else (Status400 "Invalid type parameter", s, []).

Definition DAYS_TO_KEEP : Z := 30.

Definition olderThan (cutoff : Date) (deleted : bool) (at_ : option Date)
  : bool :=
  deleted && match at_ with Some t => Z.ltb t cutoff | None => false end.

(** [cleanupOldTrash()], run at time [now]: the store afterwards and the
    [destroy] calls.  A rejected [destroy] ends the run in the outer
    [catch], before anything is deleted. *)
Definition cleanupOldTrash (destroyOk : oracle) (now : Date) (s : store)
  : store * list string :=
  let cutoffDate := (now - DAYS_TO_KEEP * 86400000)%Z in
  let oldImages :=
    find (fun i => Image.isDeletedIs true i && Image.deletedAtLt cutoffDate i)
         (images s) in
  let oldFolders :=
    find (fun f => olderThan cutoffDate (Folder.isDeleted f) (Folder.deletedAt f))
         (folders s) in
  match destroyEach destroyOk oldImages with
  | (calls, false) => (s, calls)
  | (calls, true) =>
      let ims := deleteMany (fun i => inIds (Image._id i) (map Image._id oldImages))
                           (images s) in
      let fs := deleteMany (fun f => inIds (Folder._id f) (map Folder._id oldFolders))
                           (folders s) in
      (mkStore fs ims, calls)
  end.

(** ** The path model as the specification words it *)

Module PathModel.

(** [computePath(name, parentPath | none)] *)
Definition computePath (name : string) (parentPath : option string) : string :=
  match parentPath with
  | None => name
  | Some p => p ++ "/" ++ name
  end.

(** [isDescendantPath(candidatePath, ancestorPath)] *)
Definition isDescendantPath (candidatePath ancestorPath : string) : bool :=
  String.eqb candidatePath ancestorPath
  || JsString.startsWith (ancestorPath ++ "/") candidatePath.

End PathModel.

(** ** Properties of a store *)

Fixpoint distinct (l : list ObjectId) : bool :=
  match l with
  | [] => true
  | x :: l' => negb (inIds x l') && distinct l'
  end.

Definition byId (id : ObjectId) (f : Folder.doc) : bool :=
  Nat.eqb (Folder._id f) id.

(** The path of [f] is the one computed from its name and the current
    path of its parent in the collection [c]. *)
Definition pathOk (c : list Folder.doc) (f : Folder.doc) : bool :=
  match Folder.parentFolder f with
  | None => String.eqb (Folder.path f) (PathModel.computePath (Folder.name f) None)
  | Some pid =>
      match findOne (byId pid) c with
      | Some p =>
          String.eqb (Folder.path f)
                     (PathModel.computePath (Folder.name f) (Some (Folder.path p)))
      | None => false
      end
  end.

Definition pathInvariant (c : list Folder.doc) : bool := forallb (pathOk c) c.

(** No folder name holds the separator. *)
Definition slashFree (c : list Folder.doc) : bool :=
  forallb (fun f => negb (JsString.hasChar "/" (Folder.name f))) c.

(** A folder and its parent have the same owner. *)
Definition ownerOk (c : list Folder.doc) (f : Folder.doc) : bool :=
  match Folder.parentFolder f with
  | None => true
  | Some pid =>
      match findOne (byId pid) c with
      | Some p => Nat.eqb (Folder.user p) (Folder.user f)
      | None => false
      end
  end.

(** The unique index of the folder collection holds. *)
Definition uniqueIndex (c : list Folder.doc) : bool :=
  forallb (fun f =>
    forallb (fun g => implb (Folder.sameKey f g)
                            (Nat.eqb (Folder._id f) (Folder._id g))) c) c.

(** A folder collection as creations and renames of slash-free names
    leave it. *)
Definition wellFormed (c : list Folder.doc) : bool :=
  distinct (map Folder._id c)
  && pathInvariant c
  && slashFree c
  && forallb (ownerOk c) c
  && uniqueIndex c.

(** The images directly inside folder [id]. *)
Definition imagesIn (id : ObjectId) (s : store) : list Image.doc :=
  find (fun i => Nat.eqb (Image.folder i) id) (images s).


(** The trash fields of an active folder. *)
Definition activeFolder (f : Folder.doc) : bool :=
  negb (Folder.isDeleted f)
  && match Folder.deletedAt f with None => true | Some _ => false end.

(** A folder that is not in the trash carries no deletion date. *)
Definition stampOk (f : Folder.doc) : bool :=
  Folder.isDeleted f
  || match Folder.deletedAt f with None => true | Some _ => false end.

(** ** The effect of a rename, document by document *)

(** Folders of [u] whose path lies below [oldPath/]. *)
Definition belowOld (u : ObjectId) (oldPath : string) (e : Folder.doc) : bool :=
  Nat.eqb (Folder.user e) u
  && JsString.startsWith (oldPath ++ "/") (Folder.path e).

(** The document [e] after the rename of folder [id] of owner [u] from
    [oldPath] to the name [n'] and the path [newPath]. *)
Definition renamedDoc (u id : ObjectId) (n' oldPath newPath : string)
  (e : Folder.doc) : Folder.doc :=
  if Nat.eqb (Folder._id e) id then Folder.setNamePath n' newPath e
  else if belowOld u oldPath e
       then Folder.setPath
              (newPath ++ JsString.drop (String.length oldPath) (Folder.path e)) e
       else e.

(** How a folder of a well-formed collection sits in the hierarchy. *)
Inductive placed (c : list Folder.doc) (e : Folder.doc) : Prop :=
| placedRoot :
    Folder.parentFolder e = None -> Folder.path e = Folder.name e ->
    placed c e
| placedChild (p : Folder.doc) :
    Folder.parentFolder e = Some (Folder._id p) ->
    findOne (byId (Folder._id p)) c = Some p -> In p c ->
    Folder.user p = Folder.user e ->
    Folder.path e = Folder.path p ++ "/" ++ Folder.name e ->
    placed c e.

(** ** Sample stores, built by the routes themselves *)

Definition emptyStore : store := mkStore [] [].

Definition alice : ObjectId := 7.

(** An engine that rejects every pattern outside the modelled syntax. *)
Definition noEngine : Regex.engine := fun _ => None.

(** An uploaded file, and the answer of the object store that stored it
    under [publicId]. *)
Definition picFile : file := mkFile "pic.png" 2048 "image/png".

Definition storedAs (publicId : string) : uploadResult :=
  mkResult ("https://res.example/" ++ publicId) publicId.

(** The image document the upload of [picFile] leaves. *)
Definition pic (id folderId userId : ObjectId) (publicId : string)
  : Image.doc :=
  Image.mk id "pic" "pic.png" ("https://res.example/" ++ publicId) publicId
           folderId userId 2048 "image/png".

(** Two root folders, [Foo] and [Foo2], with one image in [Foo2]. *)
Definition storeFoo : store :=
  let s1 := snd (createFolder 1 alice "Foo" None emptyStore) in
  let s2 := snd (createFolder 2 alice "Foo2" None s1) in
  snd (uploadImage 10 alice 2 (Some picFile) (Some (storedAs "app/pic10")) s2).

(** Root folder [A] with child [Docs], itself with child [Old]; one image
    in [A], one in [Docs]. *)
Definition storeDocs : store :=
  let s1 := snd (createFolder 1 alice "A" None emptyStore) in
  let s2 := snd (createFolder 2 alice "Docs" (Some 1) s1) in
  let s3 := snd (createFolder 3 alice "Old" (Some 2) s2) in
  let s4 := snd (uploadImage 10 alice 1 (Some picFile)
                             (Some (storedAs "app/pic10")) s3) in
  snd (uploadImage 11 alice 2 (Some picFile) (Some (storedAs "app/pic11")) s4).

(** Root folders [a] and [a/b]: the second has a separator in its name. *)
Definition storeSlash : store :=
  let s1 := snd (createFolder 1 alice "a" None emptyStore) in
  snd (createFolder 2 alice "a/b" None s1).

(** Root folder [A(1)] with child [c] and one image. *)
Definition storeParen : store :=
  let s1 := snd (createFolder 1 alice "A(1)" None emptyStore) in
  let s2 := snd (createFolder 2 alice "c" (Some 1) s1) in
  snd (uploadImage 10 alice 1 (Some picFile) (Some (storedAs "app/pic10")) s2).

(** [storeDocs] after [A] was moved to the trash. *)
Definition storeDocsTrashed : store :=
  snd (softDeleteFolder noEngine 100 100 alice 1 storeDocs).

(** An object store where every [destroy] rejects, and one where every
    [destroy] resolves. *)
Definition allReject : oracle := fun _ => false.
Definition allResolve : oracle := fun _ => true.

(** ** Listings *)

(** [.sort({ path: 1 })]: ascending by path, strings compared code unit by
    code unit.  The order among equal paths is the one of this insertion
    sort; the database fixes none. *)
Fixpoint insertByPath (f : Folder.doc) (l : list Folder.doc) : list Folder.doc :=
  match l with
  | [] => [f]
  | g :: l' =>
      if String.leb (Folder.path f) (Folder.path g) then f :: l
      else g :: insertByPath f l'
  end.

Definition sortByPath (l : list Folder.doc) : list Folder.doc :=
  fold_right insertByPath [] l.

(** [GET /] of the folder routes: the caller's folders that are not in the
    trash, by path. *)
Definition listFolders (userId : ObjectId) (s : store) : list Folder.doc :=
  sortByPath (find (fun f => Nat.eqb (Folder.user f) userId
                             && negb (Folder.isDeleted f)) (folders s)).

(** [GET /] of the trash routes. *)
Definition listTrash (userId : ObjectId) (s : store)
  : list Folder.doc * list Image.doc :=
  (find (fun f => Nat.eqb (Folder.user f) userId && Folder.isDeleted f)
        (folders s),
   find (fun i => Nat.eqb (Image.user i) userId && Image.isDeletedIs true i)
        (images s)).

(** ** [middleware/auth.js] *)

Inductive authResult :=
| Next (userId : ObjectId)
| Auth401 (message : string)
| Auth400 (message : string).

(** The middleware: [verify token] is [jwt.verify] with the server's
    secret, [None] when it throws; [authHeader] is the [Authorization]
    header, if any. *)
Definition auth (verify : string -> option ObjectId)
  (authHeader : option string) : authResult :=
  match authHeader with
  | None => Auth401 "Access denied. Token missing."
  | Some h =>
      if negb (JsString.truthy h) then Auth401 "Access denied. Token missing."
      else
        match nth_error (split " " h) 1 with
        | None => Auth401 "Access denied. Token missing."
        | Some token =>
            if negb (JsString.truthy token)
            then Auth401 "Access denied. Token missing."
            else match verify token with
                 | Some userId => Next userId
                 | None => Auth400 "Invalid token"
                 end
        end
  end.

(** ** Stores the routes keep consistent *)

(** The folder of image [i] exists and has the owner of [i]. *)
Definition imageOwnerOk (c : list Folder.doc) (i : Image.doc) : bool :=
  match findOne (byId (Image.folder i)) c with
  | Some f => Nat.eqb (Folder.user f) (Image.user i)
  | None => false
  end.

Definition storeOk (s : store) : bool :=
  distinct (map Folder._id (folders s))
  && distinct (map Image._id (images s))
  && forallb (imageOwnerOk (folders s)) (images s)
  && forallb stampOk (folders s).

(** One request of the authenticated user [u], served by a route of the
    folder, image or trash routes (the cleanup is no route), with [rx] the
    engine of the database. *)
Inductive routeStep (rx : Regex.engine) (u : ObjectId) (s : store)
  : store -> Prop :=
| stepCreate newId name parent r s' :
    createFolder newId u name parent s = (r, s') -> routeStep rx u s s'
| stepRename id name r s' :
    renameFolder rx u id name s = (r, s') -> routeStep rx u s s'
| stepSoftDelete tF tI id r s' :
    softDeleteFolder rx tF tI u id s = (r, s') -> routeStep rx u s s'
| stepHardDelete ok id r s' calls :
    hardDeleteFolder rx ok u id s = (r, s', calls) -> routeStep rx u s s'
| stepUpload newId id reqFile uploaded r s' :
    uploadImage newId u id reqFile uploaded s = (r, s') -> routeStep rx u s s'
| stepSoftDeleteImage t id r s' :
    softDeleteImage t u id s = (r, s') -> routeStep rx u s s'
| stepRenameImage id newName r s' :
    renameImage u id newName s = (r, s') -> routeStep rx u s s'
| stepRestore type id r s' :
    restoreItem u type id s = (r, s') -> routeStep rx u s s'
| stepPermanent ok type id r s' calls :
    permanentDelete ok u type id s = (r, s', calls) -> routeStep rx u s s'.

(** Stores reached from the empty store by requests. *)
Inductive reachable (rx : Regex.engine) : store -> Prop :=
| reachEmpty : reachable rx emptyStore
| reachStep u s s' :
    reachable rx s -> routeStep rx u s s' -> reachable rx s'.

(** [f] comes no later than [g] in path order. *)
Definition pathLe (f g : Folder.doc) : Prop :=
  String.leb (Folder.path f) (Folder.path g) = true.

(** The request of [u] that led from [s] to [s'] left the folders and
    images of the other owners in place and unchanged. *)
Definition spares (u : ObjectId) (s s' : store) : Prop :=
  (forall f, In f (folders s) -> Folder.user f <> u -> In f (folders s'))
  /\ (forall i, In i (images s) -> Image.user i <> u -> In i (images s')).

Definition bob : ObjectId := 8.

(** [storeDocs] with a second owner, who has a root folder [A] of his own
    with one image. *)
Definition storeTwoOwners : store :=
  let s1 := snd (createFolder 20 bob "A" None storeDocs) in
  snd (uploadImage 30 bob 20 (Some picFile) (Some (storedAs "app/pic30")) s1).

(** A document with these trash fields is not yet due at time [now]: it is
    not in the trash, or has no deletion date, or was deleted at most 30
    days (in milliseconds) ago. *)
Definition withinRetention (now : Date) (deleted : bool) (at_ : option Date)
  : Prop :=
  deleted = false \/ at_ = None
  \/ exists t, at_ = Some t /\ (now - t <= 30 * 86400000)%Z.

(** [storeDocs] with a folder [Notes] under [A] that is in the trash. *)
Definition storeNotesTrashed : store :=
  let s1 := snd (createFolder 4 alice "Notes" (Some 1) storeDocs) in
  snd (softDeleteFolder noEngine 100 100 alice 4 s1).

(** A stored folder name: not empty, no white space at its ends. *)
Definition nameOk (f : Folder.doc) : bool :=
  JsString.truthy (Folder.name f)
  && String.eqb (JsString.trim (Folder.name f)) (Folder.name f).

Definition namesTrimmed (c : list Folder.doc) : bool := forallb nameOk c.

(** The test by which soft delete and hard delete of the folder with path
    [P] pick folders of [u], when [P] has no metacharacter: [P] is a
    prefix of the path, as a string. *)
Definition prefixHit (u : ObjectId) (P : string) (g : Folder.doc) : bool :=
  Nat.eqb (Folder.user g) u && JsString.startsWith P (Folder.path g).

(** Image [i] lies in a folder picked by [prefixHit]. *)
Definition inHitFolder (u : ObjectId) (P : string) (c : list Folder.doc)
  (i : Image.doc) : bool :=
  existsb (fun g => prefixHit u P g && Nat.eqb (Folder._id g) (Image.folder i)) c.

(** The atoms a run of ordinary characters adds to a frame, and the
    expression such a run stands for in front of [tail]. *)
Fixpoint charAtoms (p : string) (acc : list Regex.re) : list Regex.re :=
  match p with
  | EmptyString => acc
  | String c p' => charAtoms p' (Regex.Chr c :: acc)
  end.

Fixpoint charsThen (p : string) (tail : Regex.re) : Regex.re :=
  match p with
  | EmptyString => tail
  | String c p' => Regex.Seq (Regex.Chr c) (charsThen p' tail)
  end.

(** Every folder of [u] with the id [id] has a path without
    metacharacter. *)
Definition plainPath (u id : ObjectId) (c : list Folder.doc) : Prop :=
  forall f, In f c -> Folder._id f = id -> Folder.user f = u ->
            Regex.literal (Folder.path f) = true.

(** Root folders [a.b] and [aXb]. *)
Definition storeDot : store :=
  let s1 := snd (createFolder 1 alice "a.b" None emptyStore) in
  snd (createFolder 2 alice "aXb" None s1).

(** Root folder [A(] with child [c]. *)
Definition storeOpen : store :=
  let s1 := snd (createFolder 1 alice "A(" None emptyStore) in
  snd (createFolder 2 alice "c" (Some 1) s1).

(** * Theorems *)

(** ** Deletion and prefix siblings *)

(** C1 (defect in the code): with root folders [Foo] and [Foo2] of one
    owner, [Foo2] is no descendant of [Foo] in the path model, yet moving
    [Foo] to the trash also marks the folder [Foo2] deleted (the image in
    it is left as it is, like every image), and the hard delete of [Foo]
    also removes [Foo2], its image and the image's payload. *)
Theorem delete_reaches_prefix_sibling (rx : Regex.engine) :
  PathModel.isDescendantPath "Foo2" "Foo" = false
  /\ softDeleteFolder rx 100 101 alice 1 storeFoo
     = (Json200 "Folder and contents moved to trash" None,
        mkStore [Folder.mk 1 "Foo" None alice "Foo" true (Some 100%Z);
                 Folder.mk 2 "Foo2" None alice "Foo2" true (Some 100%Z)]
                [pic 10 2 alice "app/pic10"])
  /\ hardDeleteFolder rx allResolve alice 1 storeFoo
     = (Json200 "Folder, subfolders, and all images permanently deleted" None,
        mkStore [] [], ["app/pic10"]).
Proof. repeat split; reflexivity. Qed.

(** ** Rename and replacement patterns *)

(** C3 (defect in the code): renaming root folder [A] to [B$$] gives the
    folder the path [B$$], but its descendants get [B$/Docs] and
    [B$/Docs/Old]: the new path is read as a replacement pattern. *)
Theorem rename_dollar_breaks_descendants (rx : Regex.engine) :
  renameFolder rx alice 1 "B$$" storeDocs
  = (Json200 "Folder renamed successfully"
             (Some (Folder.mk 1 "B$$" None alice "B$$" false None)),
     mkStore [Folder.mk 1 "B$$" None alice "B$$" false None;
              Folder.mk 2 "Docs" (Some 1) alice "B$/Docs" false None;
              Folder.mk 3 "Old" (Some 2) alice "B$/Docs/Old" false None]
             (images storeDocs)).
Proof. reflexivity. Qed.

(** ** Creation *)

(** C5 (defect in the code): a parent that is not the caller's gives 404
    and the first [Docs] under [A] is created with path [A/Docs]; the
    second create of [Docs] under [A] is stopped by the unique index and
    answered as a server error (500), where the rename route answers the
    same collision with its own message. *)
Theorem create_duplicate_is_server_error (rx : Regex.engine) :
  let s1 := snd (createFolder 1 alice "A" None emptyStore) in
  let r2 := createFolder 2 alice "Docs" (Some 1) s1 in
  createFolder 2 alice "Docs" (Some 9) s1
    = (Status404 "Parent folder not found", s1)
  /\ createFolder 2 8 "Docs" (Some 1) s1
    = (Status404 "Parent folder not found", s1)
  /\ fst r2 = Json201 (Folder.mk 2 "Docs" (Some 1) alice "A/Docs" false None)
  /\ createFolder 3 alice "Docs" (Some 1) (snd r2)
    = (Status500 "Server error creating folder", snd r2)
  /\ (exists s3, createFolder 3 alice "Notes" (Some 1) (snd r2)
                 = (Json201 (Folder.mk 3 "Notes" (Some 1) alice "A/Notes"
                                       false None), s3)
      /\ renameFolder rx alice 3 "Docs" s3
         = (Status400
              "A folder with this name already exists in the same location",
            s3)).
Proof.
  cbv zeta. repeat split; try reflexivity.
  eexists. split; reflexivity.
Qed.

(** ** Object-store failures *)

(** C6 (defect in the code): with [A], [Docs] and [Old] in the trash and
    an object store that rejects [destroy], the hard delete calls
    [destroy] for both images and still removes every record, but the
    permanent delete of [A] stops at the rejected call, answers 500 and
    removes nothing; with an object store that resolves, it removes [A]
    and the image in it. *)
Theorem destroy_failure_aborts_trash_routes (rx : Regex.engine) :
  hardDeleteFolder rx allReject alice 1 storeDocsTrashed
    = (Json200 "Folder, subfolders, and all images permanently deleted" None,
       mkStore [] [], ["app/pic10"; "app/pic11"])
  /\ permanentDeleteFolder allReject alice 1 storeDocsTrashed
    = (Status500 "Error permanently deleting item", storeDocsTrashed,
       ["app/pic10"])
  /\ permanentDeleteFolder allResolve alice 1 storeDocsTrashed
    = (Json200 "folder permanently deleted" None,
       mkStore [Folder.mk 2 "Docs" (Some 1) alice "A/Docs" true (Some 100%Z);
                Folder.mk 3 "Old" (Some 2) alice "A/Docs/Old" true
                          (Some 100%Z)]
               [pic 11 2 alice "app/pic11"],
       ["app/pic10"]).
Proof. repeat split; reflexivity. Qed.

(** ** Lists and collections *)

Lemma find_map_stable {A} (q : A -> bool) (g : A -> A) (c : list A) :
  (forall d, q (g d) = q d) ->
  findOne q (map g c) = option_map g (findOne q c).
Proof.
  intros Hq. unfold findOne. induction c as [|d c IH]; simpl; [reflexivity|].
  rewrite Hq. destruct (q d); [reflexivity | exact IH].
Qed.

Lemma filter_map_stable {A} (q : A -> bool) (g : A -> A) (c : list A) :
  (forall d, q (g d) = q d) ->
  find q (map g c) = map g (find q c).
Proof.
  intros Hq. unfold find. induction c as [|d c IH]; simpl; [reflexivity|].
  rewrite Hq. destruct (q d); simpl; now rewrite IH.
Qed.

Lemma findOne_some {A} (q : A -> bool) (c : list A) (d : A) :
  findOne q c = Some d -> In d c /\ q d = true.
Proof. unfold findOne. apply find_some. Qed.

Lemma findOne_none {A} (q : A -> bool) (c : list A) :
  findOne q c = None -> forall d, In d c -> q d = false.
Proof. unfold findOne. apply find_none. Qed.

Lemma inIds_In (x : ObjectId) (ids : list ObjectId) :
  inIds x ids = true <-> In x ids.
Proof.
  unfold inIds. rewrite existsb_exists. split.
  - intros [y [Hy E]]. apply Nat.eqb_eq in E. now subst.
  - intros H. exists x. split; [assumption | apply Nat.eqb_refl].
Qed.

Lemma distinct_NoDup (l : list ObjectId) : distinct l = true -> NoDup l.
Proof.
  induction l as [|x l IH]; simpl; intros H; constructor;
    apply andb_true_iff in H; destruct H as [H1 H2].
  - intros Hin. apply inIds_In in Hin. rewrite Hin in H1. discriminate.
  - auto.
Qed.

(** In a collection with distinct ids a document is determined by its id. *)
Lemma distinct_ids_inj {A} (key : A -> ObjectId) (c : list A) (d e : A) :
  distinct (map key c) = true -> In d c -> In e c -> key d = key e -> d = e.
Proof.
  induction c as [|a c IH]; simpl; [tauto|].
  intros H Hd He E. apply andb_true_iff in H. destruct H as [Hn Hdis].
  apply negb_true_iff in Hn.
  assert (Hout : forall x, In x c -> key x <> key a).
  { intros x Hx Ex.
    assert (inIds (key a) (map key c) = true) as Hc
      by (apply inIds_In; rewrite <- Ex; now apply in_map).
    congruence. }
  destruct Hd as [->|Hd], He as [->|He]; auto.
  - exfalso. apply (Hout e He). now symmetry.
  - exfalso. now apply (Hout d Hd).
Qed.

Lemma findOne_by_id {A} (key : A -> ObjectId) (q : A -> bool) (c : list A) (d : A) :
  distinct (map key c) = true -> In d c -> q d = true ->
  (forall e, q e = true -> key e = key d) ->
  findOne q c = Some d.
Proof.
  intros Hdis Hd Hq Hk. unfold findOne.
  destruct (List.find q c) as [e|] eqn:E.
  - apply find_some in E. destruct E as [He Hqe].
    f_equal. eapply distinct_ids_inj; eauto.
  - eapply find_none in E; eauto. congruence.
Qed.

(** ** Strings *)

Lemma startsWith_refl (p : string) : JsString.startsWith p p = true.
Proof.
  induction p as [|a p IH]; simpl; [reflexivity|].
  now rewrite Ascii.eqb_refl.
Qed.

Lemma startsWith_app (p r : string) : JsString.startsWith p (p ++ r) = true.
Proof.
  induction p as [|a p IH]; simpl; [reflexivity|].
  now rewrite Ascii.eqb_refl.
Qed.

Lemma startsWith_app_l (p q s : string) :
  JsString.startsWith (p ++ q) s = true -> JsString.startsWith p s = true.
Proof.
  revert s. induction p as [|a p IH]; simpl; intros s H; [reflexivity|].
  destruct s as [|b s]; [discriminate|].
  apply andb_true_iff in H. destruct H as [H1 H2].
  rewrite H1. simpl. now apply IH.
Qed.

Lemma startsWith_split (p s : string) :
  JsString.startsWith p s = true ->
  s = p ++ JsString.drop (String.length p) s.
Proof.
  revert s. induction p as [|a p IH]; simpl; intros s H; [reflexivity|].
  destruct s as [|b s]; [discriminate|].
  apply andb_true_iff in H. destruct H as [H1 H2].
  apply Ascii.eqb_eq in H1. subst b. simpl. f_equal. now apply IH.
Qed.

Lemma isDescendantPath_startsWith (c a : string) :
  PathModel.isDescendantPath c a = true -> JsString.startsWith a c = true.
Proof.
  unfold PathModel.isDescendantPath. intros H.
  apply orb_true_iff in H. destruct H as [H|H].
  - apply String.eqb_eq in H. subst. apply startsWith_refl.
  - eapply startsWith_app_l; eauto.
Qed.

(** ** Patterns without metacharacters *)


Lemma classify_plain (c : ascii) :
  JsString.hasChar c Regex.metachars = false -> Regex.classify c = Regex.TChar.
Proof.
  destruct c as [[] [] [] [] [] [] [] []]; intros H;
    first [reflexivity | discriminate H].
Qed.

Lemma literal_cons (c : ascii) (p : string) :
  Regex.literal (String c p) = true ->
  JsString.hasChar c Regex.metachars = false /\ Regex.literal p = true.
Proof.
  unfold Regex.literal. simpl. intros H.
  apply andb_true_iff in H. destruct H as [H1 H2].
  apply negb_true_iff in H1. auto.
Qed.

Lemma parseFrom_literal (p : string) :
  Regex.literal p = true ->
  forall (al at_ : list Regex.re) (q : bool),
    exists q',
      Regex.parseFrom p (Regex.mkFrame al at_ q) [] false
      = Regex.Parsed (Regex.closeFrame
                        (Regex.mkFrame al (charAtoms p at_) q')).
Proof.
  induction p as [|c p IH]; intros Hl al at_ q.
  - exists q. reflexivity.
  - apply literal_cons in Hl. destruct Hl as [Hc Hl]. simpl.
    rewrite (classify_plain _ Hc). unfold Regex.push. simpl.
    apply (IH Hl).
Qed.

Lemma seqOf_charAtoms (p : string) (at_ : list Regex.re) (tail : Regex.re) :
  fold_left (fun acc a => Regex.Seq a acc) (charAtoms p at_) tail
  = fold_left (fun acc a => Regex.Seq a acc) at_ (charsThen p tail).
Proof.
  revert at_ tail. induction p as [|c p IH]; intros at_ tail; simpl;
    [reflexivity|].
  rewrite IH. reflexivity.
Qed.

Lemma parse_literal (p : string) :
  Regex.literal p = true ->
  Regex.parse ("^" ++ p)
  = Regex.Parsed (Regex.Seq Regex.Bol (charsThen p Regex.Eps)).
Proof.
  intros Hl. unfold Regex.parse. simpl.
  destruct (parseFrom_literal p Hl [] [Regex.Bol] false) as [q' E].
  unfold Regex.pushAssertion. simpl. rewrite E.
  unfold Regex.closeFrame, Regex.seqOf. simpl.
  now rewrite seqOf_charAtoms.
Qed.

Lemma match_chars (n : nat) (p s : string) :
  Regex.matchRe n (charsThen p Regex.Eps) s (fun _ => true)
  = JsString.startsWith p s.
Proof.
  revert s. induction p as [|a p IH]; intros s; simpl; [reflexivity|].
  destruct s as [|b s]; [reflexivity|]. now rewrite IH.
Qed.

Lemma search_anchored_late (n : nat) (r : Regex.re) (s : string) :
  String.length s < n ->
  Regex.searchFrom n (Regex.Seq Regex.Bol r) s = false.
Proof.
  induction s as [|c s IH]; simpl; intros H.
  - destruct n; [lia|]. reflexivity.
  - destruct n as [|n]; [lia|].
    destruct (Nat.eqb (String.length s) n) eqn:E.
    + apply Nat.eqb_eq in E. lia.
    + simpl. apply IH. lia.
Qed.

Lemma test_anchored (r : Regex.re) (s : string) :
  Regex.test (Regex.Seq Regex.Bol r) s
  = Regex.matchRe (String.length s) r s (fun _ => true).
Proof.
  unfold Regex.test. destruct s as [|c s].
  - simpl. now rewrite orb_false_r.
  - cbn [Regex.searchFrom]. rewrite search_anchored_late by (simpl; lia).
    rewrite orb_false_r. cbn [Regex.matchRe]. now rewrite Nat.eqb_refl.
Qed.

(** A pattern [^p] where [p] has no metacharacter matches exactly the
    strings that start with [p], whatever the engine does elsewhere. *)
Lemma compile_literal (rx : Regex.engine) (p : string) :
  Regex.literal p = true ->
  exists m, Regex.compile rx ("^" ++ p) = Some m
            /\ forall s, m s = JsString.startsWith p s.
Proof.
  intros Hl. unfold Regex.compile. rewrite (parse_literal p Hl).
  eexists. split; [reflexivity|].
  intros s. rewrite test_anchored. apply match_chars.
Qed.

Lemma findByPathRegex_literal (rx : Regex.engine) (u : ObjectId) (p : string)
  (c : list Folder.doc) :
  Regex.literal p = true ->
  findByPathRegex rx u ("^" ++ p) c
  = Some (find (fun f => Nat.eqb (Folder.user f) u
                         && JsString.startsWith p (Folder.path f)) c).
Proof.
  intros Hl. unfold findByPathRegex.
  destruct (compile_literal rx p Hl) as [m [-> Hm]].
  f_equal. apply filter_ext. intros f. now rewrite Hm.
Qed.

(** Whatever the pattern, the query picks the caller's folders whose path
    passes one test on strings. *)
Lemma findByPathRegex_shape (rx : Regex.engine) (u : ObjectId)
  (pattern : string) (c l : list Folder.doc) :
  findByPathRegex rx u pattern c = Some l ->
  exists m, Regex.compile rx pattern = Some m
            /\ l = find (fun f => Nat.eqb (Folder.user f) u
                                  && m (Folder.path f)) c.
Proof.
  unfold findByPathRegex. destruct (Regex.compile rx pattern) as [m|];
    [|discriminate].
  intros H. injection H as <-. eauto.
Qed.

(** ** Soft delete twice *)

Lemma setTrash_overrides b1 t1 b2 t2 (f : Folder.doc) :
  Folder.setTrash b2 t2 (Folder.setTrash b1 t1 f) = Folder.setTrash b2 t2 f.
Proof. reflexivity. Qed.


(** An update of the trash fields leaves an image collection as it is. *)
Lemma image_updateMany_setTrash (q : Image.doc -> bool) (b : bool)
  (t : option Date) (c : list Image.doc) :
  updateMany q (Image.setTrash b t) c = c.
Proof.
  unfold updateMany, Image.setTrash. induction c as [|d c IH]; simpl;
    [reflexivity|].
  rewrite IH. now destruct (q d).
Qed.






(** ** Restore *)

Lemma findOneAndUpdate_fst {A} (q : A -> bool) (u : A -> A) (c : list A) :
  fst (findOneAndUpdate q u c) = option_map u (findOne q c).
Proof.
  unfold findOne. induction c as [|d c IH]; simpl; [reflexivity|].
  destruct (q d); [reflexivity|].
  destruct (findOneAndUpdate q u c). exact IH.
Qed.

Lemma findOneAndUpdate_none {A} (q : A -> bool) (u : A -> A) (c : list A) :
  findOne q c = None -> findOneAndUpdate q u c = (None, c).
Proof.
  unfold findOne. induction c as [|d c IH]; simpl; [reflexivity|].
  destruct (q d); [discriminate|].
  intros H. now rewrite (IH H).
Qed.

Lemma map_if_absent {A} (key : A -> ObjectId) (k : ObjectId) (u : A -> A)
  (c : list A) :
  inIds k (map key c) = false ->
  map (fun d => if Nat.eqb (key d) k then u d else d) c = c.
Proof.
  induction c as [|d c IH]; simpl; [reflexivity|].
  intros H. apply orb_false_iff in H. destruct H as [H1 H2].
  rewrite Nat.eqb_sym, H1. now rewrite IH.
Qed.

(** With distinct ids, updating the first document picked by a query that
    fixes the id updates the document with that id. *)
Lemma findOneAndUpdate_by_id {A} (key : A -> ObjectId) (k : ObjectId)
  (q : A -> bool) (u : A -> A) (c : list A) (f : A) :
  distinct (map key c) = true ->
  (forall d, q d = true -> key d = k) ->
  findOne q c = Some f ->
  findOneAndUpdate q u c
  = (Some (u f), map (fun d => if Nat.eqb (key d) k then u d else d) c).
Proof.
  intros Hdis Hq. unfold findOne.
  induction c as [|d c IH]; simpl; [discriminate|].
  simpl in Hdis. apply andb_true_iff in Hdis. destruct Hdis as [Hd Hdis].
  apply negb_true_iff in Hd.
  destruct (q d) eqn:E.
  - intros [= ->]. rewrite <- (Hq f E), Nat.eqb_refl.
    now rewrite map_if_absent.
  - intros Hf. rewrite (IH Hdis Hf).
    destruct (Nat.eqb (key d) k) eqn:Ek; [|reflexivity].
    apply Nat.eqb_eq in Ek. apply find_some in Hf. destruct Hf as [Hin Hqf].
    assert (inIds (key d) (map key c) = true).
    { apply inIds_In. rewrite Ek, <- (Hq f Hqf). now apply in_map. }
    congruence.
Qed.

Lemma trashQuery_id (u id : ObjectId) (d : Folder.doc) :
  Nat.eqb (Folder._id d) id && Nat.eqb (Folder.user d) u && Folder.isDeleted d
  = true ->
  Folder._id d = id.
Proof.
  intros H. apply andb_true_iff in H. destruct H as [H _].
  apply andb_true_iff in H. destruct H as [H _]. now apply Nat.eqb_eq.
Qed.

Lemma folder_active_eta (f : Folder.doc) :
  activeFolder f = true -> Folder.setTrash false None f = f.
Proof.
  destruct f as [i n p u pa del at_]. unfold activeFolder. simpl.
  destruct del; [discriminate|]. destruct at_; [discriminate|]. reflexivity.
Qed.

(** What the restore of a folder does: with distinct folder ids it clears
    the trash fields of the one folder and writes no image. *)
Lemma restoreFolder_run (u id : ObjectId) (s : store) (f : Folder.doc) :
  distinct (map Folder._id (folders s)) = true ->
  In f (folders s) -> Folder._id f = id -> Folder.user f = u ->
  Folder.isDeleted f = true ->
  restoreFolder u id s
  = (Json200 "folder restored successfully"
             (Some (Folder.setTrash false None f)),
     mkStore
       (map (fun g => if Nat.eqb (Folder._id g) id
                      then Folder.setTrash false None g else g) (folders s))
       (images s)).
Proof.
  intros Hdis Hin Hid Hu Hdel. unfold restoreFolder.
  rewrite (findOneAndUpdate_by_id Folder._id id _ _ _ f Hdis
             (trashQuery_id u id)).
  - now rewrite image_updateMany_setTrash.
  - apply (findOne_by_id Folder._id); auto.
    + subst. now rewrite !Nat.eqb_refl, Hdel.
    + intros e He. rewrite Hid. eapply trashQuery_id; eauto.
Qed.

Lemma restoreFolder_refused (u id : ObjectId) (s : store) :
  (forall f, In f (folders s) -> Folder._id f = id -> Folder.user f = u ->
             Folder.isDeleted f = false) ->
  restoreFolder u id s = (Status404 "Folder not found or not in trash", s).
Proof.
  intros Hno. unfold restoreFolder.
  rewrite findOneAndUpdate_none; [reflexivity|].
  destruct (findOne _ (folders s)) as [f|] eqn:E; [|reflexivity].
  apply findOne_some in E. destruct E as [Hin Hq].
  apply andb_true_iff in Hq. destruct Hq as [Hq Hd].
  apply andb_true_iff in Hq. destruct Hq as [Hi Hu].
  apply Nat.eqb_eq in Hi, Hu.
  rewrite (Hno f Hin Hi Hu) in Hd. discriminate.
Qed.

(** C7 (defect in the code): with [A], [Docs] and [Old] in the trash and
    an image directly inside [A], the restore of [A] succeeds and brings
    back the folder [A] alone, but it writes no image: the image schema
    has no [isDeleted] and no [deletedAt], so the image inside [A] does
    not get [isDeleted = false], and the images of [A] listed by the
    filter [isDeleted: false] are none, after the restore as before. *)
Theorem restoreFolder_writes_no_image :
  let restored := restoreFolder alice 1 storeDocsTrashed in
  restored
  = (Json200 "folder restored successfully"
             (Some (Folder.mk 1 "A" None alice "A" false None)),
     mkStore
       [Folder.mk 1 "A" None alice "A" false None;
        Folder.mk 2 "Docs" (Some 1) alice "A/Docs" true (Some 100%Z);
        Folder.mk 3 "Old" (Some 2) alice "A/Docs/Old" true (Some 100%Z)]
       (images storeDocsTrashed))
  /\ imagesIn 1 (snd restored) = [pic 10 1 alice "app/pic10"]
  /\ existsb (Image.isDeletedIs false) (imagesIn 1 (snd restored)) = false
  /\ listImages alice 1 (snd restored) = []
  /\ listImages alice 1 storeDocs = [].
Proof. cbv zeta. repeat split; reflexivity. Qed.

(** ** Soft delete, then restore *)

Lemma findOne_owned (u id : ObjectId) (c : list Folder.doc) (f : Folder.doc) :
  distinct (map Folder._id c) = true ->
  In f c -> Folder._id f = id -> Folder.user f = u ->
  findOne (fun f0 => Nat.eqb (Folder._id f0) id && Nat.eqb (Folder.user f0) u) c
  = Some f.
Proof.
  intros Hdis Hin Hid Hu. apply (findOne_by_id Folder._id); auto.
  - subst. now rewrite !Nat.eqb_refl.
  - intros e He. apply andb_true_iff in He. destruct He as [He _].
    apply Nat.eqb_eq in He. congruence.
Qed.

Lemma findOne_byId (id : ObjectId) (c : list Folder.doc) (f : Folder.doc) :
  distinct (map Folder._id c) = true ->
  In f c -> Folder._id f = id -> findOne (byId id) c = Some f.
Proof.
  intros Hdis Hin Hid. apply (findOne_by_id Folder._id); auto.
  - unfold byId. subst. apply Nat.eqb_refl.
  - unfold byId. intros e He. apply Nat.eqb_eq in He. congruence.
Qed.

(** C8 (amended): when folder [F] of the caller is not in the trash (not
    deleted, no deletion date) and the folder ids are distinct, soft
    delete followed by restore leaves [F] exactly as it was and leaves
    every image as it was; when the path of [F] has no metacharacter,
    both requests succeed. *)
Theorem softDelete_restore_roundtrip (rx : Regex.engine) (tF tI : Date)
  (u id : ObjectId) (s : store) (f : Folder.doc) :
  distinct (map Folder._id (folders s)) = true ->
  In f (folders s) -> Folder._id f = id -> Folder.user f = u ->
  activeFolder f = true ->
  let deleted := softDeleteFolder rx tF tI u id s in
  let restored := restoreFolder u id (snd deleted) in
  findOne (byId id) (folders (snd restored)) = Some f
  /\ images (snd restored) = images s
  /\ (Regex.literal (Folder.path f) = true ->
      fst deleted = Json200 "Folder and contents moved to trash" None
      /\ fst restored = Json200 "folder restored successfully" (Some f)).
Proof.
  intros Hdis Hin Hid Hu Hact. cbv zeta.
  pose proof (findOne_owned u id _ f Hdis Hin Hid Hu) as Hf.
  assert (Hlit : Regex.literal (Folder.path f) = true ->
                 findByPathRegex rx u ("^" ++ Folder.path f) (folders s)
                 = Some (find (fun g => Nat.eqb (Folder.user g) u
                                        && JsString.startsWith (Folder.path f)
                                                               (Folder.path g))
                              (folders s)))
    by apply findByPathRegex_literal.
  unfold softDeleteFolder. rewrite Hf.
  destruct (findByPathRegex rx u _ (folders s)) as [m|] eqn:Em.
  - cbn [snd fst]. rewrite image_updateMany_setTrash.
    set (ids := map Folder._id m).
    set (g := fun d : Folder.doc =>
                if inIds (Folder._id d) ids
                then Folder.setTrash true (Some tF) d else d).
    unfold updateMany. fold g.
    assert (Hg : forall d, Folder._id (g d) = Folder._id d).
    { intros d. unfold g. now destruct (inIds (Folder._id d) ids). }
    assert (Hdis' : distinct (map Folder._id (map g (folders s))) = true).
    { rewrite map_map. erewrite map_ext; [exact Hdis | intros d; apply Hg]. }
    destruct (inIds id ids) eqn:Hmem.
    + assert (Hgf : g f = Folder.setTrash true (Some tF) f).
      { unfold g. now rewrite Hid, Hmem. }
      rewrite (restoreFolder_run u id _ (g f)); cbn [folders images fst snd].
      * rewrite Hgf, setTrash_overrides, (folder_active_eta f Hact).
        split; [|split; [reflexivity|intros _; split; reflexivity]].
        transitivity (Some (Folder.setTrash false None (g f)));
          [|now rewrite Hgf, setTrash_overrides, (folder_active_eta f Hact)].
        apply (findOne_byId id); [| |].
        -- rewrite map_map. erewrite map_ext; [exact Hdis'|].
           intros d. now destruct (Nat.eqb (Folder._id d) id).
        -- apply in_map_iff. exists (g f). rewrite Hg, Hid, Nat.eqb_refl.
           split; [reflexivity | now apply in_map].
        -- simpl. now rewrite Hg.
      * exact Hdis'.
      * now apply in_map.
      * now rewrite Hg.
      * now rewrite Hgf.
      * now rewrite Hgf.
    + assert (Hgf : g f = f) by (unfold g; now rewrite Hid, Hmem).
      rewrite restoreFolder_refused; cbn [folders images fst snd].
      * split; [|split; [reflexivity|]].
        -- rewrite <- Hgf. apply findOne_byId; auto.
           ++ now apply in_map.
           ++ now rewrite Hg.
        -- intros Hl. exfalso. specialize (Hlit Hl). injection Hlit as Hlit.
           assert (inIds id ids = true); [|congruence].
           apply inIds_In. rewrite <- Hid. apply in_map. rewrite Hlit.
           unfold find. apply filter_In. split; [assumption|].
           now rewrite Hu, Nat.eqb_refl, startsWith_refl.
      * intros e He He1 He2. apply in_map_iff in He.
        destruct He as [d [<- Hd]]. rewrite Hg in He1.
        assert (d = f)
          by (apply (distinct_ids_inj Folder._id (folders s)); auto; congruence).
        subst d. rewrite Hgf. unfold activeFolder in Hact.
        apply andb_true_iff in Hact. destruct Hact as [Hact _].
        now apply negb_true_iff in Hact.
  - cbn [snd fst]. rewrite restoreFolder_refused.
    + cbn [snd fst]. split; [now apply findOne_byId|].
      split; [reflexivity|].
      intros Hl. specialize (Hlit Hl). discriminate Hlit.
    + intros e He He1 He2.
      assert (e = f)
        by (apply (distinct_ids_inj Folder._id (folders s)); auto; congruence).
      subst e. unfold activeFolder in Hact.
      apply andb_true_iff in Hact. destruct Hact as [Hact _].
      now apply negb_true_iff in Hact.
Qed.

Lemma softDelete_restore_roundtrip_witness :
  distinct (map Folder._id (folders storeDocs)) = true
  /\ activeFolder (Folder.mk 1 "A" None alice "A" false None) = true
  /\ let deleted := softDeleteFolder noEngine 100 100 alice 1 storeDocs in
     let restored := restoreFolder alice 1 (snd deleted) in
     findOne (byId 1) (folders (snd restored))
     = Some (Folder.mk 1 "A" None alice "A" false None)
     /\ images (snd restored) = images storeDocs
     /\ (Regex.literal "A" = true ->
         fst deleted = Json200 "Folder and contents moved to trash" None
         /\ fst restored
            = Json200 "folder restored successfully"
                      (Some (Folder.mk 1 "A" None alice "A" false None))).
Proof.
  split; [reflexivity|]. split; [reflexivity|].
  exact (softDelete_restore_roundtrip noEngine 100 100 alice 1 storeDocs
           (Folder.mk 1 "A" None alice "A" false None)
           eq_refl (or_introl eq_refl) eq_refl eq_refl eq_refl).
Defined.

(** C8 (as stated, refuted): folder [A] is in the trash since time 100;
    soft delete and restore of [A] both succeed, and afterwards [A] is
    active with no deletion date, not in the trash as before the soft
    delete. *)
Lemma softDelete_restore_untrashes_folder :
  exists s1 s2,
    softDeleteFolder noEngine 200 200 alice 1 storeDocsTrashed
    = (Json200 "Folder and contents moved to trash" None, s1)
    /\ restoreFolder alice 1 s1
       = (Json200 "folder restored successfully"
                  (Some (Folder.mk 1 "A" None alice "A" false None)), s2)
    /\ findOne (byId 1) (folders storeDocsTrashed)
       = Some (Folder.mk 1 "A" None alice "A" true (Some 100%Z))
    /\ findOne (byId 1) (folders s2)
       = Some (Folder.mk 1 "A" None alice "A" false None).
Proof.
  do 2 eexists. repeat split; reflexivity.
Qed.

(** ** Permanent delete of a folder *)

Lemma deleteOne_keeps {A} (q : A -> bool) (c : list A) (d : A) :
  In d c -> q d = false -> In d (deleteOne q c).
Proof.
  induction c as [|e c IH]; simpl; [tauto|].
  intros [->|Hin] Hq.
  - rewrite Hq. now left.
  - destruct (q e); [assumption | right; auto].
Qed.

Lemma deleteOne_incl {A} (q : A -> bool) (c : list A) (d : A) :
  In d (deleteOne q c) -> In d c.
Proof.
  induction c as [|e c IH]; simpl; [tauto|].
  destruct (q e); simpl; [tauto|]. intros [->|H]; auto.
Qed.

Lemma deleteOne_by_id {A} (key : A -> ObjectId) (k : ObjectId) (c : list A) :
  distinct (map key c) = true ->
  forall d, In d (deleteOne (fun d => Nat.eqb (key d) k) c) -> key d <> k.
Proof.
  induction c as [|e c IH]; simpl; [tauto|].
  intros H d. apply andb_true_iff in H. destruct H as [Hn Hdis].
  apply negb_true_iff in Hn.
  destruct (Nat.eqb (key e) k) eqn:E; simpl.
  - apply Nat.eqb_eq in E. subst k. intros Hd Ek.
    assert (inIds (key e) (map key c) = true)
      by (apply inIds_In; rewrite <- Ek; now apply in_map).
    congruence.
  - intros [<-|Hd]; [now apply Nat.eqb_neq | auto].
Qed.

(** C10: the permanent delete of a folder removes no folder but the one
    with the given id and no image but those whose folder is that id, and
    changes none of the documents it keeps; when it succeeds the folder was
    the caller's and in the trash, its record is gone, and the images that
    are gone are the caller's images directly inside it.  Subfolders and
    their images stay in the store. *)
Theorem permanentDeleteFolder_frame (destroyOk : oracle) (u id : ObjectId)
  (s s' : store) (r : response) (calls : list string) :
  permanentDeleteFolder destroyOk u id s = (r, s', calls) ->
  (forall g, In g (folders s) -> Folder._id g <> id -> In g (folders s'))
  /\ (forall i, In i (images s) -> Image.folder i <> id -> In i (images s'))
  /\ (forall g, In g (folders s') -> In g (folders s))
  /\ (forall i, In i (images s') -> In i (images s))
  /\ (forall msg o, r = Json200 msg o ->
        (exists f, In f (folders s) /\ Folder._id f = id /\ Folder.user f = u
                   /\ Folder.isDeleted f = true)
        /\ folders s' = deleteOne (byId id) (folders s)
        /\ images s' = deleteMany (fun i => Nat.eqb (Image.folder i) id
                                            && Nat.eqb (Image.user i) u)
                                  (images s)
        /\ (distinct (map Folder._id (folders s)) = true ->
            findOne (byId id) (folders s') = None)).
Proof.
  unfold permanentDeleteFolder. intros H.
  destruct (findOne _ (folders s)) as [f|] eqn:Ef.
  - destruct (destroyEach destroyOk _) as [l [|]];
      injection H as <- <- <-; simpl.
    + repeat split.
      * intros g Hg Hne. apply deleteOne_keeps; [assumption|].
        now apply Nat.eqb_neq.
      * intros i Hi Hne. unfold deleteMany. apply filter_In.
        split; [assumption|]. apply Nat.eqb_neq in Hne. now rewrite Hne.
      * intros g. apply deleteOne_incl.
      * intros i Hi. unfold deleteMany in Hi. now apply filter_In in Hi.
      * apply findOne_some in Ef. destruct Ef as [Hin Hq].
        apply andb_true_iff in Hq. destruct Hq as [Hq Hd].
        apply andb_true_iff in Hq. destruct Hq as [Hi Hu].
        apply Nat.eqb_eq in Hi, Hu. exists f. auto.
      * intros Hdis. unfold findOne, byId.
        destruct (List.find _ _) as [e|] eqn:E; [|reflexivity].
        apply find_some in E. destruct E as [He1 He2].
        apply Nat.eqb_eq in He2.
        now apply (deleteOne_by_id Folder._id id (folders s) Hdis) in He1.
    + repeat split; auto; discriminate.
  - injection H as <- <- <-. repeat split; auto; discriminate.
Qed.

Lemma permanentDeleteFolder_frame_witness :
  permanentDeleteFolder allResolve alice 1 storeDocsTrashed
  = (Json200 "folder permanently deleted" None,
     mkStore [Folder.mk 2 "Docs" (Some 1) alice "A/Docs" true (Some 100%Z);
              Folder.mk 3 "Old" (Some 2) alice "A/Docs/Old" true (Some 100%Z)]
             [pic 11 2 alice "app/pic11"],
     ["app/pic10"])
  /\ forall g, In g (folders storeDocsTrashed) -> Folder._id g <> 1 ->
       In g [Folder.mk 2 "Docs" (Some 1) alice "A/Docs" true (Some 100%Z);
             Folder.mk 3 "Old" (Some 2) alice "A/Docs/Old" true (Some 100%Z)].
Proof.
  split; [reflexivity|].
  exact (proj1 (permanentDeleteFolder_frame allResolve alice 1
                  storeDocsTrashed
                  (mkStore
                     [Folder.mk 2 "Docs" (Some 1) alice "A/Docs" true
                                (Some 100%Z);
                      Folder.mk 3 "Old" (Some 2) alice "A/Docs/Old" true
                                (Some 100%Z)]
                     [pic 11 2 alice "app/pic11"])
                  (Json200 "folder permanently deleted" None)
                  ["app/pic10"] eq_refl)).
Defined.

(** ** Hard delete *)

(** C9 (defect in the code): the root folder [A(1)] has a subfolder and an
    image.  Its hard delete answers with success, yet removes no folder
    and no image, not even the root, and calls [destroy] for nothing: the
    path goes into the pattern as it is, [^A(1)] reads [(1)] as a group
    and matches no path of the store. *)
Theorem hardDelete_unescaped_path_removes_nothing (rx : Regex.engine) :
  folders storeParen
  = [Folder.mk 1 "A(1)" None alice "A(1)" false None;
     Folder.mk 2 "c" (Some 1) alice "A(1)/c" false None]
  /\ images storeParen = [pic 10 1 alice "app/pic10"]
  /\ hardDeleteFolder rx allResolve alice 1 storeParen
     = (Json200 "Folder, subfolders, and all images permanently deleted" None,
        storeParen, []).
Proof. repeat split; reflexivity. Qed.

Lemma destroyEachCaught_calls (destroyOk : oracle) (imgs : list Image.doc) :
  destroyEachCaught destroyOk imgs
  = map Image.cloudinaryPublicId
        (find (fun i => JsString.truthy (Image.cloudinaryPublicId i)) imgs).
Proof.
  unfold find. induction imgs as [|i imgs IH]; simpl; [reflexivity|].
  destruct (JsString.truthy (Image.cloudinaryPublicId i)); simpl;
    [|exact IH].
  destruct (destroyOk _); now rewrite IH.
Qed.

Lemma find_find {A} (p q : A -> bool) (c : list A) :
  find p (find q c) = find (fun d => p d && q d) c.
Proof.
  unfold find. induction c as [|d c IH]; simpl; [reflexivity|].
  destruct (q d); simpl.
  - rewrite andb_true_r. destruct (p d); now rewrite IH.
  - now rewrite andb_false_r.
Qed.

(** With distinct ids, the documents a [deleteMany] removed are those whose
    id is no longer in the collection. *)
Lemma deleteMany_gone {A} (key : A -> ObjectId) (q : A -> bool) (c : list A)
  (d : A) :
  distinct (map key c) = true -> In d c ->
  negb (inIds (key d) (map key (deleteMany q c))) = q d.
Proof.
  intros Hdis Hd. unfold deleteMany.
  destruct (q d) eqn:E.
  - apply negb_true_iff.
    destruct (inIds _ _) eqn:Hin; [|reflexivity].
    apply inIds_In, in_map_iff in Hin. destruct Hin as [e [Ek He]].
    apply filter_In in He. destruct He as [He Hq].
    assert (e = d) by (eapply distinct_ids_inj; eauto).
    subst e. rewrite E in Hq. discriminate.
  - apply negb_false_iff, inIds_In, in_map, filter_In.
    split; [assumption | now rewrite E].
Qed.


(** X19: the hard delete answers 404 exactly when the caller owns no
    folder with that id, whatever the trash state of the folders; when the
    caller owns one and its path has no metacharacter, the hard delete
    succeeds,
    no folder of the subtree of the root folder (the owner's folders at
    the root's path or below it) and no image of such a folder is left,
    and [destroy] was called once for each removed image that has a public
    id, in store order, and for nothing else. *)
Theorem hardDelete_subtree (rx : Regex.engine) (destroyOk : oracle)
  (u id : ObjectId) (s : store) :
  (hardDeleteFolder rx destroyOk u id s = (Status404 "Folder not found", s, [])
   <-> (forall f, In f (folders s) -> Folder._id f = id -> Folder.user f <> u))
  /\ (forall f0, In f0 (folders s) -> Folder._id f0 = id -> Folder.user f0 = u ->
      plainPath u id (folders s) ->
      exists f s' calls,
        hardDeleteFolder rx destroyOk u id s
        = (Json200 "Folder, subfolders, and all images permanently deleted"
                   None, s', calls)
        /\ In f (folders s) /\ Folder._id f = id /\ Folder.user f = u
        /\ (forall g, In g (folders s) -> Folder.user g = u ->
              PathModel.isDescendantPath (Folder.path g) (Folder.path f) = true ->
              (forall g', In g' (folders s') -> Folder._id g' <> Folder._id g)
              /\ (forall i', In i' (images s') ->
                             Image.folder i' <> Folder._id g))
        /\ (distinct (map Image._id (images s)) = true ->
            calls
            = map Image.cloudinaryPublicId
                  (find (fun i =>
                           JsString.truthy (Image.cloudinaryPublicId i)
                           && negb (inIds (Image._id i)
                                          (map Image._id (images s'))))
                        (images s)))).
Proof.
  unfold hardDeleteFolder.
  destruct (findOne _ (folders s)) as [f|] eqn:Ef.
  - apply findOne_some in Ef. destruct Ef as [Hin Hq].
    apply andb_true_iff in Hq. destruct Hq as [Hi Hu].
    apply Nat.eqb_eq in Hi, Hu.
    split.
    + split.
      * destruct (findByPathRegex _ _ _ _); discriminate.
      * intros Hno. exfalso. exact (Hno f Hin Hi Hu).
    + intros f0 _ _ _ Hplain.
      rewrite (findByPathRegex_literal rx u _ _ (Hplain f Hin Hi Hu)).
      set (ids := map Folder._id (find _ (folders s))).
      assert (Hsub : forall g, In g (folders s) -> Folder.user g = u ->
                PathModel.isDescendantPath (Folder.path g) (Folder.path f) = true ->
                inIds (Folder._id g) ids = true).
      { intros g Hg Hgu Hd. apply inIds_In, in_map. unfold find.
        apply filter_In. split; [assumption|].
        rewrite Hgu, Nat.eqb_refl. simpl.
        now apply isDescendantPath_startsWith. }
      exists f. do 2 eexists. split; [reflexivity|]. cbn [folders images].
      split; [assumption|]. split; [assumption|].
      split; [assumption|]. split; [|].
      * intros g Hg Hgu Hd. specialize (Hsub g Hg Hgu Hd). split.
        -- intros g' Hg' E. unfold deleteMany in Hg'.
           apply filter_In in Hg'. destruct Hg' as [_ Hg'].
           apply negb_true_iff in Hg'. congruence.
        -- intros i' Hi' E. unfold deleteMany in Hi'.
           apply filter_In in Hi'. destruct Hi' as [_ Hi'].
           apply negb_true_iff in Hi'. congruence.
      * intros Hdis. rewrite destroyEachCaught_calls, find_find.
        f_equal. unfold find. apply filter_ext_in. intros i Hi'.
        f_equal. symmetry.
        now apply (deleteMany_gone Image._id).
  - split.
    + split; [|reflexivity].
      intros _ f Hin Hi Hu.
      apply (findOne_none _ _ Ef) in Hin.
      subst. rewrite !Nat.eqb_refl in Hin. discriminate.
    + intros f0 Hin Hi Hu _. exfalso.
      apply (findOne_none _ _ Ef) in Hin.
      subst. rewrite !Nat.eqb_refl in Hin. discriminate.
Qed.

Lemma hardDelete_subtree_witness :
  In (Folder.mk 2 "Docs" (Some 1) alice "A/Docs" true (Some 100%Z))
     (folders storeDocsTrashed)
  /\ plainPath alice 2 (folders storeDocsTrashed)
  /\ exists f s' calls,
       hardDeleteFolder noEngine allReject alice 2 storeDocsTrashed
       = (Json200 "Folder, subfolders, and all images permanently deleted"
                  None, s', calls)
       /\ In f (folders storeDocsTrashed) /\ Folder._id f = 2
       /\ Folder.user f = alice
       /\ (forall g, In g (folders storeDocsTrashed) -> Folder.user g = alice ->
             PathModel.isDescendantPath (Folder.path g) (Folder.path f) = true ->
             (forall g', In g' (folders s') -> Folder._id g' <> Folder._id g)
             /\ (forall i', In i' (images s') ->
                            Image.folder i' <> Folder._id g))
       /\ (distinct (map Image._id (images storeDocsTrashed)) = true ->
           calls
           = map Image.cloudinaryPublicId
               (find (fun i =>
                        JsString.truthy (Image.cloudinaryPublicId i)
                        && negb (inIds (Image._id i)
                                       (map Image._id (images s'))))
                     (images storeDocsTrashed))).
Proof.
  assert (Hin : In (Folder.mk 2 "Docs" (Some 1) alice "A/Docs" true
                              (Some 100%Z)) (folders storeDocsTrashed))
    by (simpl; auto).
  assert (Hp : plainPath alice 2 (folders storeDocsTrashed)).
  { intros f Hf Hid _. simpl in Hf.
    destruct Hf as [<-|[<-|[<-|[]]]]; try discriminate Hid; reflexivity. }
  split; [exact Hin|]. split; [exact Hp|].
  exact (proj2 (hardDelete_subtree noEngine allReject alice 2 storeDocsTrashed)
               _ Hin eq_refl eq_refl Hp).
Defined.

(** ** Prefixes, separators and replacement *)

Lemma hasChar_cons (x c : ascii) (s : string) :
  JsString.hasChar x (String c s) = Ascii.eqb x c || JsString.hasChar x s.
Proof. reflexivity. Qed.

Lemma hasChar_app (x : ascii) (a b : string) :
  JsString.hasChar x (a ++ b) = JsString.hasChar x a || JsString.hasChar x b.
Proof.
  induction a as [|c a IH]; [reflexivity|].
  simpl append. rewrite !hasChar_cons, IH. now rewrite orb_assoc.
Qed.

Lemma hasChar_sep (x : ascii) (a b : string) :
  JsString.hasChar x (a ++ String x b) = true.
Proof.
  rewrite hasChar_app, hasChar_cons, Ascii.eqb_refl.
  now rewrite orb_true_r.
Qed.

Lemma string_length_app (a b : string) :
  String.length (a ++ b) = String.length a + String.length b.
Proof. induction a as [|c a IH]; simpl; [reflexivity | now rewrite IH]. Qed.

Lemma app_assoc_string (a b c : string) : (a ++ b) ++ c = a ++ (b ++ c).
Proof. induction a as [|x a IH]; simpl; [reflexivity | now rewrite IH]. Qed.

Lemma startsWith_length (p s : string) :
  JsString.startsWith p s = true -> String.length p <= String.length s.
Proof.
  revert s. induction p as [|a p IH]; simpl; intros s H; [lia|].
  destruct s as [|b s]; [discriminate|].
  apply andb_true_iff in H. destruct H as [_ H]. apply IH in H. simpl. lia.
Qed.

Lemma startsWith_app_same (a b c : string) :
  JsString.startsWith (a ++ b) (a ++ c) = JsString.startsWith b c.
Proof.
  induction a as [|x a IH]; simpl; [reflexivity|].
  now rewrite Ascii.eqb_refl.
Qed.

Lemma startsWith_trans (p q s : string) :
  JsString.startsWith p q = true -> JsString.startsWith p (q ++ s) = true.
Proof.
  revert q. induction p as [|a p IH]; simpl; intros q H; [reflexivity|].
  destruct q as [|b q]; [discriminate|]. simpl.
  apply andb_true_iff in H. destruct H as [H1 H2].
  rewrite H1. simpl. now apply IH.
Qed.

(** A string that starts with [a/...] holds a separator. *)
Lemma startsWith_hasChar (x : ascii) (a b z : string) :
  JsString.startsWith (a ++ String x b) z = true ->
  JsString.hasChar x z = true.
Proof.
  intros H. apply startsWith_split in H. rewrite H.
  rewrite app_assoc_string. apply hasChar_sep.
Qed.

Lemma drop_app (n : nat) (a b : string) :
  n <= String.length a -> JsString.drop n (a ++ b) = JsString.drop n a ++ b.
Proof.
  revert a. induction n as [|n IH]; intros a H; [reflexivity|].
  destruct a as [|c a]; simpl in *; [lia|]. apply IH. lia.
Qed.

Lemma drop_exact (p r : string) : JsString.drop (String.length p) (p ++ r) = r.
Proof. induction p as [|c p IH]; simpl; [now destruct r | exact IH]. Qed.

(** Paths [q1/n1] and [q2/n2] with separator-free names are equal only
    when both parts are. *)
Lemma path_split_inj (q1 q2 n1 n2 : string) :
  JsString.hasChar "/" n1 = false -> JsString.hasChar "/" n2 = false ->
  q1 ++ "/" ++ n1 = q2 ++ "/" ++ n2 -> q1 = q2 /\ n1 = n2.
Proof.
  intros H1 H2. revert q2.
  induction q1 as [|c q1 IH]; intros [|c2 q2]; simpl; intros E.
  - injection E as E. auto.
  - injection E as Ec E. subst n1.
    change (q2 ++ String "/" n2) with (q2 ++ String "/"%char n2) in H1.
    rewrite hasChar_sep in H1. discriminate.
  - injection E as Ec E. subst n2. rewrite hasChar_sep in H2. discriminate.
  - injection E as Ec E. destruct (IH _ E) as [-> ->]. subst. auto.
Qed.

(** A path [q/n] below [P/] is either below [P/] with its parent [q], or
    a child of [P] itself. *)
Lemma startsWith_child (P q n : string) :
  JsString.hasChar "/" n = false ->
  JsString.startsWith (P ++ "/") (q ++ "/" ++ n) = true ->
  JsString.startsWith (P ++ "/") q = true \/ P = q.
Proof.
  intros Hn. revert q. induction P as [|a P IH]; intros [|c q]; simpl; intros H.
  - now right.
  - left. apply andb_true_iff in H. destruct H as [H _].
    now rewrite H.
  - apply andb_true_iff in H. destruct H as [_ H].
    apply startsWith_hasChar in H. congruence.
  - apply andb_true_iff in H. destruct H as [H1 H2].
    apply Ascii.eqb_eq in H1. subst c. rewrite Ascii.eqb_refl. simpl.
    destruct (IH _ H2) as [H|H]; [now left | right; now subst].
Qed.

Lemma getSubstitution_plain (m b a t : string) :
  JsString.hasChar "$" t = false -> JsString.getSubstitution m b a t = t.
Proof.
  induction t as [|c t IH]; [reflexivity|].
  rewrite hasChar_cons. intros H. apply orb_false_iff in H.
  destruct H as [H1 H2]. simpl. rewrite Ascii.eqb_sym, H1.
  now rewrite (IH H2).
Qed.

Lemma splitAtFirst_prefix (p s : string) :
  JsString.startsWith p s = true ->
  JsString.splitAtFirst p s = Some (EmptyString, JsString.drop (String.length p) s).
Proof. intros H. destruct s; simpl; now rewrite H. Qed.

(** The rewrite of the rename loop is a prefix replacement when the path
    starts with the old path and the new path holds no dollar. *)
Lemma replace_prefix (s p t : string) :
  JsString.startsWith p s = true -> JsString.hasChar "$" t = false ->
  JsString.replace s p t = t ++ JsString.drop (String.length p) s.
Proof.
  intros Hp Ht. unfold JsString.replace.
  rewrite (splitAtFirst_prefix _ _ Hp). simpl.
  now rewrite getSubstitution_plain.
Qed.

(** ** Rename *)

Lemma inIds_filter {A} (key : A -> ObjectId) (q : A -> bool) (c : list A) x :
  inIds x (map key (List.filter q c)) = true -> inIds x (map key c) = true.
Proof.
  rewrite !inIds_In, !in_map_iff. intros [d [E Hd]].
  apply filter_In in Hd. exists d. tauto.
Qed.

Lemma distinct_filter {A} (key : A -> ObjectId) (q : A -> bool) (c : list A) :
  distinct (map key c) = true -> distinct (map key (List.filter q c)) = true.
Proof.
  induction c as [|d c IH]; simpl; [reflexivity|].
  intros H. apply andb_true_iff in H. destruct H as [Hn Hdis].
  destruct (q d); simpl; [|auto].
  rewrite (IH Hdis), andb_true_r. apply negb_true_iff.
  apply negb_true_iff in Hn.
  destruct (inIds (key d) (map key (List.filter q c))) eqn:E; [|reflexivity].
  apply inIds_filter in E. congruence.
Qed.

Lemma findOne_in_filter (q : Folder.doc -> bool) (c : list Folder.doc)
  (e : Folder.doc) :
  distinct (map Folder._id c) = true -> In e c ->
  findOne (fun sub => Nat.eqb (Folder._id sub) (Folder._id e)) (find q c)
  = if q e then Some e else None.
Proof.
  intros Hdis He. destruct (q e) eqn:E.
  - apply (findOne_by_id Folder._id).
    + unfold find. now apply distinct_filter.
    + unfold find. apply filter_In. auto.
    + apply Nat.eqb_refl.
    + intros d Hd. now apply Nat.eqb_eq.
  - destruct (findOne _ (find q c)) as [d|] eqn:Ed; [|reflexivity].
    apply findOne_some in Ed. destruct Ed as [Hd Hk].
    unfold find in Hd. apply filter_In in Hd. destruct Hd as [Hd Hq].
    apply Nat.eqb_eq in Hk.
    assert (d = e) by (eapply distinct_ids_inj; eauto).
    subst. congruence.
Qed.

(** The loop over the subfolders, one save after the other, seen as one
    pass over the collection. *)
Lemma rewriteSubfolders_fold (o n : string) (l c : list Folder.doc) :
  distinct (map Folder._id l) = true ->
  rewriteSubfolders o n l c
  = map (fun e =>
           match findOne (fun sub => Nat.eqb (Folder._id sub) (Folder._id e)) l with
           | Some sub => Folder.setPath (JsString.replace (Folder.path sub) o n) e
           | None => e
           end) c.
Proof.
  unfold rewriteSubfolders. revert c.
  induction l as [|a l IH]; intros c Hdis; simpl.
  - now rewrite map_id.
  - simpl in Hdis. apply andb_true_iff in Hdis. destruct Hdis as [Hn Hdis].
    apply negb_true_iff in Hn.
    rewrite (IH _ Hdis). unfold Folder.savePath. rewrite map_map.
    apply map_ext. intros e. simpl.
    rewrite (Nat.eqb_sym (Folder._id a)).
    destruct (Nat.eqb (Folder._id e) (Folder._id a)) eqn:E; [|reflexivity].
    apply Nat.eqb_eq in E. simpl.
    destruct (findOne _ l) as [d|] eqn:Ed; [|reflexivity].
    apply findOne_some in Ed. destruct Ed as [Hd Hk].
    apply Nat.eqb_eq in Hk.
    assert (inIds (Folder._id a) (map Folder._id l) = true)
      by (apply inIds_In; rewrite <- E, <- Hk; now apply in_map).
    congruence.
Qed.

Lemma rewriteSubfolders_map (o n : string) (q : Folder.doc -> bool)
  (c : list Folder.doc) :
  distinct (map Folder._id c) = true ->
  rewriteSubfolders o n (find q c) c
  = map (fun e => if q e
                  then Folder.setPath (JsString.replace (Folder.path e) o n) e
                  else e) c.
Proof.
  intros Hdis. rewrite rewriteSubfolders_fold
    by (unfold find; now apply distinct_filter).
  apply map_ext_in. intros e He.
  rewrite findOne_in_filter by assumption. now destruct (q e).
Qed.

(** *** Well-formed collections *)

Lemma wellFormed_parts (c : list Folder.doc) :
  wellFormed c = true ->
  distinct (map Folder._id c) = true /\ pathInvariant c = true
  /\ slashFree c = true /\ forallb (ownerOk c) c = true
  /\ uniqueIndex c = true.
Proof.
  unfold wellFormed. intros H.
  repeat (apply andb_true_iff in H; destruct H as [H ?]). auto.
Qed.

Lemma eqbOptId_eq (a b : option ObjectId) : eqbOptId a b = true <-> a = b.
Proof.
  destruct a, b; simpl; try (split; congruence).
  rewrite Nat.eqb_eq. split; congruence.
Qed.

Lemma sameKey_eq (f g : Folder.doc) :
  Folder.sameKey f g = true
  <-> Folder.user f = Folder.user g
      /\ Folder.parentFolder f = Folder.parentFolder g
      /\ Folder.name f = Folder.name g.
Proof.
  unfold Folder.sameKey.
  rewrite !andb_true_iff, Nat.eqb_eq, eqbOptId_eq, String.eqb_eq. tauto.
Qed.

Lemma uniqueIndex_inj (c : list Folder.doc) (f g : Folder.doc) :
  uniqueIndex c = true -> In f c -> In g c -> Folder.sameKey f g = true ->
  Folder._id f = Folder._id g.
Proof.
  unfold uniqueIndex. intros H Hf Hg Hk.
  rewrite forallb_forall in H. specialize (H f Hf).
  rewrite forallb_forall in H. specialize (H g Hg).
  rewrite Hk in H. simpl in H. now apply Nat.eqb_eq.
Qed.

Lemma folder_placed (c : list Folder.doc) (e : Folder.doc) :
  wellFormed c = true -> In e c ->
  JsString.hasChar "/" (Folder.name e) = false /\ placed c e.
Proof.
  intros H He. apply wellFormed_parts in H.
  destruct H as (_ & Hp & Hs & Ho & _).
  unfold pathInvariant in Hp. unfold slashFree in Hs.
  rewrite forallb_forall in Hp, Hs, Ho.
  specialize (Hp e He). specialize (Hs e He). specialize (Ho e He).
  split; [now apply negb_true_iff in Hs|].
  unfold pathOk in Hp. unfold ownerOk in Ho.
  destruct (Folder.parentFolder e) as [pid|] eqn:Epar.
  - destruct (findOne (byId pid) c) as [p|] eqn:Ep; [|discriminate].
    pose proof (findOne_some _ _ _ Ep) as [Hin Hid].
    unfold byId in Hid. apply Nat.eqb_eq in Hid. subst pid.
    apply String.eqb_eq in Hp. apply Nat.eqb_eq in Ho.
    now apply (placedChild c e p).
  - apply String.eqb_eq in Hp. now apply placedRoot.
Qed.

(** In a well-formed collection an owner has no two folders with the same
    path. *)
Lemma paths_unique (c : list Folder.doc) :
  wellFormed c = true ->
  forall n f g,
    String.length (Folder.path f) < n -> In f c -> In g c ->
    Folder.user f = Folder.user g -> Folder.path f = Folder.path g ->
    Folder._id f = Folder._id g.
Proof.
  intros Hwf. pose proof (wellFormed_parts c Hwf) as (_ & _ & _ & _ & Hu).
  induction n as [|n IH]; intros f g Hlen Hf Hg Eu Ep; [lia|].
  destruct (folder_placed c f Hwf Hf) as [Hsf [Hrf Hpf | pf Hparf _ Hinf Huf Hpf]];
  destruct (folder_placed c g Hwf Hg) as [Hsg [Hrg Hpg | pg Hparg _ Hing Hug Hpg]].
  - apply (uniqueIndex_inj c); auto. apply sameKey_eq. repeat split; congruence.
  - exfalso. rewrite Hpf, Hpg in Ep. rewrite Ep in Hsf.
    change (Folder.path pg ++ "/" ++ Folder.name g)
      with (Folder.path pg ++ String "/"%char (Folder.name g)) in Hsf.
    rewrite hasChar_sep in Hsf. discriminate.
  - exfalso. rewrite Hpf, Hpg in Ep. rewrite <- Ep in Hsg.
    change (Folder.path pf ++ "/" ++ Folder.name f)
      with (Folder.path pf ++ String "/"%char (Folder.name f)) in Hsg.
    rewrite hasChar_sep in Hsg. discriminate.
  - rewrite Hpf, Hpg in Ep.
    destruct (path_split_inj _ _ _ _ Hsf Hsg Ep) as [Eq En].
    assert (Folder._id pf = Folder._id pg) as Eid.
    { apply IH; auto; try congruence.
      rewrite Hpf, string_length_app in Hlen. simpl in Hlen. lia. }
    apply (uniqueIndex_inj c); auto. apply sameKey_eq.
    repeat split; congruence.
Qed.

Lemma sameKey_sym (e g : Folder.doc) :
  Folder.sameKey e g = Folder.sameKey g e.
Proof.
  destruct (Folder.sameKey e g) eqn:E1, (Folder.sameKey g e) eqn:E2; auto.
  - apply sameKey_eq in E1. rewrite <- E2. symmetry. apply sameKey_eq.
    intuition congruence.
  - apply sameKey_eq in E2. rewrite <- E1. apply sameKey_eq.
    intuition congruence.
Qed.

(** *** One rename step on a well-formed collection *)

Section RenameStep.

Variable c : list Folder.doc.
Variables u id : ObjectId.
Variables n' newPath : string.
Variable F : Folder.doc.

Hypothesis Hwf : wellFormed c = true.
Hypothesis HF : In F c.
Hypothesis HFid : Folder._id F = id.
Hypothesis HFu : Folder.user F = u.
Hypothesis Hn' : JsString.hasChar "/" n' = false.
Hypothesis Hnew :
  (Folder.parentFolder F = None /\ newPath = n')
  \/ (exists p, Folder.parentFolder F = Some (Folder._id p)
                /\ findOne (byId (Folder._id p)) c = Some p
                /\ newPath = Folder.path p ++ "/" ++ n').
Hypothesis Hkey :
  forall e, In e c -> Folder._id e <> id ->
            Folder.sameKey e (Folder.setNamePath n' newPath F) = false.

Local Abbreviation h := (renamedDoc u id n' (Folder.path F) newPath).
Local Arguments renamedDoc : simpl never.

Lemma renamedDoc_fields (e : Folder.doc) :
  Folder._id (h e) = Folder._id e
  /\ Folder.user (h e) = Folder.user e
  /\ Folder.parentFolder (h e) = Folder.parentFolder e
  /\ Folder.name (h e) = if Nat.eqb (Folder._id e) id then n' else Folder.name e.
Proof.
  unfold renamedDoc.
  destruct (Nat.eqb (Folder._id e) id); [simpl; auto|].
  destruct (belowOld u (Folder.path F) e); simpl; auto.
Qed.

Lemma renamed_lookup (k : ObjectId) :
  findOne (byId k) (map h c) = option_map h (findOne (byId k) c).
Proof.
  apply find_map_stable. intros d. unfold byId.
  now destruct (renamedDoc_fields d) as (-> & _).
Qed.

Lemma renamed_is_F (e : Folder.doc) :
  In e c -> Folder._id e = id -> e = F.
Proof.
  intros He E. pose proof (wellFormed_parts c Hwf) as (Hd & _).
  eapply distinct_ids_inj; eauto. congruence.
Qed.

Lemma renamed_F : h F = Folder.setNamePath n' newPath F.
Proof. unfold renamedDoc. now rewrite HFid, Nat.eqb_refl. Qed.

(** The parent of the renamed folder keeps its path. *)
Lemma renamed_parent_of_F (p : Folder.doc) :
  In p c -> Folder.path F = Folder.path p ++ "/" ++ Folder.name F -> h p = p.
Proof.
  intros Hp E. unfold renamedDoc.
  destruct (Nat.eqb (Folder._id p) id) eqn:Ei.
  - apply Nat.eqb_eq in Ei. apply renamed_is_F in Ei; [|assumption]. subst p.
    apply (f_equal String.length) in E.
    rewrite string_length_app in E. simpl in E. lia.
  - unfold belowOld.
    destruct (JsString.startsWith _ (Folder.path p)) eqn:Es;
      [|now rewrite andb_false_r].
    apply startsWith_length in Es. rewrite E, !string_length_app in Es.
    simpl in Es. lia.
Qed.

Lemma renamed_pathOk (e : Folder.doc) :
  In e c -> pathOk (map h c) (h e) = true.
Proof.
  intros He. unfold pathOk.
  destruct (renamedDoc_fields e) as (_ & _ & Epar & Ename).
  rewrite Epar.
  destruct (folder_placed c e Hwf He) as [Hse [Hroot Hpath | p Hpar Hfind Hp Hup Hpath]].
  - (* a root folder *)
    rewrite Hroot. apply String.eqb_eq. simpl.
    destruct (Nat.eqb (Folder._id e) id) eqn:Ei.
    + apply Nat.eqb_eq in Ei. apply renamed_is_F in Ei; [|assumption].
      subst e. rewrite renamed_F. simpl.
      destruct Hnew as [[_ ->]|[p [Hp _]]]; [reflexivity | congruence].
    + rewrite Ename. unfold renamedDoc. rewrite Ei.
      unfold belowOld.
      destruct (JsString.startsWith _ (Folder.path e)) eqn:Es.
      * apply startsWith_hasChar in Es. rewrite Hpath, Hse in Es.
        discriminate.
      * now rewrite andb_false_r.
  - (* a folder with a parent *)
    rewrite Hpar, renamed_lookup, Hfind. simpl. apply String.eqb_eq.
    rewrite Ename.
    destruct (Nat.eqb (Folder._id e) id) eqn:Ei.
    + apply Nat.eqb_eq in Ei. apply renamed_is_F in Ei; [|assumption].
      subst e. rewrite renamed_F. simpl.
      rewrite (renamed_parent_of_F p Hp Hpath).
      destruct Hnew as [[Hno _]|[p0 (Hp0 & Hf0 & ->)]]; [congruence|].
      assert (Folder._id p0 = Folder._id p) as E0 by congruence.
      rewrite E0 in Hf0. assert (p0 = p) by congruence. now subst p0.
    + unfold renamedDoc at 1. rewrite Ei.
      destruct (Nat.eqb (Folder._id p) id) eqn:Ep.
      * apply Nat.eqb_eq in Ep. apply renamed_is_F in Ep; [|assumption].
        subst p. rewrite renamed_F. simpl.
        unfold belowOld. rewrite Hpath, <- Hup, HFu, Nat.eqb_refl.
        change (Folder.path F ++ "/" ++ Folder.name e)
          with (Folder.path F ++ ("/" ++ Folder.name e)).
        rewrite <- app_assoc_string, startsWith_app. simpl.
        rewrite app_assoc_string, drop_exact. reflexivity.
      * assert (Hsame : belowOld u (Folder.path F) e
                        = belowOld u (Folder.path F) p).
        { unfold belowOld. rewrite Hup, Hpath.
          destruct (Nat.eqb (Folder.user e) u) eqn:Eu; [|reflexivity]. simpl.
          destruct (JsString.startsWith _ (Folder.path p)) eqn:Es.
          - now apply startsWith_trans.
          - apply Nat.eqb_eq in Eu.
            destruct (JsString.startsWith _ (_ ++ _)) eqn:Es'; [|reflexivity].
            apply startsWith_child in Es'; [|assumption].
            destruct Es' as [Es'|Es']; [congruence|].
            apply Nat.eqb_neq in Ep. exfalso. apply Ep.
            rewrite <- HFid. symmetry.
            apply (paths_unique c Hwf (S (String.length (Folder.path F))));
              auto; congruence. }
        unfold renamedDoc. rewrite Ep, <- Hsame.
        destruct (belowOld u (Folder.path F) e) eqn:Eb; [|assumption].
        simpl. symmetry in Hsame. unfold belowOld in Hsame.
        apply andb_true_iff in Hsame. destruct Hsame as [_ Hlen].
        apply startsWith_length in Hlen. rewrite string_length_app in Hlen.
        simpl in Hlen. rewrite Hpath, drop_app by lia.
        now rewrite app_assoc_string.
Qed.

Lemma sameKey_renamed (e g : Folder.doc) :
  Folder._id e <> id -> Folder.sameKey (h e) g = Folder.sameKey e g.
Proof.
  intros Hne. unfold Folder.sameKey.
  destruct (renamedDoc_fields e) as (_ & -> & -> & ->).
  apply Nat.eqb_neq in Hne. now rewrite Hne.
Qed.

Lemma renamed_wellFormed : wellFormed (map h c) = true.
Proof.
  pose proof (wellFormed_parts c Hwf) as (Hd & _ & Hs & Ho & Hu).
  unfold wellFormed. repeat (apply andb_true_iff; split).
  - rewrite map_map. erewrite map_ext; [exact Hd|].
    intros e. now destruct (renamedDoc_fields e) as (-> & _).
  - unfold pathInvariant. apply forallb_forall. intros e' He'.
    apply in_map_iff in He'. destruct He' as [e [<- He]].
    now apply renamed_pathOk.
  - unfold slashFree in *. rewrite forallb_forall in *. intros e' He'.
    apply in_map_iff in He'. destruct He' as [e [<- He]].
    destruct (renamedDoc_fields e) as (_ & _ & _ & ->).
    destruct (Nat.eqb (Folder._id e) id); [now rewrite Hn' | auto].
  - rewrite forallb_forall in *. intros e' He'.
    apply in_map_iff in He'. destruct He' as [e [<- He]].
    specialize (Ho e He). unfold ownerOk in *.
    destruct (renamedDoc_fields e) as (_ & -> & -> & _).
    destruct (Folder.parentFolder e) as [pid|]; [|reflexivity].
    rewrite renamed_lookup.
    destruct (findOne (byId pid) c) as [p|]; [|discriminate]. simpl.
    now destruct (renamedDoc_fields p) as (_ & -> & _).
  - unfold uniqueIndex. apply forallb_forall. intros e1' He1.
    apply forallb_forall. intros e2' He2.
    apply in_map_iff in He1, He2.
    destruct He1 as [e1 [<- He1]], He2 as [e2 [<- He2]].
    destruct (renamedDoc_fields e1) as (-> & _).
    destruct (renamedDoc_fields e2) as (-> & _).
    destruct (Folder.sameKey (h e1) (h e2)) eqn:Ek; [simpl|reflexivity].
    apply Nat.eqb_eq.
    destruct (Nat.eq_dec (Folder._id e1) id) as [E1|E1];
      destruct (Nat.eq_dec (Folder._id e2) id) as [E2|E2]; [congruence| | |].
    + apply renamed_is_F in E1; [|assumption]. subst e1.
      rewrite sameKey_sym, sameKey_renamed, renamed_F in Ek by assumption.
      rewrite (Hkey e2 He2 E2) in Ek. discriminate.
    + apply renamed_is_F in E2; [|assumption]. subst e2.
      rewrite sameKey_renamed, renamed_F in Ek by assumption.
      rewrite (Hkey e1 He1 E1) in Ek. discriminate.
    + rewrite sameKey_renamed in Ek by assumption.
      rewrite sameKey_sym, sameKey_renamed, sameKey_sym in Ek by assumption.
      now apply (uniqueIndex_inj c).
Qed.

(** The renamed folder itself does not lie below its old path. *)
Lemma renamed_F_not_below :
  belowOld u (Folder.path F) (Folder.setNamePath n' newPath F) = false.
Proof.
  unfold belowOld. simpl.
  destruct (JsString.startsWith (Folder.path F ++ "/") newPath) eqn:Es;
    [|now rewrite andb_false_r].
  exfalso.
  destruct (folder_placed c F Hwf HF) as [_ [Hroot Hpath | p Hpar Hfind _ _ Hpath]].
  - destruct Hnew as [[_ ->]|[p [Hp _]]]; [|congruence].
    apply startsWith_hasChar in Es. congruence.
  - destruct Hnew as [[Hno _]|[p0 (Hp0 & Hf0 & ->)]]; [congruence|].
    assert (Folder._id p0 = Folder._id p) as E0 by congruence.
    rewrite E0 in Hf0. assert (p0 = p) by congruence. subst p0.
    rewrite Hpath, app_assoc_string, startsWith_app_same in Es.
    simpl in Es. apply startsWith_hasChar in Es. congruence.
Qed.

(** The save of the renamed folder followed by the loop over the folders
    below the old path is one pass of [renamedDoc]. *)
Lemma rename_passes (Hdollar : JsString.hasChar "$" newPath = false) :
  let fs1 := map (fun e => if Nat.eqb (Folder._id e) id
                           then Folder.setNamePath n' newPath e else e) c in
  rewriteSubfolders (Folder.path F) newPath
                    (find (belowOld u (Folder.path F)) fs1) fs1
  = map h c.
Proof.
  intros fs1. pose proof (wellFormed_parts c Hwf) as (Hd & _).
  rewrite rewriteSubfolders_map.
  - unfold fs1. rewrite map_map. apply map_ext_in. intros e He.
    unfold renamedDoc.
    destruct (Nat.eqb (Folder._id e) id) eqn:Ei.
    + apply Nat.eqb_eq in Ei. apply renamed_is_F in Ei; [|assumption].
      subst e. now rewrite renamed_F_not_below.
    + destruct (belowOld u (Folder.path F) e) eqn:Eb; [|reflexivity].
      rewrite replace_prefix; [reflexivity| |assumption].
      unfold belowOld in Eb. apply andb_true_iff in Eb.
      destruct Eb as [_ Eb]. eapply startsWith_app_l; eauto.
  - unfold fs1. rewrite map_map. erewrite map_ext; [exact Hd|].
    intros e. now destruct (Nat.eqb (Folder._id e) id).
Qed.

End RenameStep.

(** *** The rename route on a well-formed collection *)

Lemma existsb_false_in {A} (q : A -> bool) (c : list A) (d : A) :
  existsb q c = false -> In d c -> q d = false.
Proof.
  intros H Hd. destruct (q d) eqn:E; [|reflexivity].
  assert (existsb q c = true) by (apply existsb_exists; eauto). congruence.
Qed.


Lemma literal_app (a b : string) :
  Regex.literal (a ++ b) = Regex.literal a && Regex.literal b.
Proof.
  unfold Regex.literal. induction a as [|c a IH]; simpl; [reflexivity|].
  now rewrite IH, andb_assoc.
Qed.


(** What a successful rename of a folder with a path without
    metacharacter did. *)
Lemma renameFolder_success (rx : Regex.engine) (u id : ObjectId)
  (name msg : string) (f : Folder.doc) (s s' : store) :
  wellFormed (folders s) = true ->
  plainPath u id (folders s) ->
  JsString.hasChar "/" (JsString.trim name) = false ->
  JsString.hasChar "$" (Folder.path f) = false ->
  renameFolder rx u id name s = (Json200 msg (Some f), s') ->
  exists F,
    In F (folders s) /\ Folder._id F = id /\ Folder.user F = u
    /\ f = Folder.setNamePath (JsString.trim name) (Folder.path f) F
    /\ ((Folder.parentFolder F = None /\ Folder.path f = JsString.trim name)
        \/ (exists p, Folder.parentFolder F = Some (Folder._id p)
                      /\ findOne (byId (Folder._id p)) (folders s) = Some p
                      /\ Folder.path f
                         = Folder.path p ++ "/" ++ JsString.trim name))
    /\ (forall e, In e (folders s) -> Folder._id e <> id ->
                  Folder.sameKey e f = false)
    /\ folders s'
       = map (renamedDoc u id (JsString.trim name) (Folder.path F)
                         (Folder.path f)) (folders s)
    /\ images s' = images s.
Proof.
  intros Hwf Hplain Hslash Hdollar. unfold renameFolder. intros H.
  destruct (nameMissing name); [discriminate H|].
  destruct (findOne _ (folders s)) as [F|] eqn:EF; [|discriminate H].
  match type of H with
  | context [findOne ?q (folders s)] =>
      destruct (findOne q (folders s)) as [dup|]; [discriminate H|]
  end.
  pose proof (findOne_some _ _ _ EF) as [HF Hq].
  apply andb_true_iff in Hq. destruct Hq as [Hq _].
  apply andb_true_iff in Hq. destruct Hq as [Hid Hu].
  apply Nat.eqb_eq in Hid, Hu.
  set (n' := JsString.trim name).
  assert (Hnew : forall newPath,
             match Folder.parentFolder F with
             | Some pid =>
                 match findOne (fun f0 => Nat.eqb (Folder._id f0) pid)
                               (folders s) with
                 | Some parent => Some (Folder.path parent ++ "/" ++ n')
                 | None => None
                 end
             | None => Some n'
             end = Some newPath ->
             (Folder.parentFolder F = None /\ newPath = n')
             \/ (exists p, Folder.parentFolder F = Some (Folder._id p)
                           /\ findOne (byId (Folder._id p)) (folders s) = Some p
                           /\ newPath = Folder.path p ++ "/" ++ n')).
  { intros newPath E. destruct (Folder.parentFolder F) as [pid|].
    - right.
      match type of E with
      | context [findOne ?q (folders s)] =>
          destruct (findOne q (folders s)) as [p|] eqn:Ep; [|discriminate E]
      end.
      injection E as <-. exists p.
      pose proof (findOne_some _ _ _ Ep) as [_ Hp]. apply Nat.eqb_eq in Hp.
      subst pid. auto.
    - left. injection E as <-. auto. }
  fold n' in H.
  destruct (match Folder.parentFolder F with Some _ => _ | None => _ end)
    as [newPath|] eqn:Enew; [|discriminate H].
  specialize (Hnew newPath eq_refl).
  unfold Folder.saveNamePath in H. simpl in H.
  destruct (existsb _ (folders s)) eqn:Ex; [discriminate H|].
  rewrite (findByPathRegex_literal rx u (Folder.path F ++ "/")) in H
    by (rewrite literal_app, (Hplain F HF Hid Hu); reflexivity).
  injection H as _ <- <-. simpl in Hdollar.
  exists F. simpl. repeat (split; [assumption || reflexivity|]).
  assert (Hkey : forall e, In e (folders s) -> Folder._id e <> id ->
             Folder.sameKey e (Folder.setNamePath n' newPath F) = false).
  { intros e He Hne. pose proof (existsb_false_in _ _ e Ex He) as Hx.
    simpl in Hx. rewrite Hid in Hx. apply Nat.eqb_neq in Hne.
    now rewrite Hne in Hx. }
  split; [exact Hkey|]. split; [|reflexivity].
  rewrite Hid.
  exact (rename_passes (folders s) u id n' newPath F Hwf HF Hid Hslash Hnew
                       Hkey Hdollar).
Qed.

(** *** The create route on a well-formed collection *)

Lemma findOne_app_some {A} (q : A -> bool) (c l : list A) (d : A) :
  findOne q c = Some d -> findOne q (c ++ l)%list = Some d.
Proof.
  unfold findOne. induction c as [|e c IH]; simpl; [discriminate|].
  destruct (q e); auto.
Qed.

Lemma pathOk_app (c l : list Folder.doc) (e : Folder.doc) :
  pathOk c e = true -> pathOk (c ++ l)%list e = true.
Proof.
  unfold pathOk. destruct (Folder.parentFolder e) as [pid|]; [|auto].
  destruct (findOne (byId pid) c) as [p|] eqn:E; [|discriminate].
  now rewrite (findOne_app_some _ _ l _ E).
Qed.

Lemma ownerOk_app (c l : list Folder.doc) (e : Folder.doc) :
  ownerOk c e = true -> ownerOk (c ++ l)%list e = true.
Proof.
  unfold ownerOk. destruct (Folder.parentFolder e) as [pid|]; [|auto].
  destruct (findOne (byId pid) c) as [p|] eqn:E; [|discriminate].
  now rewrite (findOne_app_some _ _ l _ E).
Qed.

Lemma inIds_snoc (x y : ObjectId) (l : list ObjectId) :
  inIds x (l ++ [y])%list = inIds x l || Nat.eqb x y.
Proof. unfold inIds. rewrite existsb_app. simpl. now rewrite orb_false_r. Qed.

Lemma distinct_snoc (l : list ObjectId) (y : ObjectId) :
  distinct l = true -> inIds y l = false -> distinct (l ++ [y])%list = true.
Proof.
  induction l as [|x l IH]; simpl; [reflexivity|].
  intros H Hy. apply andb_true_iff in H. destruct H as [Hx Hd].
  apply orb_false_iff in Hy. destruct Hy as [Hyx Hy].
  rewrite inIds_snoc, (IH Hd Hy), Nat.eqb_sym, Hyx.
  apply negb_true_iff in Hx. now rewrite Hx.
Qed.

(** What a successful create did. *)
Lemma createFolder_success (newId u : ObjectId) (name : string)
  (parent : option ObjectId) (f : Folder.doc) (s s' : store) :
  createFolder newId u name parent s = (Json201 f, s') ->
  f = Folder.mk newId (JsString.trim name) parent u (Folder.path f) false None
  /\ ((parent = None /\ Folder.path f = JsString.trim name)
      \/ (exists p, parent = Some (Folder._id p) /\ In p (folders s)
                    /\ Folder.user p = u
                    /\ Folder.path f
                       = Folder.path p ++ "/" ++ JsString.trim name))
  /\ (forall e, In e (folders s) ->
                Folder._id e <> newId /\ Folder.sameKey e f = false)
  /\ folders s' = (folders s ++ [f])%list
  /\ images s' = images s.
Proof.
  unfold createFolder. intros H.
  destruct (nameMissing name); [discriminate H|].
  set (n' := JsString.trim name) in *.
  assert (Hloc : forall path,
             match parent with
             | Some pid =>
                 match findOne (fun f0 => Nat.eqb (Folder._id f0) pid
                                          && Nat.eqb (Folder.user f0) u)
                               (folders s) with
                 | Some parentFolder =>
                     Some (Folder.path parentFolder ++ "/" ++ n')
                 | None => None
                 end
             | None => Some n'
             end = Some path ->
             (parent = None /\ path = n')
             \/ (exists p, parent = Some (Folder._id p) /\ In p (folders s)
                           /\ Folder.user p = u
                           /\ path = Folder.path p ++ "/" ++ n')).
  { intros path E. destruct parent as [pid|].
    - right. destruct (findOne _ (folders s)) as [p|] eqn:Ep; [|discriminate E].
      injection E as <-. apply findOne_some in Ep. destruct Ep as [Hp Hq].
      apply andb_true_iff in Hq. destruct Hq as [Hi Hu].
      apply Nat.eqb_eq in Hi, Hu. subst pid. exists p. auto.
    - left. injection E as <-. auto. }
  destruct (match parent with Some _ => _ | None => _ end) as [path|];
    [|discriminate H].
  specialize (Hloc path eq_refl).
  unfold Folder.insert in H.
  destruct (existsb _ (folders s)) eqn:Ex; [discriminate H|].
  injection H as <- <-. simpl. repeat split; auto.
  - pose proof (existsb_false_in _ _ e Ex H) as Hx. simpl in Hx.
    apply orb_false_iff in Hx. destruct Hx as [Hx _].
    now apply Nat.eqb_neq.
  - pose proof (existsb_false_in _ _ e Ex H) as Hx. simpl in Hx.
    apply orb_false_iff in Hx. now destruct Hx as [_ Hx].
Qed.

Lemma created_pathInvariant (c : list Folder.doc) (f : Folder.doc) :
  distinct (map Folder._id c) = true -> pathInvariant c = true ->
  ((Folder.parentFolder f = None /\ Folder.path f = Folder.name f)
   \/ (exists p, Folder.parentFolder f = Some (Folder._id p) /\ In p c
                 /\ Folder.path f = Folder.path p ++ "/" ++ Folder.name f)) ->
  pathInvariant (c ++ [f])%list = true.
Proof.
  intros Hd Hp Hf. unfold pathInvariant in *. rewrite forallb_app.
  apply andb_true_iff. split.
  - rewrite forallb_forall in *. intros e He. apply pathOk_app. auto.
  - simpl. rewrite andb_true_r. unfold pathOk.
    destruct Hf as [[-> ->]|[p (-> & Hin & ->)]].
    + apply String.eqb_refl.
    + rewrite (findOne_app_some _ c [f] p).
      * apply String.eqb_refl.
      * apply (findOne_by_id Folder._id); auto.
        -- apply Nat.eqb_refl.
        -- intros e He. now apply Nat.eqb_eq.
Qed.

Lemma created_wellFormed (c : list Folder.doc) (f : Folder.doc) :
  wellFormed c = true ->
  ((Folder.parentFolder f = None /\ Folder.path f = Folder.name f)
   \/ (exists p, Folder.parentFolder f = Some (Folder._id p) /\ In p c
                 /\ Folder.user p = Folder.user f
                 /\ Folder.path f = Folder.path p ++ "/" ++ Folder.name f)) ->
  (forall e, In e c -> Folder._id e <> Folder._id f
                       /\ Folder.sameKey e f = false) ->
  JsString.hasChar "/" (Folder.name f) = false ->
  wellFormed (c ++ [f])%list = true.
Proof.
  intros Hwf Hf Hfresh Hslash.
  pose proof (wellFormed_parts c Hwf) as (Hd & Hp & Hs & Ho & Hu).
  assert (Hlook : forall p, In p c ->
            findOne (byId (Folder._id p)) (c ++ [f])%list = Some p).
  { intros p Hin. apply findOne_app_some.
    apply (findOne_by_id Folder._id); auto.
    - apply Nat.eqb_refl.
    - intros e He. now apply Nat.eqb_eq. }
  unfold wellFormed. repeat (apply andb_true_iff; split).
  - rewrite map_app. simpl. apply distinct_snoc; [assumption|].
    destruct (inIds _ _) eqn:E; [|reflexivity].
    apply inIds_In, in_map_iff in E. destruct E as [e [E He]].
    destruct (Hfresh e He) as [Hne _]. congruence.
  - apply created_pathInvariant; auto.
    destruct Hf as [Hf|[p (H1 & H2 & _ & H3)]]; [now left | right; eauto].
  - unfold slashFree in *. rewrite forallb_app, Hs. simpl.
    now rewrite Hslash.
  - rewrite forallb_app. apply andb_true_iff. split.
    + rewrite forallb_forall in *. intros e He. apply ownerOk_app. auto.
    + simpl. rewrite andb_true_r. unfold ownerOk.
      destruct Hf as [[-> _]|[p (-> & Hin & Hup & _)]]; [reflexivity|].
      rewrite (Hlook p Hin). now apply Nat.eqb_eq.
  - unfold uniqueIndex in *. rewrite forallb_forall in *.
    intros e1 He1. rewrite forallb_forall. intros e2 He2.
    apply in_app_iff in He1, He2. simpl in He1, He2.
    destruct He1 as [He1|[<-|[]]], He2 as [He2|[<-|[]]].
    + specialize (Hu e1 He1). rewrite forallb_forall in Hu. auto.
    + destruct (Hfresh e1 He1) as [_ ->]. reflexivity.
    + destruct (Hfresh e2 He2) as [_ Hk].
      rewrite sameKey_sym, Hk. reflexivity.
    + rewrite Nat.eqb_refl. apply implb_true_r.
Qed.

(** C2 (amended): on a collection where every folder has the path computed
    from its name and its parent's path, no name holds a separator, owners
    agree along the hierarchy and the unique index holds, a successful
    create leaves every folder with its computed path, and so does a
    successful rename of a folder whose old path holds no metacharacter
    to a name without separator whose new path holds no dollar; both
    leave the collection well formed again (the create when the new name
    holds no separator). *)
Theorem create_rename_keep_paths (s : store) :
  wellFormed (folders s) = true ->
  (forall newId u name parent f s',
      createFolder newId u name parent s = (Json201 f, s') ->
      Folder.path f
      = PathModel.computePath (Folder.name f)
          (match parent with
           | Some pid => option_map Folder.path (findOne (byId pid) (folders s))
           | None => None
           end)
      /\ pathInvariant (folders s') = true
      /\ (JsString.hasChar "/" (JsString.trim name) = false ->
          wellFormed (folders s') = true))
  /\ (forall rx u id name msg f s',
        renameFolder rx u id name s = (Json200 msg (Some f), s') ->
        plainPath u id (folders s) ->
        JsString.hasChar "/" (JsString.trim name) = false ->
        JsString.hasChar "$" (Folder.path f) = false ->
        pathInvariant (folders s') = true
        /\ wellFormed (folders s') = true).
Proof.
  intros Hwf.
  pose proof (wellFormed_parts _ Hwf) as (Hd & Hp & _).
  split.
  - intros newId u name parent f s' H.
    apply createFolder_success in H.
    destruct H as (Ef & Hloc & Hfresh & -> & _).
    assert (Hname : Folder.name f = JsString.trim name) by (now rewrite Ef).
    assert (Hpar : Folder.parentFolder f = parent) by (now rewrite Ef).
    assert (Hid : Folder._id f = newId) by (now rewrite Ef).
    assert (Hu : Folder.user f = u) by (now rewrite Ef).
    split; [|split].
    + destruct Hloc as [[-> ->]|[p (-> & Hin & _ & ->)]]; [now rewrite Hname|].
      rewrite (findOne_by_id Folder._id (byId (Folder._id p)) (folders s) p);
        auto.
      * simpl. now rewrite Hname.
      * apply Nat.eqb_refl.
      * intros e He. now apply Nat.eqb_eq.
    + apply created_pathInvariant; auto. rewrite Hpar, Hname.
      destruct Hloc as [Hl|[p (H1 & H2 & _ & H3)]]; [now left | right; eauto].
    + intros Hslash. apply created_wellFormed; auto.
      * rewrite Hpar, Hname, Hu.
        destruct Hloc as [Hl|[p Hl]]; [now left | right; eauto].
      * now rewrite Hid.
      * now rewrite Hname.
  - intros rx u id name msg f s' H Hplain Hslash Hdollar.
    destruct (renameFolder_success _ _ _ _ _ _ _ _ Hwf Hplain Hslash Hdollar H)
      as (F & HF & Hid & Hu & Ef & Hnew & Hkey & -> & _).
    rewrite Ef in Hkey.
    assert (wellFormed
              (map (renamedDoc u id (JsString.trim name) (Folder.path F)
                               (Folder.path f)) (folders s)) = true) as Hw
      by (now apply renamed_wellFormed).
    split; [|exact Hw].
    now apply wellFormed_parts in Hw.
Qed.

Lemma create_rename_keep_paths_witness :
  wellFormed (folders storeDocs) = true
  /\ plainPath alice 1 (folders storeDocs)
  /\ wellFormed
       [Folder.mk 1 "B" None alice "B" false None;
        Folder.mk 2 "Docs" (Some 1) alice "B/Docs" false None;
        Folder.mk 3 "Old" (Some 2) alice "B/Docs/Old" false None] = true.
Proof.
  assert (Hp : plainPath alice 1 (folders storeDocs)).
  { intros f Hf Hid _. simpl in Hf.
    destruct Hf as [<-|[<-|[<-|[]]]]; try discriminate Hid; reflexivity. }
  split; [reflexivity|]. split; [exact Hp|].
  exact (proj2 (proj2 (create_rename_keep_paths storeDocs eq_refl)
                  noEngine alice 1 " B"
                  "Folder renamed successfully"
                  (Folder.mk 1 "B" None alice "B" false None)
                  (mkStore
                     [Folder.mk 1 "B" None alice "B" false None;
                      Folder.mk 2 "Docs" (Some 1) alice "B/Docs" false None;
                      Folder.mk 3 "Old" (Some 2) alice "B/Docs/Old" false None]
                     (images storeDocs))
                  eq_refl Hp eq_refl eq_refl)).
Defined.

(** C2 (as stated, refuted): root folders [a] and [a/b] were created with
    their computed paths; after the rename of [a] to [c] the root folder
    named [a/b] has the path [c/b], which is not its name. *)
Lemma rename_rewrites_root_with_separator :
  pathInvariant (folders storeSlash) = true
  /\ exists f s',
       renameFolder noEngine alice 1 "c" storeSlash
       = (Json200 "Folder renamed successfully" (Some f), s')
       /\ findOne (byId 2) (folders s')
          = Some (Folder.mk 2 "a/b" None alice "c/b" false None)
       /\ PathModel.computePath "a/b" None <> "c/b"
       /\ pathInvariant (folders s') = false.
Proof.
  split; [reflexivity|]. do 2 eexists.
  split; [reflexivity|]. repeat split. discriminate.
Qed.

(** ** The folder listing *)

Lemma ascii_compare_refl (a : ascii) : Ascii.compare a a = Eq.
Proof. unfold Ascii.compare. apply N.compare_refl. Qed.

Lemma ascii_compare_lt_trans (a b c : ascii) :
  Ascii.compare a b = Lt -> Ascii.compare b c = Lt -> Ascii.compare a c = Lt.
Proof.
  unfold Ascii.compare. rewrite !N.compare_lt_iff. apply N.lt_trans.
Qed.

Lemma string_compare_lt_trans (a b c : string) :
  String.compare a b = Lt -> String.compare b c = Lt -> String.compare a c = Lt.
Proof.
  revert b c. induction a as [|x a IH]; intros [|y b] [|z c]; simpl;
    try discriminate; auto.
  destruct (Ascii.compare x y) eqn:Exy; try discriminate.
  - apply Ascii.compare_eq_iff in Exy. subst y.
    destruct (Ascii.compare x z); try discriminate; eauto.
  - intros _. destruct (Ascii.compare y z) eqn:Eyz; try discriminate.
    + apply Ascii.compare_eq_iff in Eyz. subst z. now rewrite Exy.
    + intros _. now rewrite (ascii_compare_lt_trans _ _ _ Exy Eyz).
Qed.

Lemma string_compare_refl (a : string) : String.compare a a = Eq.
Proof.
  induction a as [|x a IH]; simpl; [reflexivity|].
  now rewrite ascii_compare_refl.
Qed.

Lemma string_leb_trans (a b c : string) :
  String.leb a b = true -> String.leb b c = true -> String.leb a c = true.
Proof.
  unfold String.leb.
  destruct (String.compare a b) eqn:Eab; try discriminate;
    destruct (String.compare b c) eqn:Ebc; try discriminate; intros _ _.
  - apply String.compare_eq_iff in Eab, Ebc. subst.
    now rewrite string_compare_refl.
  - apply String.compare_eq_iff in Eab. subst. now rewrite Ebc.
  - apply String.compare_eq_iff in Ebc. subst. now rewrite Eab.
  - now rewrite (string_compare_lt_trans _ _ _ Eab Ebc).
Qed.

(** A string comes strictly before each of its proper extensions. *)
Lemma string_compare_extension (p : string) (c : ascii) (r : string) :
  String.compare p (p ++ String c r) = Lt.
Proof.
  induction p as [|x p IH]; simpl; [reflexivity|].
  now rewrite ascii_compare_refl.
Qed.


Lemma insertByPath_perm (f : Folder.doc) (l : list Folder.doc) :
  Permutation (insertByPath f l) (f :: l).
Proof.
  induction l as [|g l IH]; simpl; [reflexivity|].
  destruct (String.leb _ _); [reflexivity|].
  rewrite IH. apply perm_swap.
Qed.

Lemma sortByPath_perm (l : list Folder.doc) : Permutation (sortByPath l) l.
Proof.
  induction l as [|f l IH]; simpl; [reflexivity|].
  rewrite insertByPath_perm. now constructor.
Qed.

Lemma insertByPath_sorted (f : Folder.doc) (l : list Folder.doc) :
  StronglySorted pathLe l -> StronglySorted pathLe (insertByPath f l).
Proof.
  induction l as [|g l IH]; simpl; intros H.
  - constructor; [constructor | constructor].
  - inversion H as [|? ? Hl Hg]; subst.
    destruct (String.leb (Folder.path f) (Folder.path g)) eqn:E.
    + constructor; [assumption|]. constructor; [exact E|].
      eapply Forall_impl; [|exact Hg]. intros h Hh.
      unfold pathLe in *. eapply string_leb_trans; eauto.
    + constructor; [auto|].
      rewrite (Forall_forall (pathLe g)). intros h Hh.
      apply (Permutation_in _ (insertByPath_perm f l)) in Hh.
      destruct Hh as [<-|Hh].
      * unfold pathLe. destruct (String.leb_total (Folder.path f) (Folder.path g));
          congruence.
      * rewrite Forall_forall in Hg. auto.
Qed.

Lemma sortByPath_sorted (l : list Folder.doc) :
  StronglySorted pathLe (sortByPath l).
Proof.
  induction l as [|f l IH]; simpl; [constructor|].
  now apply insertByPath_sorted.
Qed.

Lemma sorted_after (a b : list Folder.doc) (g f : Folder.doc) :
  StronglySorted pathLe (a ++ g :: b) -> In f b -> pathLe g f.
Proof.
  induction a as [|x a IH]; simpl; intros H Hf.
  - inversion H as [|? ? _ Hg]; subst. rewrite Forall_forall in Hg. auto.
  - inversion H; subst. auto.
Qed.

(** X1: the folder listing holds exactly the caller's folders that are not
    in the trash, each as often as in the collection, in ascending order of
    path; a folder comes before every listed folder below its path. *)
Theorem listFolders_sorted (u : ObjectId) (s : store) :
  Permutation (listFolders u s)
              (find (fun f => Nat.eqb (Folder.user f) u
                              && negb (Folder.isDeleted f)) (folders s))
  /\ (forall f, In f (listFolders u s)
                <-> In f (folders s) /\ Folder.user f = u
                    /\ Folder.isDeleted f = false)
  /\ StronglySorted pathLe (listFolders u s)
  /\ (forall f g, In f (listFolders u s) -> In g (listFolders u s) ->
        JsString.startsWith (Folder.path f ++ "/") (Folder.path g) = true ->
        exists l1 l2 l3, listFolders u s = (l1 ++ f :: l2 ++ g :: l3)%list).
Proof.
  unfold listFolders.
  set (c := find _ (folders s)).
  pose proof (sortByPath_perm c) as Hperm.
  pose proof (sortByPath_sorted c) as Hsort.
  split; [exact Hperm|]. split; [|split; [exact Hsort|]].
  - intros f. split.
    + intros Hf. apply (Permutation_in _ Hperm) in Hf.
      unfold c, find in Hf. apply filter_In in Hf. destruct Hf as [Hf Hq].
      apply andb_true_iff in Hq. destruct Hq as [Hu Hd].
      apply Nat.eqb_eq in Hu. apply negb_true_iff in Hd. auto.
    + intros (Hf & Hu & Hd).
      apply (Permutation_in _ (Permutation_sym Hperm)).
      unfold c, find. apply filter_In. split; [assumption|].
      now rewrite Hu, Hd, Nat.eqb_refl.
  - intros f g Hf Hg Hpre.
    apply startsWith_split in Hpre.
    assert (Hlt : String.leb (Folder.path g) (Folder.path f) = false).
    { unfold String.leb. rewrite String.compare_antisym.
      rewrite Hpre at 1. rewrite app_assoc_string. simpl.
      now rewrite string_compare_extension. }
    destruct (in_split g _ Hg) as (a & b & E).
    rewrite E in Hf, Hsort |- *.
    apply in_app_iff in Hf. destruct Hf as [Hf|[Hf|Hf]].
    + destruct (in_split f _ Hf) as (l1 & l2 & ->).
      exists l1, l2, b. now rewrite <- app_assoc.
    + subst f. unfold String.leb in Hlt.
      rewrite string_compare_refl in Hlt. discriminate.
    + pose proof (sorted_after a b g f Hsort Hf) as Hle.
      unfold pathLe in Hle. congruence.
Qed.

(** ** Soft delete and the listings *)

Lemma listFolders_In (u : ObjectId) (s : store) (f : Folder.doc) :
  In f (listFolders u s)
  <-> In f (folders s) /\ Folder.user f = u /\ Folder.isDeleted f = false.
Proof.
  unfold listFolders.
  set (c := find _ (folders s)).
  pose proof (sortByPath_perm c) as Hperm.
  split.
  - intros Hf. apply (Permutation_in _ Hperm) in Hf.
    unfold c, find in Hf. apply filter_In in Hf. destruct Hf as [Hf Hq].
    apply andb_true_iff in Hq. destruct Hq as [Hu Hd].
    apply Nat.eqb_eq in Hu. apply negb_true_iff in Hd. auto.
  - intros (Hf & Hu & Hd).
    apply (Permutation_in _ (Permutation_sym Hperm)).
    unfold c, find. apply filter_In. split; [assumption|].
    now rewrite Hu, Hd, Nat.eqb_refl.
Qed.

Lemma find_nil {A} (q : A -> bool) (c : list A) :
  (forall d, In d c -> q d = false) -> find q c = [].
Proof.
  unfold find. induction c as [|d c IH]; simpl; intros H; [reflexivity|].
  rewrite (H d) by now left. apply IH. intros e He. apply H. now right.
Qed.

(** What a successful soft delete did, in terms of the folders it picked. *)
(** What a soft delete does to a folder of the caller whose path has no
    metacharacter, in terms of the folders it picks. *)
Lemma softDelete_plain (rx : Regex.engine) (tF tI : Date) (u id : ObjectId)
  (s : store) (F : Folder.doc) :
  findOne (fun f => Nat.eqb (Folder._id f) id && Nat.eqb (Folder.user f) u)
          (folders s) = Some F ->
  Regex.literal (Folder.path F) = true ->
  softDeleteFolder rx tF tI u id s
  = (Json200 "Folder and contents moved to trash" None,
     mkStore
       (map (fun f => if inIds (Folder._id f)
                           (map Folder._id (find (prefixHit u (Folder.path F))
                                                 (folders s)))
                      then Folder.setTrash true (Some tF) f else f)
            (folders s))
       (images s)).
Proof.
  intros EF Hl. unfold softDeleteFolder. rewrite EF.
  rewrite (findByPathRegex_literal rx u _ _ Hl).
  now rewrite image_updateMany_setTrash.
Qed.

(** X2: the soft delete of a folder [F] of the caller whose path has no
    metacharacter succeeds; afterwards none of the caller's folders at or
    below the path of [F] is in the folder listing any more, each is in
    the trash listing with the deletion date of the request, the listed
    folders whose path does not start with the path of [F] are still
    listed, and no image has changed. *)
Theorem softDelete_moves_to_trash (rx : Regex.engine) (tF tI : Date)
  (u id : ObjectId) (s : store) (F : Folder.doc) :
  distinct (map Folder._id (folders s)) = true ->
  In F (folders s) -> Folder._id F = id -> Folder.user F = u ->
  Regex.literal (Folder.path F) = true ->
  exists s',
    softDeleteFolder rx tF tI u id s
    = (Json200 "Folder and contents moved to trash" None, s')
    /\ (forall g, In g (folders s) -> Folder.user g = u ->
          PathModel.isDescendantPath (Folder.path g) (Folder.path F) = true ->
          (forall g', In g' (listFolders u s') -> Folder._id g' <> Folder._id g)
          /\ In (Folder.setTrash true (Some tF) g) (fst (listTrash u s')))
    /\ (forall g, In g (listFolders u s) ->
          JsString.startsWith (Folder.path F) (Folder.path g) = false ->
          In g (listFolders u s'))
    /\ images s' = images s.
Proof.
  intros Hdis HF Hid Hu Hl.
  rewrite (softDelete_plain rx tF tI u id s F
             (findOne_owned u id _ F Hdis HF Hid Hu) Hl).
  eexists. split; [reflexivity|].
  set (ids := map Folder._id (find _ (folders s))).
  split; [|split; [|reflexivity]].
  - intros g Hg Hgu Hdesc.
    assert (Hmem : inIds (Folder._id g) ids = true).
    { apply inIds_In, in_map. unfold find. apply filter_In.
      split; [assumption|]. unfold prefixHit. rewrite Hgu, Nat.eqb_refl. simpl.
      now apply isDescendantPath_startsWith. }
    split.
    + intros g' Hg' E. apply listFolders_In in Hg'.
      destruct Hg' as (Hin & _ & Hdel). cbn [folders] in Hin.
      apply in_map_iff in Hin. destruct Hin as [e [<- He]].
      destruct (inIds (Folder._id e) ids) eqn:Ee; [discriminate Hdel|].
      congruence.
    + unfold listTrash, find. cbn [fst folders]. apply filter_In. split.
      * apply in_map_iff. exists g. now rewrite Hmem.
      * simpl. now rewrite Hgu, Nat.eqb_refl.
  - intros g Hg Hpre. apply listFolders_In in Hg.
    destruct Hg as (Hin & Hgu & Hdel). apply listFolders_In.
    split; [|auto]. cbn [folders]. apply in_map_iff. exists g.
    split; [|assumption].
    destruct (inIds (Folder._id g) ids) eqn:E; [|reflexivity].
    apply inIds_In, in_map_iff in E. destruct E as [e [Ee He]].
    unfold find in He. apply filter_In in He. destruct He as [He Hq].
    assert (e = g)
      by (apply (distinct_ids_inj Folder._id (folders s)); auto).
    subst e. unfold prefixHit in Hq.
    apply andb_true_iff in Hq. destruct Hq as [_ Hq]. congruence.
Qed.

Lemma softDelete_moves_to_trash_witness :
  distinct (map Folder._id (folders storeDocs)) = true
  /\ exists s',
       softDeleteFolder noEngine 100 100 alice 2 storeDocs
       = (Json200 "Folder and contents moved to trash" None, s')
       /\ (forall g, In g (folders storeDocs) -> Folder.user g = alice ->
             PathModel.isDescendantPath (Folder.path g) "A/Docs" = true ->
             (forall g', In g' (listFolders alice s') ->
                         Folder._id g' <> Folder._id g)
             /\ In (Folder.setTrash true (Some 100%Z) g)
                   (fst (listTrash alice s')))
       /\ (forall g, In g (listFolders alice storeDocs) ->
             JsString.startsWith "A/Docs" (Folder.path g) = false ->
             In g (listFolders alice s'))
       /\ images s' = images storeDocs.
Proof.
  split; [reflexivity|].
  apply (softDelete_moves_to_trash noEngine 100 100 alice 2 storeDocs
           (Folder.mk 2 "Docs" (Some 1) alice "A/Docs" false None));
    try reflexivity.
  simpl. auto.
Defined.

(** ** Hard delete of a folder in the trash *)

Lemma deleteMany_map_off {A} (q : A -> bool) (g : A -> A) (c : list A) :
  (forall d, q (g d) = q d) -> (forall d, q d = false -> g d = d) ->
  deleteMany q (map g c) = deleteMany q c.
Proof.
  intros Hq Hg. unfold deleteMany. induction c as [|d c IH]; simpl;
    [reflexivity|].
  rewrite Hq. destruct (q d) eqn:E; simpl; [exact IH|].
  now rewrite (Hg d E), IH.
Qed.

(** X3: a hard delete gives the same answer, the same store and the same
    [destroy] calls whether or not a soft delete of the folder was
    requested first, whatever the path of the folder and whatever the
    soft delete answered. *)
Theorem hardDelete_after_softDelete (rx : Regex.engine) (destroyOk : oracle)
  (tF tI : Date) (u id : ObjectId) (s : store) :
  hardDeleteFolder rx destroyOk u id (snd (softDeleteFolder rx tF tI u id s))
  = hardDeleteFolder rx destroyOk u id s.
Proof.
  unfold softDeleteFolder, hardDeleteFolder.
  destruct (findOne _ (folders s)) as [f|] eqn:Ef.
  - destruct (findByPathRegex rx u _ (folders s)) as [m|] eqn:Em.
    + cbn [snd folders images]. rewrite image_updateMany_setTrash.
      set (ids := map Folder._id m).
      set (g := fun d : Folder.doc =>
                  if inIds (Folder._id d) ids
                  then Folder.setTrash true (Some tF) d else d).
      assert (Hg : forall d, Folder._id (g d) = Folder._id d
                             /\ Folder.user (g d) = Folder.user d
                             /\ Folder.path (g d) = Folder.path d).
      { intros d. unfold g. destruct (inIds (Folder._id d) ids); simpl; auto. }
      unfold updateMany. fold g.
      rewrite find_map_stable
        by (intros d; destruct (Hg d) as (-> & -> & _); reflexivity).
      rewrite Ef. simpl. destruct (Hg f) as (_ & _ & ->).
      unfold findByPathRegex in *.
      destruct (Regex.compile rx _) as [mt|]; [|discriminate Em].
      injection Em as Em.
      rewrite filter_map_stable
        by (intros d; destruct (Hg d) as (_ & -> & ->); reflexivity).
      rewrite Em, map_map.
      replace (map (fun x => Folder._id (g x)) m) with ids
        by (apply map_ext; intros d; now destruct (Hg d) as (-> & _)).
      do 3 f_equal.
      apply deleteMany_map_off.
      * intros d. now destruct (Hg d) as (-> & _).
      * intros d Hd. unfold g. now rewrite Hd.
    + cbn [snd]. now rewrite Ef, Em.
  - cbn [snd]. now rewrite Ef.
Qed.

(** ** What every request keeps *)

Lemma storeOk_parts (s : store) :
  storeOk s = true ->
  distinct (map Folder._id (folders s)) = true
  /\ distinct (map Image._id (images s)) = true
  /\ forallb (imageOwnerOk (folders s)) (images s) = true
  /\ forallb stampOk (folders s) = true.
Proof.
  unfold storeOk. intros H.
  repeat (apply andb_true_iff in H; destruct H as [H ?]). auto.
Qed.

Lemma storeOk_intro (s : store) :
  distinct (map Folder._id (folders s)) = true ->
  distinct (map Image._id (images s)) = true ->
  forallb (imageOwnerOk (folders s)) (images s) = true ->
  forallb stampOk (folders s) = true ->
  storeOk s = true.
Proof. unfold storeOk. now intros -> -> -> ->. Qed.

Lemma imageOwnerOk_map (h : Folder.doc -> Folder.doc) (c : list Folder.doc)
  (i : Image.doc) :
  (forall e, Folder._id (h e) = Folder._id e
             /\ Folder.user (h e) = Folder.user e) ->
  imageOwnerOk (map h c) i = imageOwnerOk c i.
Proof.
  intros Hh. unfold imageOwnerOk. rewrite find_map_stable.
  - destruct (findOne _ c) as [f|]; simpl; [|reflexivity].
    now destruct (Hh f) as (_ & ->).
  - intros d. unfold byId. now destruct (Hh d) as (-> & _).
Qed.

Lemma imageOwnerOk_app (c l : list Folder.doc) (i : Image.doc) :
  imageOwnerOk c i = true -> imageOwnerOk (c ++ l)%list i = true.
Proof.
  unfold imageOwnerOk.
  destruct (findOne (byId (Image.folder i)) c) as [f|] eqn:E; [|discriminate].
  now rewrite (findOne_app_some _ _ l _ E).
Qed.

Lemma findOne_deleteMany_ids (M : list ObjectId) (k : ObjectId)
  (c : list Folder.doc) :
  inIds k M = false ->
  findOne (byId k) (deleteMany (fun f => inIds (Folder._id f) M) c)
  = findOne (byId k) c.
Proof.
  intros Hk. unfold findOne, deleteMany, byId.
  induction c as [|d c IH]; simpl; [reflexivity|].
  destruct (Nat.eqb (Folder._id d) k) eqn:E.
  - apply Nat.eqb_eq in E. rewrite E, Hk. simpl.
    now rewrite E, Nat.eqb_refl.
  - destruct (inIds (Folder._id d) M); simpl; [exact IH|].
    now rewrite E.
Qed.

Lemma findOne_deleteOne_other (id k : ObjectId) (c : list Folder.doc) :
  k <> id ->
  findOne (byId k) (deleteOne (byId id) c) = findOne (byId k) c.
Proof.
  intros Hk. unfold findOne, byId.
  induction c as [|d c IH]; simpl; [reflexivity|].
  destruct (Nat.eqb (Folder._id d) id) eqn:E.
  - apply Nat.eqb_eq in E.
    assert (Nat.eqb (Folder._id d) k = false) as ->
      by (apply Nat.eqb_neq; congruence).
    reflexivity.
  - simpl. now rewrite IH.
Qed.

Lemma distinct_map_stable {A} (key : A -> ObjectId) (h : A -> A) (c : list A) :
  (forall e, key (h e) = key e) ->
  distinct (map key (map h c)) = distinct (map key c).
Proof.
  intros Hh. rewrite map_map. f_equal. apply map_ext. exact Hh.
Qed.

Lemma distinct_deleteOne {A} (key : A -> ObjectId) (q : A -> bool) (c : list A) :
  distinct (map key c) = true -> distinct (map key (deleteOne q c)) = true.
Proof.
  induction c as [|d c IH]; simpl; [reflexivity|].
  intros H. apply andb_true_iff in H. destruct H as [Hn Hd].
  destruct (q d); [assumption|]. simpl. rewrite (IH Hd), andb_true_r.
  apply negb_true_iff. apply negb_true_iff in Hn.
  destruct (inIds (key d) (map key (deleteOne q c))) eqn:E; [|reflexivity].
  apply inIds_In, in_map_iff in E. destruct E as [e [Ee He]].
  apply deleteOne_incl in He.
  assert (inIds (key d) (map key c) = true)
    by (apply inIds_In; rewrite <- Ee; now apply in_map).
  congruence.
Qed.

(** The loop of the rename changes paths only. *)
Lemma rewriteSubfolders_pointwise (o n : string) (l : list Folder.doc) :
  exists H : Folder.doc -> Folder.doc,
    (forall e, Folder._id (H e) = Folder._id e
               /\ Folder.user (H e) = Folder.user e
               /\ stampOk (H e) = stampOk e)
    /\ forall c, rewriteSubfolders o n l c = map H c.
Proof.
  unfold rewriteSubfolders. induction l as [|a l [H [HH IH]]]; simpl.
  - exists (fun e => e). split; [auto|]. intros c. now rewrite map_id.
  - exists (fun e =>
              H (if Nat.eqb (Folder._id e) (Folder._id a)
                 then Folder.setPath
                        (JsString.replace (Folder.path a) o n) e
                 else e)).
    split.
    + intros e. destruct (Nat.eqb (Folder._id e) (Folder._id a));
        destruct (HH e) as (H1 & H2 & H3); [|auto].
      now destruct (HH (Folder.setPath (JsString.replace (Folder.path a) o n) e))
        as (-> & -> & ->).
    + intros c. rewrite IH. unfold Folder.savePath. now rewrite map_map.
Qed.

(** Whatever it answers, a rename leaves the images alone and changes no
    id, no owner and no trash field. *)
Lemma renameFolder_skeleton (rx : Regex.engine) (u id : ObjectId)
  (name : string) (s s' : store) (r : response) :
  renameFolder rx u id name s = (r, s') ->
  images s' = images s
  /\ exists H : Folder.doc -> Folder.doc,
       (forall e, Folder._id (H e) = Folder._id e
                  /\ Folder.user (H e) = Folder.user e
                  /\ stampOk (H e) = stampOk e)
       /\ folders s' = map H (folders s).
Proof.
  assert (Hsame : forall r0, (r0, s) = (r, s') ->
             images s' = images s
             /\ exists H : Folder.doc -> Folder.doc,
                  (forall e, Folder._id (H e) = Folder._id e
                             /\ Folder.user (H e) = Folder.user e
                             /\ stampOk (H e) = stampOk e)
                  /\ folders s' = map H (folders s)).
  { intros r0 E. injection E as _ <-. split; [reflexivity|].
    exists (fun e => e). split; [auto | now rewrite map_id]. }
  unfold renameFolder. intros H.
  destruct (nameMissing name); [eauto|].
  destruct (findOne _ (folders s)) as [F|]; [|eauto].
  match type of H with
  | context [findOne ?q (folders s)] =>
      destruct (findOne q (folders s)) as [dup|]; [eauto|]
  end.
  destruct (match Folder.parentFolder F with Some _ => _ | None => _ end)
    as [newPath|]; [|eauto].
  unfold Folder.saveNamePath in H. simpl in H.
  destruct (existsb _ (folders s)); [eauto|].
  destruct (findByPathRegex _ _ _ _) as [subs|].
  - injection H as _ <-. simpl. split; [reflexivity|].
    destruct (rewriteSubfolders_pointwise (Folder.path F) newPath subs)
      as [H [HH E]].
    eexists. split; [|rewrite E, map_map; reflexivity].
    intros e. simpl.
    destruct (Nat.eqb (Folder._id e) (Folder._id F)); destruct (HH e); [|auto].
    now destruct (HH (Folder.setNamePath (JsString.trim name) newPath e))
      as (-> & -> & ->).
  - injection H as _ <-. simpl. split; [reflexivity|].
    eexists. split; [|reflexivity].
    intros e. simpl.
    now destruct (Nat.eqb (Folder._id e) (Folder._id F)).
Qed.

Lemma spares_refl (u : ObjectId) (s : store) : spares u s s.
Proof. split; auto. Qed.

Lemma forallb_map_stable {A} (p : A -> bool) (h : A -> A) (c : list A) :
  (forall d, In d c -> p d = true -> p (h d) = true) ->
  forallb p c = true -> forallb p (map h c) = true.
Proof.
  intros Hh H. rewrite forallb_forall in *. intros d Hd.
  apply in_map_iff in Hd. destruct Hd as [e [<- He]]. auto.
Qed.

Lemma existsb_inIds {A} (key : A -> ObjectId) (k : ObjectId) (c : list A) :
  existsb (fun d => Nat.eqb (key d) k) c = inIds k (map key c).
Proof.
  unfold inIds. induction c as [|d c IH]; simpl; [reflexivity|].
  now rewrite IH, Nat.eqb_sym.
Qed.

(** With distinct ids the lookup by id finds the document itself. *)
Lemma lookup_self (c : list Folder.doc) (f : Folder.doc) :
  distinct (map Folder._id c) = true -> In f c ->
  findOne (byId (Folder._id f)) c = Some f.
Proof.
  intros Hd Hf. apply (findOne_by_id Folder._id); auto.
  - apply Nat.eqb_refl.
  - intros e He. now apply Nat.eqb_eq.
Qed.

(** An image of another owner lies in no folder of [u]. *)
Lemma foreign_image_folder (s : store) (u : ObjectId) (i : Image.doc)
  (f : Folder.doc) :
  storeOk s = true -> In i (images s) -> Image.user i <> u ->
  In f (folders s) -> Folder.user f = u -> Image.folder i <> Folder._id f.
Proof.
  intros Hok Hi Hiu Hf Hfu E.
  apply storeOk_parts in Hok. destruct Hok as (Hd & _ & Ho & _).
  rewrite forallb_forall in Ho. specialize (Ho i Hi).
  unfold imageOwnerOk in Ho. rewrite E, (lookup_self _ _ Hd Hf) in Ho.
  apply Nat.eqb_eq in Ho. congruence.
Qed.

(** *** The folder routes *)

Lemma createFolder_keeps (newId u : ObjectId) (name : string)
  (parent : option ObjectId) (s s' : store) (r : response) :
  storeOk s = true -> createFolder newId u name parent s = (r, s') ->
  storeOk s' = true /\ spares u s s'.
Proof.
  intros Hok H.
  assert (Hsame : forall r0, (r0, s) = (r, s') ->
                             storeOk s' = true /\ spares u s s').
  { intros r0 E. injection E as _ <-. split; [assumption | apply spares_refl]. }
  unfold createFolder in H.
  destruct (nameMissing name); [eauto|].
  destruct (match parent with Some _ => _ | None => _ end) as [path|];
    [|eauto].
  unfold Folder.insert in H.
  destruct (existsb _ (folders s)) eqn:Ex; [eauto|].
  injection H as _ <-.
  destruct (storeOk_parts s Hok) as (Hd & Hdi & Ho & Hs).
  split.
  - apply storeOk_intro; simpl; auto.
    + rewrite map_app. simpl. apply distinct_snoc; [assumption|].
      destruct (inIds _ _) eqn:E; [|reflexivity].
      apply inIds_In, in_map_iff in E. destruct E as [e [E He]].
      pose proof (existsb_false_in _ _ e Ex He) as Hx. simpl in Hx.
      rewrite E, Nat.eqb_refl in Hx. discriminate.
    + rewrite forallb_forall in *. intros i Hi.
      apply imageOwnerOk_app. auto.
    + rewrite forallb_app, Hs. reflexivity.
  - split; simpl; [|auto]. intros f Hf _. apply in_app_iff. now left.
Qed.

Lemma renameFolder_spares (rx : Regex.engine) (u id : ObjectId)
  (name : string) (s s' : store) (r : response) :
  distinct (map Folder._id (folders s)) = true ->
  renameFolder rx u id name s = (r, s') ->
  forall e, In e (folders s) -> Folder.user e <> u -> In e (folders s').
Proof.
  intros Hd H.
  assert (Hsame : forall r0, (r0, s) = (r, s') ->
            forall e, In e (folders s) -> Folder.user e <> u ->
                      In e (folders s')).
  { intros r0 E. injection E as _ <-. auto. }
  unfold renameFolder in H.
  destruct (nameMissing name); [eauto|].
  destruct (findOne _ (folders s)) as [F|] eqn:EF; [|eauto].
  match type of H with
  | context [findOne ?q (folders s)] =>
      destruct (findOne q (folders s)) as [dup|]; [eauto|]
  end.
  destruct (match Folder.parentFolder F with Some _ => _ | None => _ end)
    as [newPath|]; [|eauto].
  unfold Folder.saveNamePath in H. simpl in H.
  destruct (existsb _ (folders s)); [eauto|].
  apply findOne_some in EF. destruct EF as [HF Hq].
  apply andb_true_iff in Hq. destruct Hq as [Hq _].
  apply andb_true_iff in Hq. destruct Hq as [_ HFu].
  apply Nat.eqb_eq in HFu.
  assert (Hfs1 : forall e, In e (folders s) -> Folder.user e <> u ->
            (if Nat.eqb (Folder._id e) (Folder._id F)
             then Folder.setNamePath (JsString.trim name) newPath e else e)
            = e).
  { intros e He Hu. destruct (Nat.eqb (Folder._id e) (Folder._id F)) eqn:E;
      [|reflexivity].
    apply Nat.eqb_eq in E.
    assert (e = F)
      by (apply (distinct_ids_inj Folder._id (folders s)); auto).
    congruence. }
  destruct (findByPathRegex _ _ _ _) as [subs|] eqn:Em.
  - apply findByPathRegex_shape in Em. destruct Em as (m & _ & ->).
    injection H as _ <-. simpl. intros e He Hu.
    rewrite rewriteSubfolders_map.
    + rewrite map_map. apply in_map_iff. exists e. split; [|assumption].
      rewrite (Hfs1 e He Hu). apply Nat.eqb_neq in Hu. now rewrite Hu.
    + rewrite distinct_map_stable; [assumption|].
      intros d. now destruct (Nat.eqb (Folder._id d) (Folder._id F)).
  - injection H as _ <-. simpl. intros e He Hu.
    apply in_map_iff. exists e. split; [|assumption]. now apply Hfs1.
Qed.

Lemma renameFolder_keeps (rx : Regex.engine) (u id : ObjectId)
  (name : string) (s s' : store) (r : response) :
  storeOk s = true -> renameFolder rx u id name s = (r, s') ->
  storeOk s' = true /\ spares u s s'.
Proof.
  intros Hok H.
  destruct (storeOk_parts s Hok) as (Hd & Hdi & Ho & Hs).
  pose proof (renameFolder_spares _ _ _ _ _ _ _ Hd H) as Hsp.
  apply renameFolder_skeleton in H. destruct H as (Ei & h & Hh & Ef).
  split.
  - apply storeOk_intro; rewrite ?Ei, ?Ef; auto.
    + rewrite distinct_map_stable; [assumption|]. intros e. now destruct (Hh e).
    + rewrite forallb_forall in *. intros i Hi.
      rewrite imageOwnerOk_map; auto. intros e. destruct (Hh e) as (? & ? & _).
      auto.
    + apply forallb_map_stable; [|assumption]. intros e _ He.
      now destruct (Hh e) as (_ & _ & ->).
  - split; [exact Hsp|]. rewrite Ei. auto.
Qed.

(** The folders a query by path picks are folders of the caller. *)
Lemma picked_owned (u : ObjectId) (m : string -> bool) (c : list Folder.doc)
  (k : ObjectId) :
  inIds k (map Folder._id
             (find (fun f => Nat.eqb (Folder.user f) u && m (Folder.path f)) c))
  = true ->
  exists g, In g c /\ Folder._id g = k /\ Folder.user g = u.
Proof.
  intros Hk. apply inIds_In, in_map_iff in Hk.
  destruct Hk as [g [Eg Hg]]. unfold find in Hg.
  apply filter_In in Hg. destruct Hg as [Hg Hq].
  apply andb_true_iff in Hq. destruct Hq as [Hq _].
  apply Nat.eqb_eq in Hq. eauto.
Qed.

Lemma softDeleteFolder_keeps (rx : Regex.engine) (tF tI : Date)
  (u id : ObjectId) (s s' : store) (r : response) :
  storeOk s = true -> softDeleteFolder rx tF tI u id s = (r, s') ->
  storeOk s' = true /\ spares u s s'.
Proof.
  intros Hok H.
  destruct (storeOk_parts s Hok) as (Hd & Hdi & Ho & Hs).
  unfold softDeleteFolder in H.
  destruct (findOne _ (folders s)) as [F|];
    [|injection H as _ <-; split; [assumption | apply spares_refl]].
  destruct (findByPathRegex _ _ _ _) as [M|] eqn:Em;
    [|injection H as _ <-; split; [assumption | apply spares_refl]].
  apply findByPathRegex_shape in Em. destruct Em as (m & _ & ->).
  rewrite image_updateMany_setTrash in H.
  injection H as _ <-.
  pose proof (picked_owned u m (folders s)) as HM.
  set (M := find _ (folders s)) in *.
  unfold updateMany. split.
  - apply storeOk_intro; simpl; auto.
    + rewrite distinct_map_stable; [assumption|].
      intros e. now destruct (inIds (Folder._id e) (map Folder._id M)).
    + apply forallb_forall. intros i Hi. rewrite imageOwnerOk_map.
      * rewrite forallb_forall in Ho. auto.
      * intros e. now destruct (inIds (Folder._id e) (map Folder._id M)).
    + apply forallb_map_stable; [|assumption]. intros e _ He.
      now destruct (inIds (Folder._id e) (map Folder._id M)).
  - split; simpl; [|auto].
    intros f Hf Hfu. apply in_map_iff. exists f. split; [|assumption].
    destruct (inIds (Folder._id f) (map Folder._id M)) eqn:E; [|reflexivity].
    destruct (HM _ E) as (g & Hg & Eg & Hgu).
    assert (g = f)
      by (apply (distinct_ids_inj Folder._id (folders s)); auto).
    congruence.
Qed.

Lemma hardDeleteFolder_keeps (rx : Regex.engine) (ok : oracle)
  (u id : ObjectId) (s s' : store) (r : response) (calls : list string) :
  storeOk s = true -> hardDeleteFolder rx ok u id s = (r, s', calls) ->
  storeOk s' = true /\ spares u s s'.
Proof.
  intros Hok H.
  destruct (storeOk_parts s Hok) as (Hd & Hdi & Ho & Hs).
  unfold hardDeleteFolder in H.
  destruct (findOne _ (folders s)) as [F|];
    [|injection H as _ <- _; split; [assumption | apply spares_refl]].
  destruct (findByPathRegex _ _ _ _) as [M|] eqn:Em;
    [|injection H as _ <- _; split; [assumption | apply spares_refl]].
  apply findByPathRegex_shape in Em. destruct Em as (m & _ & ->).
  injection H as _ <- _.
  pose proof (picked_owned u m (folders s)) as HM.
  set (M := find _ (folders s)) in *.
  split.
  - apply storeOk_intro; simpl.
    + unfold deleteMany. now apply distinct_filter.
    + unfold deleteMany. now apply distinct_filter.
    + apply forallb_forall. intros i Hi. unfold deleteMany in Hi.
      apply filter_In in Hi. destruct Hi as [Hi Hq].
      apply negb_true_iff in Hq.
      rewrite forallb_forall in Ho. specialize (Ho i Hi).
      unfold imageOwnerOk in *. now rewrite findOne_deleteMany_ids.
    + rewrite forallb_forall in *. intros e He. unfold deleteMany in He.
      apply filter_In in He. now apply Hs.
  - split; simpl.
    + intros f Hf Hfu. unfold deleteMany. apply filter_In.
      split; [assumption|]. apply negb_true_iff.
      destruct (inIds (Folder._id f) (map Folder._id M)) eqn:E; [|reflexivity].
      destruct (HM _ E) as (g & Hg & Eg & Hgu).
      assert (g = f)
        by (apply (distinct_ids_inj Folder._id (folders s)); auto).
      congruence.
    + intros i Hi Hiu. unfold deleteMany. apply filter_In.
      split; [assumption|]. apply negb_true_iff.
      destruct (inIds (Image.folder i) (map Folder._id M)) eqn:E; [|reflexivity].
      destruct (HM _ E) as (g & Hg & Eg & Hgu).
      exfalso. eapply foreign_image_folder; eauto.
Qed.

(** *** The image and trash routes *)

Lemma uploadImage_keeps (newId u id : ObjectId) (reqFile : option file)
  (uploaded : option uploadResult) (s s' : store) (r : response) :
  storeOk s = true -> uploadImage newId u id reqFile uploaded s = (r, s') ->
  storeOk s' = true /\ spares u s s'.
Proof.
  intros Hok H.
  destruct (storeOk_parts s Hok) as (Hd & Hdi & Ho & Hs).
  assert (Hsame : forall r0, (r0, s) = (r, s') ->
                             storeOk s' = true /\ spares u s s').
  { intros r0 E. injection E as _ <-. split; [assumption | apply spares_refl]. }
  unfold uploadImage in H.
  destruct (findOne _ (folders s)) as [F|] eqn:EF; [|eauto].
  destruct reqFile as [f|]; [|eauto].
  destruct uploaded as [result|]; [|eauto].
  unfold Image.insert in H.
  destruct (negb _ || existsb _ (images s)) eqn:Ex; [eauto|].
  apply orb_false_iff in Ex. destruct Ex as [_ Ex].
  injection H as _ <-.
  apply findOne_some in EF. destruct EF as [HF Hq].
  apply andb_true_iff in Hq. destruct Hq as [Hq _].
  apply andb_true_iff in Hq. destruct Hq as [_ HFu].
  apply Nat.eqb_eq in HFu.
  split.
  - apply storeOk_intro; simpl; auto.
    + rewrite map_app. simpl. apply distinct_snoc; [assumption|].
      now rewrite <- existsb_inIds.
    + rewrite forallb_app, Ho. simpl. unfold imageOwnerOk. simpl.
      rewrite (lookup_self _ _ Hd HF). now rewrite HFu, Nat.eqb_refl.
  - split; simpl; [auto|]. intros i Hi _. apply in_app_iff. now left.
Qed.

(** No image passes a filter on [isDeleted]. *)
Lemma findOne_image_trash (p : Image.doc -> bool) (b : bool)
  (c : list Image.doc) :
  findOne (fun i => p i && Image.isDeletedIs b i) c = None.
Proof.
  unfold findOne, Image.isDeletedIs. induction c as [|i c IH]; simpl;
    [reflexivity|].
  now rewrite andb_false_r.
Qed.

Lemma find_image_trash (p : Image.doc -> bool) (b : bool)
  (c : list Image.doc) :
  find (fun i => p i && Image.isDeletedIs b i) c = [].
Proof.
  unfold find, Image.isDeletedIs. induction c as [|i c IH]; simpl;
    [reflexivity|].
  now rewrite andb_false_r.
Qed.

Lemma softDeleteImage_refused (t : Date) (u id : ObjectId) (s : store) :
  softDeleteImage t u id s = (Status404 "Image not found", s).
Proof. unfold softDeleteImage. now rewrite findOne_image_trash. Qed.

Lemma renameImage_refused (u id : ObjectId) (newName : string) (s : store) :
  renameImage u id newName s
  = (if nameMissing newName then Status400 "New image name is required"
     else Status404 "Image not found or is in trash", s).
Proof.
  unfold renameImage. destruct (nameMissing newName); [reflexivity|].
  now rewrite findOne_image_trash.
Qed.

Lemma restoreImage_refused (u id : ObjectId) (s : store) :
  restoreImage u id s = (Status404 "Image not found or not in trash", s).
Proof.
  unfold restoreImage.
  now rewrite (findOneAndUpdate_none _ _ _ (findOne_image_trash _ _ _)).
Qed.

Lemma permanentDeleteImage_refused (ok : oracle) (u id : ObjectId)
  (s : store) :
  permanentDeleteImage ok u id s
  = (Status404 "Image not found or not in trash", s, []).
Proof. unfold permanentDeleteImage. now rewrite findOne_image_trash. Qed.

Lemma restoreFolder_keeps (u id : ObjectId) (s s' : store) (r : response) :
  storeOk s = true -> restoreFolder u id s = (r, s') ->
  storeOk s' = true /\ spares u s s'.
Proof.
  intros Hok H. unfold restoreFolder in H.
  destruct (storeOk_parts s Hok) as (Hd & Hdi & Ho & Hs).
  destruct (findOne (fun f => Nat.eqb (Folder._id f) id
                              && Nat.eqb (Folder.user f) u
                              && Folder.isDeleted f) (folders s))
    as [F|] eqn:E.
  - rewrite (findOneAndUpdate_by_id Folder._id id _ _ _ F Hd
               (trashQuery_id u id) E) in H.
    rewrite image_updateMany_setTrash in H.
    injection H as _ <-. apply findOne_some in E. destruct E as [HF Hq].
    apply andb_true_iff in Hq. destruct Hq as [Hq _].
    apply andb_true_iff in Hq. destruct Hq as [Hid Hu].
    apply Nat.eqb_eq in Hid, Hu.
    split.
    + apply storeOk_intro; simpl; auto.
      * rewrite distinct_map_stable; [assumption|].
        intros e. now destruct (Nat.eqb (Folder._id e) id).
      * apply forallb_forall. intros i Hi. rewrite imageOwnerOk_map.
        -- rewrite forallb_forall in Ho. auto.
        -- intros e. now destruct (Nat.eqb (Folder._id e) id).
      * apply forallb_map_stable; [|assumption]. intros e _ He.
        now destruct (Nat.eqb (Folder._id e) id).
    + split; simpl; [|auto].
      intros f Hf Hfu. apply in_map_iff. exists f. split; [|assumption].
      destruct (Nat.eqb (Folder._id f) id) eqn:Ef; [|reflexivity].
      apply Nat.eqb_eq in Ef.
      assert (f = F)
        by (apply (distinct_ids_inj Folder._id (folders s)); auto; congruence).
      congruence.
  - rewrite (findOneAndUpdate_none _ _ _ E) in H.
    injection H as _ <-. split; [assumption | apply spares_refl].
Qed.

Lemma forallb_incl {A} (p : A -> bool) (c c' : list A) :
  (forall d, In d c' -> In d c) -> forallb p c = true -> forallb p c' = true.
Proof.
  intros Hi H. rewrite forallb_forall in *. auto.
Qed.

Lemma permanentDeleteFolder_keeps (ok : oracle) (u id : ObjectId)
  (s s' : store) (r : response) (calls : list string) :
  storeOk s = true -> permanentDeleteFolder ok u id s = (r, s', calls) ->
  storeOk s' = true /\ spares u s s'.
Proof.
  intros Hok H. unfold permanentDeleteFolder in H.
  destruct (storeOk_parts s Hok) as (Hd & Hdi & Ho & Hs).
  destruct (findOne _ (folders s)) as [F|] eqn:E;
    [|injection H as _ <- _; split; [assumption | apply spares_refl]].
  destruct (destroyEach ok _) as [l [|]];
    [|injection H as _ <- _; split; [assumption | apply spares_refl]].
  injection H as _ <- _.
  apply findOne_some in E. destruct E as [HF Hq].
  apply andb_true_iff in Hq. destruct Hq as [Hq _].
  apply andb_true_iff in Hq. destruct Hq as [Hid Hu].
  apply Nat.eqb_eq in Hid, Hu.
  split.
  - apply storeOk_intro; simpl.
    + now apply distinct_deleteOne.
    + unfold deleteMany. now apply distinct_filter.
    + apply forallb_forall. intros i Hi. unfold deleteMany in Hi.
      apply filter_In in Hi. destruct Hi as [Hi Hq].
      apply negb_true_iff in Hq.
      rewrite forallb_forall in Ho. specialize (Ho i Hi).
      unfold imageOwnerOk in *.
      destruct (Nat.eq_dec (Image.folder i) id) as [Ei|Ei].
      * exfalso. rewrite Ei, <- Hid, (lookup_self _ _ Hd HF) in Ho.
        rewrite Ei, Nat.eqb_refl in Hq. simpl in Hq.
        apply Nat.eqb_eq in Ho. apply Nat.eqb_neq in Hq. congruence.
      * fold (byId id). now rewrite findOne_deleteOne_other.
    + eapply forallb_incl; [|exact Hs]. intros d. apply deleteOne_incl.
  - split; simpl.
    + intros f Hf Hfu. apply deleteOne_keeps; [assumption|].
      apply Nat.eqb_neq. intros Ef.
      assert (f = F)
        by (apply (distinct_ids_inj Folder._id (folders s)); auto; congruence).
      congruence.
    + intros i Hi Hiu. unfold deleteMany. apply filter_In.
      split; [assumption|]. apply Nat.eqb_neq in Hiu. rewrite Hiu.
      now rewrite andb_false_r.
Qed.

Lemma routeStep_keeps (rx : Regex.engine) (u : ObjectId) (s s' : store) :
  storeOk s = true -> routeStep rx u s s' ->
  storeOk s' = true /\ spares u s s'.
Proof.
  intros Hok Hstep. destruct Hstep as
    [newId name parent r s' H | id name r s' H | tF tI id r s' H
    | ok id r s' calls H | newId id reqFile uploaded r s' H | t id r s' H
    | id newName r s' H | type id r s' H | ok type id r s' calls H].
  - eapply createFolder_keeps; eauto.
  - eapply renameFolder_keeps; eauto.
  - eapply softDeleteFolder_keeps; eauto.
  - eapply hardDeleteFolder_keeps; eauto.
  - eapply uploadImage_keeps; eauto.
  - rewrite softDeleteImage_refused in H. injection H as _ <-.
    split; [assumption | apply spares_refl].
  - rewrite renameImage_refused in H. injection H as _ <-.
    split; [assumption | apply spares_refl].
  - unfold restoreItem in H.
    destruct (String.eqb (normType type) "folder");
      [eapply restoreFolder_keeps; eauto|].
    rewrite restoreImage_refused in H.
    destruct (String.eqb (normType type) "image");
      injection H as _ <-; (split; [assumption | apply spares_refl]).
  - unfold permanentDelete in H. rewrite permanentDeleteImage_refused in H.
    destruct (String.eqb (normType type) "image");
      [injection H as _ <- _; split; [assumption | apply spares_refl]|].
    destruct (String.eqb (normType type) "folder");
      [eapply permanentDeleteFolder_keeps; eauto|].
    injection H as _ <- _. split; [assumption | apply spares_refl].
Qed.

(** X4: in every store reached from the empty store by requests, whatever
    they were and whatever they answered, folder ids and image ids are
    distinct, every image lies in an existing folder of its own owner, and
    a folder that is not in the trash carries no deletion date. *)
Theorem reachable_storeOk (rx : Regex.engine) (s : store) :
  reachable rx s -> storeOk s = true.
Proof.
  induction 1 as [|u s s' _ IH Hstep]; [reflexivity|].
  now apply (routeStep_keeps rx u s s' IH).
Qed.

Lemma storeDocsTrashed_reachable : reachable noEngine storeDocsTrashed.
Proof.
  pose (s1 := snd (createFolder 1 alice "A" None emptyStore)).
  pose (s2 := snd (createFolder 2 alice "Docs" (Some 1) s1)).
  pose (s3 := snd (createFolder 3 alice "Old" (Some 2) s2)).
  pose (s4 := snd (uploadImage 10 alice 1 (Some picFile)
                               (Some (storedAs "app/pic10")) s3)).
  apply (reachStep noEngine alice storeDocs);
    [|apply (stepSoftDelete noEngine alice storeDocs 100%Z 100%Z 1
               (Json200 "Folder and contents moved to trash" None));
      reflexivity].
  apply (reachStep noEngine alice s4);
    [|apply (stepUpload noEngine alice s4 11 2 (Some picFile)
               (Some (storedAs "app/pic11"))
               (fst (uploadImage 11 alice 2 (Some picFile)
                                 (Some (storedAs "app/pic11")) s4)));
      apply surjective_pairing].
  apply (reachStep noEngine alice s3);
    [|apply (stepUpload noEngine alice s3 10 1 (Some picFile)
               (Some (storedAs "app/pic10"))
               (fst (uploadImage 10 alice 1 (Some picFile)
                                 (Some (storedAs "app/pic10")) s3)));
      apply surjective_pairing].
  apply (reachStep noEngine alice s2);
    [|apply (stepCreate noEngine alice s2 3 "Old" (Some 2)
               (fst (createFolder 3 alice "Old" (Some 2) s2)));
      apply surjective_pairing].
  apply (reachStep noEngine alice s1);
    [|apply (stepCreate noEngine alice s1 2 "Docs" (Some 1)
               (fst (createFolder 2 alice "Docs" (Some 1) s1)));
      apply surjective_pairing].
  apply (reachStep noEngine alice emptyStore);
    [|apply (stepCreate noEngine alice emptyStore 1 "A" None
               (fst (createFolder 1 alice "A" None emptyStore)));
      apply surjective_pairing].
  apply reachEmpty.
Defined.

Lemma reachable_storeOk_witness :
  reachable noEngine storeDocsTrashed /\ storeOk storeDocsTrashed = true.
Proof.
  split; [exact storeDocsTrashed_reachable|].
  exact (reachable_storeOk noEngine storeDocsTrashed
           storeDocsTrashed_reachable).
Defined.

(** X5: a request of an authenticated user, made on a consistent store,
    neither changes nor removes a folder or an image of another owner,
    whatever the request is and whatever it answers. *)
Theorem request_spares_other_owners (rx : Regex.engine) (u : ObjectId)
  (s s' : store) :
  storeOk s = true -> routeStep rx u s s' ->
  (forall f, In f (folders s) -> Folder.user f <> u -> In f (folders s'))
  /\ (forall i, In i (images s) -> Image.user i <> u -> In i (images s')).
Proof.
  intros Hok Hstep. exact (proj2 (routeStep_keeps rx u s s' Hok Hstep)).
Qed.

Lemma request_spares_other_owners_witness :
  storeOk storeTwoOwners = true
  /\ softDeleteFolder noEngine 100 100 alice 1 storeTwoOwners
     = (Json200 "Folder and contents moved to trash" None,
        mkStore
          [Folder.mk 1 "A" None alice "A" true (Some 100%Z);
           Folder.mk 2 "Docs" (Some 1) alice "A/Docs" true (Some 100%Z);
           Folder.mk 3 "Old" (Some 2) alice "A/Docs/Old" true (Some 100%Z);
           Folder.mk 20 "A" None bob "A" false None]
          [pic 10 1 alice "app/pic10"; pic 11 2 alice "app/pic11";
           pic 30 20 bob "app/pic30"])
  /\ forall f, In f (folders storeTwoOwners) -> Folder.user f <> alice ->
       In f [Folder.mk 1 "A" None alice "A" true (Some 100%Z);
             Folder.mk 2 "Docs" (Some 1) alice "A/Docs" true (Some 100%Z);
             Folder.mk 3 "Old" (Some 2) alice "A/Docs/Old" true (Some 100%Z);
             Folder.mk 20 "A" None bob "A" false None].
Proof.
  split; [reflexivity|]. split; [reflexivity|].
  exact (proj1 (request_spares_other_owners noEngine alice storeTwoOwners
                  (mkStore
                     [Folder.mk 1 "A" None alice "A" true (Some 100%Z);
                      Folder.mk 2 "Docs" (Some 1) alice "A/Docs" true
                                (Some 100%Z);
                      Folder.mk 3 "Old" (Some 2) alice "A/Docs/Old" true
                                (Some 100%Z);
                      Folder.mk 20 "A" None bob "A" false None]
                     [pic 10 1 alice "app/pic10"; pic 11 2 alice "app/pic11";
                      pic 30 20 bob "app/pic30"])
                  eq_refl
                  (stepSoftDelete noEngine alice storeTwoOwners 100%Z 100%Z 1
                     (Json200 "Folder and contents moved to trash" None)
                     _ eq_refl))).
Defined.

(** ** Images and the trash *)


(** ** What the restore of a folder does *)

(** X7: with distinct folder ids, the restore of a folder answers 404
    unless the caller owns a folder with that id that is in the trash;
    otherwise it clears [isDeleted] and [deletedAt] on that one folder,
    and leaves every other folder (nested subfolders included) and every
    image as they were. *)
Theorem restoreFolder_folder_only (u id : ObjectId) (s : store) :
  distinct (map Folder._id (folders s)) = true ->
  ((forall f, In f (folders s) -> Folder._id f = id -> Folder.user f = u ->
              Folder.isDeleted f = false) ->
   restoreFolder u id s = (Status404 "Folder not found or not in trash", s))
  /\ (forall f, In f (folders s) -> Folder._id f = id -> Folder.user f = u ->
                Folder.isDeleted f = true ->
      restoreFolder u id s
      = (Json200 "folder restored successfully"
                 (Some (Folder.setTrash false None f)),
         mkStore
           (map (fun g => if Nat.eqb (Folder._id g) id
                          then Folder.setTrash false None g else g)
                (folders s))
           (images s))).
Proof.
  intros Hdis. split.
  - apply restoreFolder_refused.
  - intros f Hin Hid Hu Hdel. now apply restoreFolder_run.
Qed.

Lemma restoreFolder_folder_only_witness :
  distinct (map Folder._id (folders storeDocsTrashed)) = true
  /\ restoreFolder alice 2 storeDocsTrashed
     = (Json200 "folder restored successfully"
                (Some (Folder.mk 2 "Docs" (Some 1) alice "A/Docs" false None)),
        mkStore
          [Folder.mk 1 "A" None alice "A" true (Some 100%Z);
           Folder.mk 2 "Docs" (Some 1) alice "A/Docs" false None;
           Folder.mk 3 "Old" (Some 2) alice "A/Docs/Old" true (Some 100%Z)]
          [pic 10 1 alice "app/pic10"; pic 11 2 alice "app/pic11"]).
Proof.
  split; [reflexivity|].
  apply (proj2 (restoreFolder_folder_only alice 2 storeDocsTrashed eq_refl)
               (Folder.mk 2 "Docs" (Some 1) alice "A/Docs" true (Some 100%Z)));
    simpl; auto.
Defined.

(** ** The cleanup of old trash *)

Lemma olderThan_false (now : Date) (deleted : bool) (at_ : option Date) :
  olderThan (now - DAYS_TO_KEEP * 86400000) deleted at_ = false
  <-> withinRetention now deleted at_.
Proof.
  unfold olderThan, withinRetention, DAYS_TO_KEEP.
  destruct deleted; simpl; [|tauto].
  destruct at_ as [t|]; [|tauto].
  rewrite Z.ltb_ge. split.
  - intros H. right. right. exists t. split; [reflexivity | lia].
  - intros [H|[H|[t' [[= <-] H]]]]; try discriminate. lia.
Qed.


Lemma deleteMany_none {A} (key : A -> ObjectId) (c : list A) :
  deleteMany (fun d => inIds (key d) []) c = c.
Proof.
  unfold deleteMany. induction c as [|d c IH]; simpl; [reflexivity|].
  f_equal. exact IH.
Qed.

(** Removing the documents picked by a test, by their ids, from a
    collection with distinct ids removes exactly those documents. *)
Lemma deleteMany_picked {A} (key : A -> ObjectId) (q : A -> bool) (c : list A) :
  distinct (map key c) = true ->
  deleteMany (fun d => inIds (key d) (map key (find q c))) c
  = List.filter (fun d => negb (q d)) c.
Proof.
  intros Hd. unfold deleteMany. apply filter_ext_in. intros d Hin.
  f_equal. destruct (q d) eqn:E.
  - apply inIds_In, in_map. unfold find. apply filter_In. auto.
  - destruct (inIds _ _) eqn:Ei; [|reflexivity].
    apply inIds_In, in_map_iff in Ei. destruct Ei as [e [Ee He]].
    unfold find in He. apply filter_In in He. destruct He as [He Hq].
    assert (e = d) by (eapply distinct_ids_inj; eauto). congruence.
Qed.

Lemma filter_idem {A} (q : A -> bool) (c : list A) :
  List.filter q (List.filter q c) = List.filter q c.
Proof.
  induction c as [|d c IH]; simpl; [reflexivity|].
  destruct (q d) eqn:E; simpl; [now rewrite E, IH | exact IH].
Qed.

Lemma filter_none {A} (q : A -> bool) (c : list A) :
  List.filter q (List.filter (fun d => negb (q d)) c) = [].
Proof.
  induction c as [|d c IH]; simpl; [reflexivity|].
  destruct (q d) eqn:E; simpl; [exact IH | now rewrite E].
Qed.

Lemma find_old_images (cut : Date) (c : list Image.doc) :
  find (fun i => Image.isDeletedIs true i && Image.deletedAtLt cut i) c = [].
Proof.
  unfold find, Image.isDeletedIs. induction c as [|i c IH]; simpl;
    [reflexivity | exact IH].
Qed.

(** X8: a cleanup run at time [now], on a folder collection with distinct
    ids, calls [destroy] for nothing and removes no image, whatever the
    object store answers: no image passes its filter on [isDeleted] and
    [deletedAt].  It keeps exactly the folders that are not in the trash,
    have no deletion date or were deleted at most 30 days ago, unchanged,
    so the images of a removed folder stay behind; a second run at the
    same time leaves the store of the first. *)
Theorem cleanup_retention (destroyOk : oracle) (now : Date) (s : store) :
  distinct (map Folder._id (folders s)) = true ->
  let s' := fst (cleanupOldTrash destroyOk now s) in
  snd (cleanupOldTrash destroyOk now s) = []
  /\ images s' = images s
  /\ (forall f, In f (folders s')
                <-> In f (folders s)
                    /\ withinRetention now (Folder.isDeleted f)
                                       (Folder.deletedAt f))
  /\ fst (cleanupOldTrash destroyOk now s') = s'.
Proof.
  intros Hdf. unfold cleanupOldTrash.
  set (cut := (now - DAYS_TO_KEEP * 86400000)%Z).
  set (qf := fun f => olderThan cut (Folder.isDeleted f) (Folder.deletedAt f)).
  rewrite !find_old_images. cbn [destroyEach fst snd folders images map].
  rewrite !(deleteMany_none Image._id).
  rewrite (deleteMany_picked Folder._id qf _ Hdf).
  split; [reflexivity|]. split; [reflexivity|]. split.
  - intros f. rewrite filter_In. unfold qf, cut.
    rewrite <- olderThan_false, negb_true_iff. reflexivity.
  - fold qf. unfold find. rewrite filter_none. simpl.
    now rewrite (deleteMany_none Folder._id).
Qed.

Lemma cleanup_retention_witness :
  distinct (map Folder._id (folders storeDocsTrashed)) = true
  /\ cleanupOldTrash allReject (100 + 31 * 86400000) storeDocsTrashed
     = (mkStore [] [pic 10 1 alice "app/pic10"; pic 11 2 alice "app/pic11"],
        [])
  /\ forall f,
       In f (folders (fst (cleanupOldTrash allReject (100 + 31 * 86400000)
                                           storeDocsTrashed)))
       <-> In f (folders storeDocsTrashed)
           /\ withinRetention (100 + 31 * 86400000)
                              (Folder.isDeleted f) (Folder.deletedAt f).
Proof.
  split; [reflexivity|]. split; [reflexivity|].
  exact (proj1 (proj2 (proj2 (cleanup_retention allReject
                                (100 + 31 * 86400000)
                                storeDocsTrashed eq_refl)))).
Defined.

(** ** Renames that are refused *)

Lemma renameFolder_found (u id : ObjectId) (s : store) (F : Folder.doc) :
  distinct (map Folder._id (folders s)) = true ->
  In F (folders s) -> Folder._id F = id -> Folder.user F = u ->
  Folder.isDeleted F = false ->
  findOne (fun f => Nat.eqb (Folder._id f) id && Nat.eqb (Folder.user f) u
                    && negb (Folder.isDeleted f)) (folders s) = Some F.
Proof.
  intros Hd HF Hid Hu Hdel. apply (findOne_by_id Folder._id); auto.
  - now rewrite Hid, Hu, !Nat.eqb_refl, Hdel.
  - intros e He. apply andb_true_iff in He. destruct He as [He _].
    apply andb_true_iff in He. destruct He as [He _].
    apply Nat.eqb_eq in He. congruence.
Qed.

(** X9: a rename that answers 400 or 404 leaves the store as it was, and
    so does one that answers 500 when the path of the folder has no
    metacharacter (otherwise a 500 may come after the folder was saved).
    For an active folder of the caller and another folder of the caller
    with the same parent that already has the new name: when that folder
    is active the answer is the 400 of the name collision; when every
    such folder is in the trash the rename is stopped at the save and
    answered 500. *)
Theorem rename_refusals (rx : Regex.engine) (u id : ObjectId) (name : string)
  (s : store) :
  (forall r s', renameFolder rx u id name s = (r, s') ->
                (forall msg o, r <> Json200 msg o) ->
                (forall msg, r <> Status500 msg) \/ plainPath u id (folders s) ->
                s' = s)
  /\ (forall F g,
        distinct (map Folder._id (folders s)) = true ->
        nameMissing name = false ->
        In F (folders s) -> Folder._id F = id -> Folder.user F = u ->
        Folder.isDeleted F = false ->
        In g (folders s) -> Folder._id g <> id -> Folder.user g = u ->
        Folder.parentFolder g = Folder.parentFolder F ->
        Folder.name g = JsString.trim name ->
        (Folder.isDeleted g = false ->
         renameFolder rx u id name s
         = (Status400
              "A folder with this name already exists in the same location",
            s))
        /\ ((forall e, In e (folders s) -> Folder._id e <> id ->
                       Folder.user e = u ->
                       Folder.parentFolder e = Folder.parentFolder F ->
                       Folder.name e = JsString.trim name ->
                       Folder.isDeleted e = true) ->
            renameFolder rx u id name s
            = (Status500 "Server error renaming folder", s))).
Proof.
  split.
  - intros r s' H Hno Hcase.
    assert (Hsame : forall r0, (r0, s) = (r, s') -> s' = s)
      by (intros r0 E; now injection E as _ <-).
    unfold renameFolder in H.
    destruct (nameMissing name); [eauto|].
    destruct (findOne _ (folders s)) as [F|] eqn:EF; [|eauto].
    match type of H with
    | context [findOne ?q (folders s)] =>
        destruct (findOne q (folders s)) as [dup|]; [eauto|]
    end.
    destruct (match Folder.parentFolder F with Some _ => _ | None => _ end)
      as [newPath|]; [|eauto].
    destruct (Folder.saveNamePath _ _); [|eauto].
    destruct (findByPathRegex _ _ _ _) eqn:Em.
    + injection H as <- _. exfalso. eapply Hno. reflexivity.
    + injection H as <- _. exfalso. destruct Hcase as [H5|Hplain].
      * eapply H5. reflexivity.
      * apply findOne_some in EF. destruct EF as [HF Hq].
        apply andb_true_iff in Hq. destruct Hq as [Hq _].
        apply andb_true_iff in Hq. destruct Hq as [Hid Hu].
        apply Nat.eqb_eq in Hid, Hu.
        rewrite (findByPathRegex_literal rx u (Folder.path F ++ "/")) in Em
          by (rewrite literal_app, (Hplain F HF Hid Hu); reflexivity).
        discriminate Em.
  - intros F g Hd Hmiss HF Hid Hu Hdel Hg Hgid Hgu Hgp Hgn.
    unfold renameFolder. rewrite Hmiss.
    rewrite (renameFolder_found u id s F Hd HF Hid Hu Hdel).
    split.
    + intros Hgd.
      match goal with
      | |- context [findOne ?q (folders s)] =>
          destruct (findOne q (folders s)) as [dup|] eqn:E; [reflexivity|]
      end.
      apply (findOne_none _ _ E) in Hg.
      apply Nat.eqb_neq in Hgid.
      rewrite Hgid, Hgp, Hgu, Hgn, Hgd, Nat.eqb_refl, String.eqb_refl in Hg.
      simpl in Hg.
      assert (eqbOptId (Folder.parentFolder F) (Folder.parentFolder F) = true)
        as Ep by (now apply eqbOptId_eq).
      rewrite Ep in Hg. discriminate.
    + intros Hall.
      match goal with
      | |- context [findOne ?q (folders s)] =>
          destruct (findOne q (folders s)) as [dup|] eqn:E
      end.
      * exfalso. apply findOne_some in E. destruct E as [He Hq].
        repeat (apply andb_true_iff in Hq; destruct Hq as [Hq ?]).
        apply negb_true_iff in Hq, H. apply Nat.eqb_neq in Hq.
        apply eqbOptId_eq in H2. apply Nat.eqb_eq in H1.
        apply String.eqb_eq in H0.
        rewrite (Hall dup He Hq H1 H2 H0) in H. discriminate.
      * destruct (match Folder.parentFolder F with Some _ => _ | None => _ end)
          as [newPath|]; [|reflexivity].
        unfold Folder.saveNamePath. simpl.
        assert (existsb
                  (fun e => negb (Nat.eqb (Folder._id e) (Folder._id F))
                            && Folder.sameKey e
                                 (Folder.setNamePath (JsString.trim name)
                                                     newPath F))
                  (folders s) = true) as ->; [|reflexivity].
        apply existsb_exists. exists g. split; [assumption|].
        rewrite Hid. apply Nat.eqb_neq in Hgid. rewrite Hgid. simpl.
        apply sameKey_eq. simpl. repeat split; congruence.
Qed.


Lemma storeNotesTrashed_value :
  storeNotesTrashed
  = mkStore
      [Folder.mk 1 "A" None alice "A" false None;
       Folder.mk 2 "Docs" (Some 1) alice "A/Docs" false None;
       Folder.mk 3 "Old" (Some 2) alice "A/Docs/Old" false None;
       Folder.mk 4 "Notes" (Some 1) alice "A/Notes" true (Some 100%Z)]
      [pic 10 1 alice "app/pic10"; pic 11 2 alice "app/pic11"].
Proof. vm_compute. reflexivity. Qed.

Lemma rename_refusals_witness :
  renameFolder noEngine alice 2 "Notes" storeNotesTrashed
  = (Status500 "Server error renaming folder", storeNotesTrashed).
Proof.
  rewrite storeNotesTrashed_value.
  apply (proj2 (rename_refusals noEngine alice 2 "Notes" _)
               (Folder.mk 2 "Docs" (Some 1) alice "A/Docs" false None)
               (Folder.mk 4 "Notes" (Some 1) alice "A/Notes" true (Some 100%Z)));
    try reflexivity; try (simpl; tauto); try discriminate.
  intros e [<-|[<-|[<-|[<-|[]]]]]; simpl; intros; try reflexivity;
    try discriminate; congruence.
Defined.

(** ** Renaming a folder to the name it has *)

Lemma folder_eta (F : Folder.doc) :
  Folder.setNamePath (Folder.name F) (Folder.path F) F = F.
Proof. now destruct F. Qed.

Lemma folder_path_eta (F : Folder.doc) : Folder.setPath (Folder.path F) F = F.
Proof. now destruct F. Qed.


(** X10: on a well-formed collection, renaming an active folder of the
    caller to the name it already has (white space around it aside)
    answers 200 and leaves the whole store as it was, when the folder's
    path holds no regex metacharacter and no dollar. *)
Theorem rename_same_name (rx : Regex.engine) (u id : ObjectId)
  (name : string) (s : store) (F : Folder.doc) :
  wellFormed (folders s) = true ->
  In F (folders s) -> Folder._id F = id -> Folder.user F = u ->
  Folder.isDeleted F = false ->
  nameMissing name = false -> JsString.trim name = Folder.name F ->
  Regex.literal (Folder.path F) = true ->
  JsString.hasChar "$" (Folder.path F) = false ->
  renameFolder rx u id name s
  = (Json200 "Folder renamed successfully" (Some F), s).
Proof.
  intros Hwf HF Hid Hu Hdel Hmiss Hname Hlit Hdollar.
  pose proof (wellFormed_parts _ Hwf) as (Hd & _ & _ & _ & Hui).
  destruct (folder_placed _ F Hwf HF) as [Hslash Hpl].
  assert (Hkey : forall e, In e (folders s) -> Folder._id e <> id ->
             Folder.sameKey e F = false).
  { intros e He Hne. destruct (Folder.sameKey e F) eqn:E; [|reflexivity].
    exfalso. apply Hne. rewrite <- Hid. now apply (uniqueIndex_inj (folders s)). }
  unfold renameFolder. rewrite Hmiss.
  rewrite (renameFolder_found u id s F Hd HF Hid Hu Hdel).
  match goal with
  | |- context [findOne ?q (folders s)] =>
      destruct (findOne q (folders s)) as [dup|] eqn:E
  end.
  { exfalso. apply findOne_some in E. destruct E as [He Hq].
    repeat (apply andb_true_iff in Hq; destruct Hq as [Hq ?]).
    apply negb_true_iff in Hq. apply Nat.eqb_neq in Hq.
    apply eqbOptId_eq in H2. apply Nat.eqb_eq in H1. apply String.eqb_eq in H0.
    assert (Folder.sameKey dup F = true)
      by (apply sameKey_eq; repeat split; congruence).
    rewrite (Hkey dup He Hq) in H3. discriminate. }
  rewrite Hname.
  assert (Hnew :
            (Folder.parentFolder F = None /\ Folder.path F = Folder.name F)
            \/ (exists p, Folder.parentFolder F = Some (Folder._id p)
                          /\ findOne (byId (Folder._id p)) (folders s) = Some p
                          /\ Folder.path F
                             = Folder.path p ++ "/" ++ Folder.name F)).
  { destruct Hpl as [Hr Hp | p Hpar Hfind _ _ Hp]; [now left | right; eauto]. }
  assert (Hrec : match Folder.parentFolder F with
                 | Some pid =>
                     match findOne (fun f => Nat.eqb (Folder._id f) pid)
                                   (folders s) with
                     | Some parent =>
                         Some (Folder.path parent ++ "/" ++ Folder.name F)
                     | None => None
                     end
                 | None => Some (Folder.name F)
                 end = Some (Folder.path F)).
  { destruct Hnew as [[-> ->]|[p (-> & Hfind & ->)]]; [reflexivity|].
    unfold byId in Hfind. now rewrite Hfind. }
  rewrite Hrec, folder_eta.
  unfold Folder.saveNamePath.
  assert (existsb (fun e => negb (Nat.eqb (Folder._id e) (Folder._id F))
                            && Folder.sameKey e F) (folders s) = false) as ->.
  { destruct (existsb _ (folders s)) eqn:Ex; [|reflexivity].
    apply existsb_exists in Ex. destruct Ex as [e [He Hq]].
    apply andb_true_iff in Hq. destruct Hq as [Hne Hk].
    apply negb_true_iff, Nat.eqb_neq in Hne. rewrite Hid in Hne.
    rewrite (Hkey e He Hne) in Hk. discriminate. }
  rewrite (findByPathRegex_literal rx u (Folder.path F ++ "/"))
    by (rewrite literal_app, Hlit; reflexivity).
  rewrite Hid.
  fold (belowOld u (Folder.path F)).
  rewrite (rename_passes (folders s) u id (Folder.name F) (Folder.path F) F
             Hwf HF Hid Hslash Hnew).
  - f_equal. destruct s as [fs ims]. simpl in *. f_equal.
    rewrite <- (map_id fs) at 2. apply map_ext_in. intros e He.
    unfold renamedDoc.
    destruct (Nat.eqb (Folder._id e) id) eqn:Ee.
    + apply Nat.eqb_eq in Ee.
      assert (e = F) by (eapply distinct_ids_inj; eauto; congruence).
      subst e. apply folder_eta.
    + destruct (belowOld u (Folder.path F) e) eqn:Eb; [|reflexivity].
      unfold belowOld in Eb. apply andb_true_iff in Eb. destruct Eb as [_ Eb].
      apply startsWith_app_l, startsWith_split in Eb.
      rewrite <- Eb. apply folder_path_eta.
  - intros e He Hne. rewrite folder_eta. auto.
  - assumption.
Qed.

Lemma rename_same_name_witness :
  wellFormed (folders storeDocs) = true
  /\ renameFolder noEngine alice 2 " Docs " storeDocs
     = (Json200 "Folder renamed successfully"
                (Some (Folder.mk 2 "Docs" (Some 1) alice "A/Docs" false None)),
        storeDocs).
Proof.
  split; [reflexivity|].
  apply (rename_same_name noEngine alice 2 " Docs " storeDocs
           (Folder.mk 2 "Docs" (Some 1) alice "A/Docs" false None));
    try reflexivity.
  simpl. auto.
Defined.

(** ** Renaming there and back *)

(** A folder whose path lies below [X/] has a folder of the same owner
    with the path [X] above it. *)
Lemma ancestor_with_path (c : list Folder.doc) (X : string) :
  wellFormed c = true ->
  forall n e, String.length (Folder.path e) < n -> In e c ->
    JsString.startsWith (X ++ "/") (Folder.path e) = true ->
    exists a, In a c /\ Folder.path a = X /\ Folder.user a = Folder.user e.
Proof.
  intros Hwf. induction n as [|n IH]; intros e Hlen He Hpre; [lia|].
  destruct (folder_placed c e Hwf He) as [Hs [Hroot Hp | p Hpar _ Hin Hup Hp]].
  - apply startsWith_hasChar in Hpre. congruence.
  - rewrite Hp in Hpre. apply startsWith_child in Hpre; [|assumption].
    destruct Hpre as [Hpre|Hpre].
    + destruct (IH p) as (a & Ha & Hpa & Hua); auto.
      * rewrite Hp, string_length_app in Hlen. simpl in Hlen. lia.
      * exists a. repeat split; auto. congruence.
    + exists p. auto.
Qed.

(** A folder with the path the renamed folder is to get would have the key
    the renamed folder is to get. *)
Lemma path_taken_key (c : list Folder.doc) (F a : Folder.doc)
  (n' newPath : string) :
  wellFormed c = true -> In F c -> In a c ->
  JsString.hasChar "/" n' = false ->
  ((Folder.parentFolder F = None /\ newPath = n')
   \/ (exists p, Folder.parentFolder F = Some (Folder._id p)
                 /\ findOne (byId (Folder._id p)) c = Some p
                 /\ newPath = Folder.path p ++ "/" ++ n')) ->
  Folder.user a = Folder.user F -> Folder.path a = newPath ->
  Folder.sameKey a (Folder.setNamePath n' newPath F) = true.
Proof.
  intros Hwf HF Ha Hn' Hnew Hu Hp.
  apply sameKey_eq. simpl.
  destruct (folder_placed c a Hwf Ha) as [Hsa [Hra Hpa | pa Hpara _ Hina Hupa Hpa]];
    destruct Hnew as [[Hr ->]|[p (Hpar & Hfind & ->)]].
  - repeat split; congruence.
  - exfalso. rewrite Hpa in Hp. rewrite Hp in Hsa.
    change (Folder.path p ++ "/" ++ n')
      with (Folder.path p ++ String "/"%char n') in Hsa.
    rewrite hasChar_sep in Hsa. discriminate.
  - exfalso. rewrite Hpa in Hp. rewrite <- Hp in Hn'.
    change (Folder.path pa ++ "/" ++ Folder.name a)
      with (Folder.path pa ++ String "/"%char (Folder.name a)) in Hn'.
    rewrite hasChar_sep in Hn'. discriminate.
  - rewrite Hpa in Hp.
    destruct (path_split_inj _ _ _ _ Hsa Hn' Hp) as [Eq En].
    apply findOne_some in Hfind. destruct Hfind as [Hinp _].
    destruct (folder_placed c F Hwf HF) as [_ [HrF _ | pF HparF _ HinF HupF _]];
      [congruence|].
    assert (Folder._id pF = Folder._id p) as EpF by congruence.
    assert (pF = p).
    { pose proof (wellFormed_parts c Hwf) as (Hd & _).
      eapply distinct_ids_inj; eauto. }
    subst pF.
    assert (Folder._id pa = Folder._id p) as Eid.
    { apply (paths_unique c Hwf (S (String.length (Folder.path pa)))); auto.
      congruence. }
    repeat split; congruence.
Qed.

Lemma literal_no_dollar (p : string) :
  Regex.literal p = true -> JsString.hasChar "$" p = false.
Proof.
  induction p as [|c p IH]; [reflexivity|].
  intros H. apply literal_cons in H. destruct H as [Hc Hl].
  rewrite hasChar_cons, (IH Hl), orb_false_r.
  destruct (Ascii.eqb "$" c) eqn:E; [|reflexivity].
  apply Ascii.eqb_eq in E. subst c. discriminate Hc.
Qed.

(** The folder in the response of a successful rename. *)
Lemma renameFolder_response (rx : Regex.engine) (u id : ObjectId)
  (name msg : string) (f : Folder.doc) (s s' : store) :
  renameFolder rx u id name s = (Json200 msg (Some f), s') ->
  exists F,
    In F (folders s) /\ Folder._id F = id /\ Folder.user F = u
    /\ f = Folder.setNamePath (JsString.trim name) (Folder.path f) F
    /\ ((Folder.parentFolder F = None /\ Folder.path f = JsString.trim name)
        \/ (exists p, Folder.parentFolder F = Some (Folder._id p)
                      /\ findOne (byId (Folder._id p)) (folders s) = Some p
                      /\ Folder.path f
                         = Folder.path p ++ "/" ++ JsString.trim name)).
Proof.
  unfold renameFolder. intros H.
  destruct (nameMissing name); [discriminate H|].
  destruct (findOne _ (folders s)) as [F|] eqn:EF; [|discriminate H].
  match type of H with
  | context [findOne ?q (folders s)] =>
      destruct (findOne q (folders s)) as [dup|]; [discriminate H|]
  end.
  pose proof (findOne_some _ _ _ EF) as [HF Hq].
  apply andb_true_iff in Hq. destruct Hq as [Hq _].
  apply andb_true_iff in Hq. destruct Hq as [Hid Hu].
  apply Nat.eqb_eq in Hid, Hu.
  exists F. repeat (split; [assumption|]).
  destruct (Folder.parentFolder F) as [pid|] eqn:Ep.
  - match type of H with
    | context [findOne ?q (folders s)] =>
        destruct (findOne q (folders s)) as [p|] eqn:Epar; [|discriminate H]
    end.
    destruct (Folder.saveNamePath _ _); [|discriminate H].
    destruct (findByPathRegex _ _ _ _); [|discriminate H].
    injection H as _ <- _. simpl. split; [reflexivity|]. right. exists p.
    pose proof (findOne_some _ _ _ Epar) as [_ Hp]. apply Nat.eqb_eq in Hp.
    subst pid. auto.
  - destruct (Folder.saveNamePath _ _); [|discriminate H].
    destruct (findByPathRegex _ _ _ _); [|discriminate H].
    injection H as _ <- _. simpl. auto.
Qed.

(** X11: on a well-formed collection, a successful rename of a folder to a
    name without separator, followed by a successful rename back to the
    name it had, gives back the store as it was, when neither the path
    the folder had nor the path it got in between holds a
    metacharacter. *)
Theorem rename_there_and_back (rx : Regex.engine) (u id : ObjectId)
  (n1 n0 m1 m2 : string) (s s1 s2 : store) (F f1 f2 : Folder.doc) :
  wellFormed (folders s) = true ->
  In F (folders s) -> Folder._id F = id ->
  renameFolder rx u id n1 s = (Json200 m1 (Some f1), s1) ->
  JsString.hasChar "/" (JsString.trim n1) = false ->
  Regex.literal (Folder.path F) = true ->
  Regex.literal (Folder.path f1) = true ->
  renameFolder rx u id n0 s1 = (Json200 m2 (Some f2), s2) ->
  JsString.trim n0 = Folder.name F ->
  s2 = s.
Proof.
  intros Hwf HF Hid H1 Hs1 HlitF Hlit1 H2 Hn0.
  pose proof (literal_no_dollar _ Hlit1) as Hd1.
  pose proof (wellFormed_parts _ Hwf) as (Hdis & _).
  assert (Hplain : plainPath u id (folders s)).
  { intros e He Hei _.
    assert (e = F)
      by (apply (distinct_ids_inj Folder._id (folders s)); auto; congruence).
    now subst e. }
  destruct (folder_placed _ F Hwf HF) as [HsF HplF].
  destruct (renameFolder_success _ _ _ _ _ _ _ _ Hwf Hplain Hs1 Hd1 H1)
    as (F' & HF' & Hid' & Hu & Ef1 & Hnew1 & Hkey1 & Efs1 & Eim1).
  assert (F' = F)
    by (apply (distinct_ids_inj Folder._id (folders s)); auto; congruence).
  subst F'.
  set (P := Folder.path F) in *. set (P1 := Folder.path f1) in *.
  set (n1' := JsString.trim n1) in *.
  rewrite Ef1 in Hkey1.
  assert (Hwf1 : wellFormed (folders s1) = true).
  { rewrite Efs1. now apply renamed_wellFormed. }
  pose proof (wellFormed_parts _ Hwf1) as (Hdis1 & _).
  rewrite <- Hn0 in HsF.
  assert (Hin1 : In (Folder.setNamePath n1' P1 F) (folders s1)).
  { rewrite Efs1. apply in_map_iff. exists F. split; [|assumption].
    unfold renamedDoc. now rewrite Hid, Nat.eqb_refl. }
  assert (Hplain1 : plainPath u id (folders s1)).
  { intros e He Hei _.
    assert (e = Folder.setNamePath n1' P1 F)
      by (apply (distinct_ids_inj Folder._id (folders s1)); auto;
          simpl; congruence).
    now subst e. }
  destruct (renameFolder_response _ _ _ _ _ _ _ _ H2)
    as (F1 & HF1 & Hid1 & _ & Ef2 & Hnew2).
  rewrite Hn0 in *.
  assert (EF1 : F1 = Folder.setNamePath n1' P1 F)
    by (apply (distinct_ids_inj Folder._id (folders s1)); auto;
        simpl; congruence).
  assert (EP1 : Folder.path F1 = P1) by (now rewrite EF1).
  assert (EP2 : Folder.path f2 = P).
  { destruct Hnew2 as [[Hr ->]|[p1 (Hpar1 & Hfind1 & ->)]].
    - rewrite EF1 in Hr. simpl in Hr.
      destruct HplF as [_ Hp | p Hpar _ _ _ _]; [now symmetry | congruence].
    - rewrite EF1 in Hpar1. simpl in Hpar1.
      destruct HplF as [Hr _ | p Hpar Hfind Hinp _ Hp]; [congruence|].
      assert (Folder._id p1 = Folder._id p) as E by congruence.
      rewrite E, Efs1 in Hfind1.
      unfold P in Hfind1. rewrite renamed_lookup, Hfind in Hfind1.
      simpl in Hfind1.
      rewrite (renamed_parent_of_F (folders s) u id n1' P1 F Hwf HF Hid Hu
                 p Hinp Hp) in Hfind1.
      injection Hfind1 as <-. now symmetry. }
  assert (Hd2 : JsString.hasChar "$" (Folder.path f2) = false)
    by (rewrite EP2; now apply literal_no_dollar).
  rewrite <- Hn0 in HsF.
  destruct (renameFolder_success _ _ _ _ _ _ _ _ Hwf1 Hplain1 HsF Hd2 H2)
    as (F1' & HF1' & Hid1' & _ & _ & _ & _ & Efs2 & Eim2).
  assert (F1' = F1)
    by (apply (distinct_ids_inj Folder._id (folders s1)); auto; congruence).
  subst F1'.
  rewrite Hn0 in *.
  rewrite EP1, EP2 in Efs2.
  destruct s as [fs ims], s2 as [fs2 ims2]. simpl in *.
  f_equal; [|congruence].
  rewrite Efs2, Efs1, map_map.
  transitivity (map (fun x : Folder.doc => x) fs); [|apply map_id].
  apply map_ext_in. intros e He.
  unfold renamedDoc at 2.
  destruct (Nat.eqb (Folder._id e) id) eqn:Ee.
  - apply Nat.eqb_eq in Ee.
    assert (e = F) by (apply (distinct_ids_inj Folder._id fs); auto; congruence).
    subst e. unfold renamedDoc. simpl. rewrite Hid, Nat.eqb_refl.
    transitivity (Folder.setNamePath (Folder.name F) (Folder.path F) F);
      [reflexivity | apply folder_eta].
  - destruct (belowOld u P e) eqn:Eb.
    + unfold renamedDoc. simpl. rewrite Ee.
      unfold belowOld in Eb |- *. simpl.
      apply andb_true_iff in Eb. destruct Eb as [Eu Eb].
      rewrite Eu. simpl.
      pose proof (startsWith_split _ _ Eb) as Esplit.
      set (r := JsString.drop (String.length (P ++ "/")) (Folder.path e)) in *.
      assert (Hdrop : JsString.drop (String.length P) (Folder.path e)
                      = "/" ++ r).
      { rewrite Esplit at 1. rewrite app_assoc_string. apply drop_exact. }
      rewrite Hdrop, startsWith_app_same, drop_exact. simpl.
      change (Folder.setPath (P ++ String "/"%char r) e = e).
      replace (P ++ String "/"%char r) with (Folder.path e).
      * apply folder_path_eta.
      * rewrite Esplit at 1. apply app_assoc_string.
    + unfold renamedDoc. rewrite Ee.
      destruct (belowOld u P1 e) eqn:Eb1; [exfalso|reflexivity].
      destruct (string_dec P1 P) as [E|E]; [congruence|].
      unfold belowOld in Eb1. apply andb_true_iff in Eb1.
      destruct Eb1 as [Eu Eb1]. apply Nat.eqb_eq in Eu.
      destruct (ancestor_with_path fs P1 Hwf _ e (Nat.lt_succ_diag_r _) He Eb1)
        as (a & Ha & Hpa & Hua).
      assert (Folder._id a <> id) as Hne.
      { intros Ea.
        assert (a = F) by (apply (distinct_ids_inj Folder._id fs); auto; congruence).
        subst a. unfold P in E. congruence. }
      assert (Folder.sameKey a (Folder.setNamePath n1' P1 F) = true) as Hk.
      { apply (path_taken_key fs); auto. congruence. }
      rewrite (Hkey1 a Ha Hne) in Hk. discriminate.
Qed.

Lemma rename_there_and_back_witness :
  wellFormed (folders storeDocs) = true
  /\ exists s1 s2,
       renameFolder noEngine alice 1 "B" storeDocs
       = (Json200 "Folder renamed successfully"
                  (Some (Folder.mk 1 "B" None alice "B" false None)), s1)
       /\ renameFolder noEngine alice 1 "A" s1
          = (Json200 "Folder renamed successfully"
                     (Some (Folder.mk 1 "A" None alice "A" false None)), s2)
       /\ s2 = storeDocs.
Proof.
  split; [reflexivity|]. do 2 eexists.
  split; [reflexivity|]. split; [reflexivity|].
  refine (rename_there_and_back noEngine alice 1 "B" "A" _ _ storeDocs _ _
            (Folder.mk 1 "A" None alice "A" false None) _ _
            eq_refl _ eq_refl eq_refl eq_refl eq_refl eq_refl eq_refl eq_refl).
  simpl. auto.
Defined.

(** ** The authentication middleware *)

Lemma splitOn_shape (sep : ascii) (s : string) :
  forall h t, splitOn sep s = (h, t) ->
    JsString.hasChar sep h = false
    /\ match t with
       | [] => s = h
       | tok :: _ =>
           exists rest,
             s = h ++ String sep (tok ++ rest)
             /\ JsString.hasChar sep tok = false
             /\ (rest = EmptyString \/ exists r', rest = String sep r')
       end.
Proof.
  induction s as [|c s IH]; simpl; intros h t E.
  - injection E as <- <-. auto.
  - destruct (splitOn sep s) as [h' t'] eqn:Es.
    destruct (IH h' t' eq_refl) as [Hh Ht].
    destruct (Ascii.eqb c sep) eqn:Ec; injection E as <- <-.
    + apply Ascii.eqb_eq in Ec. subst c. split; [reflexivity|].
      destruct t' as [|tok t''].
      * exists EmptyString. subst s. split; [|auto].
        simpl. f_equal. clear. induction h' as [|x h IH]; simpl; congruence.
      * destruct Ht as (rest & -> & Htok & _).
        exists (String sep (tok ++ rest)). simpl. eauto.
    + split; [rewrite hasChar_cons, Ascii.eqb_sym, Ec; exact Hh|].
      destruct t' as [|tok t'']; [now subst|].
      destruct Ht as (rest & -> & Htok & Hrest).
      exists rest. auto.
Qed.

Lemma splitOn_plain (sep : ascii) (w rest : string) :
  JsString.hasChar sep w = false ->
  (rest = EmptyString \/ exists r', rest = String sep r') ->
  splitOn sep (w ++ rest)
  = (w, match rest with
        | EmptyString => []
        | String _ r' => fst (splitOn sep r') :: snd (splitOn sep r')
        end).
Proof.
  intros Hw Hrest. induction w as [|c w IH]; simpl.
  - destruct Hrest as [->|[r' ->]]; [reflexivity|]. simpl.
    destruct (splitOn sep r'). now rewrite Ascii.eqb_refl.
  - rewrite hasChar_cons in Hw. apply orb_false_iff in Hw.
    destruct Hw as [Hc Hw]. rewrite (IH Hw), Ascii.eqb_sym, Hc.
    reflexivity.
Qed.

(** X12: the middleware lets a request through only with the user that
    [verify] returned for the second space-separated field of the header,
    a non-empty field.  For a header made of a word, a space, a token
    without space and nothing or more fields after it, the answer depends
    on the token alone: 401 when it is empty, the verified user or 400
    otherwise; the word before it is not looked at.  A missing header or
    one without space gets 401. *)
Theorem auth_second_field (verify : string -> option ObjectId) :
  auth verify None = Auth401 "Access denied. Token missing."
  /\ (forall h, JsString.hasChar " " h = false ->
        auth verify (Some h) = Auth401 "Access denied. Token missing.")
  /\ (forall scheme token rest,
        JsString.hasChar " " scheme = false ->
        JsString.hasChar " " token = false ->
        (rest = EmptyString \/ exists r', rest = String " " r') ->
        auth verify (Some (scheme ++ " " ++ token ++ rest))
        = if JsString.truthy token
          then match verify token with
               | Some userId => Next userId
               | None => Auth400 "Invalid token"
               end
          else Auth401 "Access denied. Token missing.")
  /\ (forall h userId,
        auth verify (Some h) = Next userId ->
        exists scheme token rest,
          h = scheme ++ " " ++ token ++ rest
          /\ JsString.hasChar " " scheme = false
          /\ JsString.hasChar " " token = false
          /\ token <> EmptyString
          /\ verify token = Some userId).
Proof.
  split; [reflexivity|]. split; [|split].
  - intros h Hh. unfold auth, split.
    destruct (JsString.truthy h); [|reflexivity]. simpl.
    pose proof (splitOn_plain " " h EmptyString Hh (or_introl eq_refl)) as E.
    assert (h ++ "" = h) as E' by (clear; induction h; simpl; congruence).
    rewrite E' in E. now rewrite E.
  - intros scheme token rest Hs Ht Hrest. unfold auth, split.
    assert (JsString.truthy (scheme ++ " " ++ token ++ rest) = true) as ->
      by (destruct scheme; reflexivity).
    simpl negb.
    rewrite (splitOn_plain " " scheme (" " ++ token ++ rest) Hs)
      by (right; eexists; reflexivity).
    simpl. rewrite (splitOn_plain " " token rest Ht Hrest). simpl.
    now destruct (JsString.truthy token).
  - intros h userId H. unfold auth, split in H.
    destruct (JsString.truthy h); [|discriminate H]. simpl in H.
    destruct (splitOn " " h) as [h0 t] eqn:Es.
    destruct (splitOn_shape " " h h0 t Es) as [Hh0 Ht].
    destruct t as [|token t']; [discriminate H|]. simpl in H.
    destruct (JsString.truthy token) eqn:Et; [|discriminate H]. simpl in H.
    destruct (verify token) as [u0|] eqn:Ev; [|discriminate H].
    injection H as <-.
    destruct Ht as (rest & -> & Htok & _).
    exists h0, token, rest. repeat split; auto.
    intros ->. discriminate Et.
Qed.

(** ** Folder names *)

Lemma trimEnd_idem (s : string) :
  JsString.trimEnd (JsString.trimEnd s) = JsString.trimEnd s.
Proof.
  induction s as [|c s IH]; [reflexivity|]. simpl.
  destruct (JsString.trimEnd s) as [|d r] eqn:E.
  - destruct (JsString.isWhiteSpace c) eqn:Ec; [reflexivity|].
    simpl. now rewrite Ec.
  - simpl. simpl in IH. now rewrite IH.
Qed.

Lemma trimStart_head (s : string) :
  match JsString.trimStart s with
  | EmptyString => True
  | String c _ => JsString.isWhiteSpace c = false
  end.
Proof.
  induction s as [|c s IH]; simpl; [exact I|].
  destruct (JsString.isWhiteSpace c) eqn:E; [exact IH | exact E].
Qed.

Lemma trimStart_trimEnd (t : string) :
  match t with
  | EmptyString => True
  | String c _ => JsString.isWhiteSpace c = false
  end ->
  JsString.trimStart (JsString.trimEnd t) = JsString.trimEnd t.
Proof.
  destruct t as [|c t]; [reflexivity|]. intros Hc. simpl.
  destruct (JsString.trimEnd t); simpl; rewrite ?Hc; simpl; now rewrite ?Hc.
Qed.

Lemma trim_idem (s : string) :
  JsString.trim (JsString.trim s) = JsString.trim s.
Proof.
  unfold JsString.trim.
  rewrite (trimStart_trimEnd _ (trimStart_head s)). apply trimEnd_idem.
Qed.

Lemma nameOk_trimmed (name : string) (f : Folder.doc) :
  nameMissing name = false -> Folder.name f = JsString.trim name ->
  nameOk f = true.
Proof.
  unfold nameMissing, nameOk. intros H ->.
  apply orb_false_iff in H. destruct H as [_ H].
  apply negb_false_iff in H. rewrite H, trim_idem. apply String.eqb_refl.
Qed.

Lemma rewriteSubfolders_names (o n : string) (l : list Folder.doc) :
  exists H : Folder.doc -> Folder.doc,
    (forall e, Folder.name (H e) = Folder.name e)
    /\ forall c, rewriteSubfolders o n l c = map H c.
Proof.
  unfold rewriteSubfolders. induction l as [|a l [H [HH IH]]]; simpl.
  - exists (fun e => e). split; [auto|]. intros c. now rewrite map_id.
  - exists (fun e =>
              H (if Nat.eqb (Folder._id e) (Folder._id a)
                 then Folder.setPath
                        (JsString.replace (Folder.path a) o n) e
                 else e)).
    split.
    + intros e. rewrite HH. now destruct (Nat.eqb (Folder._id e) (Folder._id a)).
    + intros c. rewrite IH. unfold Folder.savePath. now rewrite map_map.
Qed.

Lemma namesTrimmed_map (h : Folder.doc -> Folder.doc) (c : list Folder.doc) :
  (forall e, Folder.name (h e) = Folder.name e) ->
  namesTrimmed c = true -> namesTrimmed (map h c) = true.
Proof.
  intros Hh H. unfold namesTrimmed in *. rewrite forallb_forall in *.
  intros e' He'. apply in_map_iff in He'. destruct He' as [e [<- He]].
  unfold nameOk. rewrite Hh. now apply H.
Qed.

Lemma findOneAndUpdate_names (q : Folder.doc -> bool)
  (h : Folder.doc -> Folder.doc) (c : list Folder.doc) :
  (forall e, Folder.name (h e) = Folder.name e) ->
  namesTrimmed c = true ->
  namesTrimmed (snd (findOneAndUpdate q h c)) = true.
Proof.
  intros Hh. unfold namesTrimmed.
  induction c as [|d c IH]; simpl; [auto|]. intros H.
  apply andb_true_iff in H. destruct H as [Hd Hc].
  destruct (q d); simpl.
  - rewrite Hc, andb_true_r. unfold nameOk in *. now rewrite Hh.
  - destruct (findOneAndUpdate q h c) as [o c']. simpl in *.
    now rewrite Hd, IH.
Qed.

Lemma renameFolder_names (rx : Regex.engine) (u id : ObjectId)
  (name : string) (s s' : store) (r : response) :
  namesTrimmed (folders s) = true ->
  renameFolder rx u id name s = (r, s') ->
  namesTrimmed (folders s') = true.
Proof.
  intros Hok H.
  assert (Hsame : forall r0, (r0, s) = (r, s') ->
                             namesTrimmed (folders s') = true)
    by (intros r0 E; now injection E as _ <-).
  unfold renameFolder in H.
  destruct (nameMissing name) eqn:Hmiss; [eauto|].
  destruct (findOne _ (folders s)) as [F|]; [|eauto].
  match type of H with
  | context [findOne ?q (folders s)] =>
      destruct (findOne q (folders s)) as [dup|]; [eauto|]
  end.
  destruct (match Folder.parentFolder F with Some _ => _ | None => _ end)
    as [newPath|]; [|eauto].
  unfold Folder.saveNamePath in H. simpl in H.
  destruct (existsb _ (folders s)); [eauto|].
  assert (Hfs1 : namesTrimmed
                   (map (fun e => if Nat.eqb (Folder._id e) (Folder._id F)
                                  then Folder.setNamePath (JsString.trim name)
                                                          newPath e
                                  else e) (folders s)) = true).
  { unfold namesTrimmed in *. rewrite forallb_forall in *. intros e' He'.
    apply in_map_iff in He'. destruct He' as [e [<- He]].
    destruct (Nat.eqb (Folder._id e) (Folder._id F)); [|auto].
    now apply (nameOk_trimmed name). }
  destruct (findByPathRegex _ _ _ _) as [subs|].
  - injection H as _ <-. simpl.
    destruct (rewriteSubfolders_names (Folder.path F) newPath subs)
      as [h [Hh ->]].
    now apply namesTrimmed_map.
  - now injection H as _ <-.
Qed.

Lemma routeStep_names (rx : Regex.engine) (u : ObjectId) (s s' : store) :
  namesTrimmed (folders s) = true -> routeStep rx u s s' ->
  namesTrimmed (folders s') = true.
Proof.
  intros Hok Hstep. destruct Hstep as
    [newId name parent r s' H | id name r s' H | tF tI id r s' H
    | ok id r s' calls H | newId id reqFile uploaded r s' H | t id r s' H
    | id newName r s' H | type id r s' H | ok type id r s' calls H].
  - unfold createFolder in H.
    destruct (nameMissing name) eqn:Hmiss; [now injection H as _ <-|].
    destruct (match parent with Some _ => _ | None => _ end) as [path|];
      [|now injection H as _ <-].
    unfold Folder.insert in H.
    destruct (existsb _ (folders s)); injection H as _ <-; [assumption|].
    simpl. unfold namesTrimmed in *. rewrite forallb_app, Hok. simpl.
    now rewrite (nameOk_trimmed name).
  - eapply renameFolder_names; eauto.
  - unfold softDeleteFolder in H.
    destruct (findOne _ (folders s)); [|now injection H as _ <-].
    destruct (findByPathRegex _ _ _ _); [|now injection H as _ <-].
    injection H as _ <-. simpl. apply namesTrimmed_map; [|assumption].
    intros e. now destruct (inIds _ _).
  - unfold hardDeleteFolder in H.
    destruct (findOne _ (folders s)); [|now injection H as _ <- _].
    destruct (findByPathRegex _ _ _ _); [|now injection H as _ <- _].
    injection H as _ <- _. simpl. unfold namesTrimmed, deleteMany in *.
    eapply forallb_incl; [|exact Hok]. intros e He.
    now apply filter_In in He.
  - unfold uploadImage in H.
    destruct (findOne _ (folders s)); [|now injection H as _ <-].
    destruct reqFile; [|now injection H as _ <-].
    destruct uploaded; [|now injection H as _ <-].
    destruct (Image.insert _ _); now injection H as _ <-.
  - rewrite softDeleteImage_refused in H. now injection H as _ <-.
  - rewrite renameImage_refused in H. now injection H as _ <-.
  - unfold restoreItem in H.
    destruct (String.eqb (normType type) "folder").
    + unfold restoreFolder in H.
      pose proof (findOneAndUpdate_names
                    (fun f => Nat.eqb (Folder._id f) id
                              && Nat.eqb (Folder.user f) u
                              && Folder.isDeleted f)
                    (Folder.setTrash false None) (folders s)
                    (fun e => eq_refl) Hok) as Hn.
      destruct (findOneAndUpdate _ _ (folders s)) as [[f|] fs];
        now injection H as _ <-.
    + rewrite restoreImage_refused in H.
      destruct (String.eqb (normType type) "image"); now injection H as _ <-.
  - unfold permanentDelete in H. rewrite permanentDeleteImage_refused in H.
    destruct (String.eqb (normType type) "image");
      [now injection H as _ <- _|].
    destruct (String.eqb (normType type) "folder");
      [|now injection H as _ <- _].
    unfold permanentDeleteFolder in H.
    destruct (findOne _ (folders s)); [|now injection H as _ <- _].
    destruct (destroyEach ok _) as [l [|]];
      injection H as _ <- _; [|assumption].
    simpl. unfold namesTrimmed in *.
    eapply forallb_incl; [|exact Hok]. intros e. apply deleteOne_incl.
Qed.

(** X13: in every store reached from the empty store by requests, whatever
    they were and whatever they answered, every folder name is non-empty
    and has no white space at its start or end (trimming it changes
    nothing). *)
Theorem reachable_names_trimmed (rx : Regex.engine) (s : store) :
  reachable rx s -> namesTrimmed (folders s) = true.
Proof.
  induction 1 as [|u s s' _ IH Hstep]; [reflexivity|].
  now apply (routeStep_names rx u s s' IH).
Qed.

Lemma reachable_names_trimmed_witness :
  reachable noEngine storeDocsTrashed
  /\ namesTrimmed (folders storeDocsTrashed) = true.
Proof.
  split; [exact storeDocsTrashed_reachable|].
  exact (reachable_names_trimmed noEngine storeDocsTrashed
           storeDocsTrashed_reachable).
Defined.

(** ** The hierarchy under trash and delete *)

Lemma wellFormed_intro (c : list Folder.doc) :
  distinct (map Folder._id c) = true -> pathInvariant c = true ->
  slashFree c = true -> forallb (ownerOk c) c = true ->
  uniqueIndex c = true -> wellFormed c = true.
Proof. unfold wellFormed. now intros -> -> -> -> ->. Qed.

(** Changing trash fields only keeps a collection well formed. *)
Lemma wellFormed_map (h : Folder.doc -> Folder.doc) (c : list Folder.doc) :
  (forall e, Folder._id (h e) = Folder._id e
             /\ Folder.name (h e) = Folder.name e
             /\ Folder.parentFolder (h e) = Folder.parentFolder e
             /\ Folder.user (h e) = Folder.user e
             /\ Folder.path (h e) = Folder.path e) ->
  wellFormed c = true -> wellFormed (map h c) = true.
Proof.
  intros Hh Hwf.
  pose proof (wellFormed_parts c Hwf) as (Hd & Hp & Hs & Ho & Hu).
  assert (Hlook : forall k, findOne (byId k) (map h c)
                            = option_map h (findOne (byId k) c)).
  { intros k. apply find_map_stable. intros d. unfold byId.
    now destruct (Hh d) as (-> & _). }
  apply wellFormed_intro.
  - rewrite distinct_map_stable; [assumption|]. intros e. now destruct (Hh e).
  - unfold pathInvariant in *. rewrite forallb_forall in *. intros e' He'.
    apply in_map_iff in He'. destruct He' as [e [<- He]].
    specialize (Hp e He). unfold pathOk in *.
    destruct (Hh e) as (_ & -> & -> & _ & ->).
    destruct (Folder.parentFolder e) as [pid|]; [|assumption].
    rewrite Hlook. destruct (findOne (byId pid) c) as [p|]; [|discriminate].
    simpl. now destruct (Hh p) as (_ & _ & _ & _ & ->).
  - unfold slashFree in *. rewrite forallb_forall in *. intros e' He'.
    apply in_map_iff in He'. destruct He' as [e [<- He]].
    destruct (Hh e) as (_ & -> & _). auto.
  - rewrite forallb_forall in *. intros e' He'.
    apply in_map_iff in He'. destruct He' as [e [<- He]].
    specialize (Ho e He). unfold ownerOk in *.
    destruct (Hh e) as (_ & _ & -> & -> & _).
    destruct (Folder.parentFolder e) as [pid|]; [|reflexivity].
    rewrite Hlook. destruct (findOne (byId pid) c) as [p|]; [|discriminate].
    simpl. now destruct (Hh p) as (_ & _ & _ & -> & _).
  - unfold uniqueIndex in *. rewrite forallb_forall in *. intros e1' He1.
    rewrite forallb_forall. intros e2' He2.
    apply in_map_iff in He1, He2.
    destruct He1 as [e1 [<- He1]], He2 as [e2 [<- He2]].
    specialize (Hu e1 He1). rewrite forallb_forall in Hu.
    specialize (Hu e2 He2). unfold Folder.sameKey in *.
    destruct (Hh e1) as (-> & -> & -> & -> & _).
    now destruct (Hh e2) as (-> & -> & -> & -> & _).
Qed.

(** Removing the caller's folders with a given path prefix removes, with
    a folder, every folder below it: the rest is well formed. *)
Lemma wellFormed_prefix_removed (u : ObjectId) (P : string)
  (c : list Folder.doc) :
  wellFormed c = true ->
  let M := map Folder._id
               (find (fun f => Nat.eqb (Folder.user f) u
                               && JsString.startsWith P (Folder.path f)) c) in
  wellFormed (deleteMany (fun f => inIds (Folder._id f) M) c) = true.
Proof.
  intros Hwf M.
  pose proof (wellFormed_parts c Hwf) as (Hd & Hp & Hs & Ho & Hu).
  assert (Hkeep : forall e, In e (deleteMany (fun f => inIds (Folder._id f) M) c) ->
                  In e c /\ inIds (Folder._id e) M = false).
  { intros e He. unfold deleteMany in He. apply filter_In in He.
    destruct He as [He Hq]. now apply negb_true_iff in Hq. }
  assert (Hpar : forall e p, In e c -> inIds (Folder._id e) M = false ->
            In p c -> Folder.user p = Folder.user e ->
            Folder.path e = Folder.path p ++ "/" ++ Folder.name e ->
            inIds (Folder._id p) M = false).
  { intros e p He Hne Hin Hup Hpath.
    destruct (inIds (Folder._id p) M) eqn:E; [|reflexivity].
    apply inIds_In, in_map_iff in E. destruct E as [g [Eg Hg]].
    unfold find in Hg. apply filter_In in Hg. destruct Hg as [Hg Hq].
    assert (g = p) by (eapply distinct_ids_inj; eauto). subst g.
    apply andb_true_iff in Hq. destruct Hq as [Hqu Hqp].
    assert (inIds (Folder._id e) M = true); [|congruence].
    apply inIds_In, in_map. unfold find. apply filter_In.
    split; [assumption|]. rewrite <- Hup, Hqu. simpl.
    rewrite Hpath. now apply startsWith_trans. }
  apply wellFormed_intro.
  - unfold deleteMany. now apply distinct_filter.
  - unfold pathInvariant. apply forallb_forall. intros e He.
    destruct (Hkeep e He) as [Hin Hne].
    destruct (folder_placed c e Hwf Hin) as [_ [Hr Hpa | p Hpar' Hfind Hinp Hup Hpa]];
      unfold pathOk.
    + rewrite Hr, Hpa. apply String.eqb_refl.
    + rewrite Hpar', findOne_deleteMany_ids, Hfind by eauto.
      rewrite Hpa. apply String.eqb_refl.
  - unfold slashFree in *. eapply forallb_incl; [|exact Hs].
    intros e He. now apply Hkeep.
  - apply forallb_forall. intros e He.
    destruct (Hkeep e He) as [Hin Hne].
    destruct (folder_placed c e Hwf Hin) as [_ [Hr Hpa | p Hpar' Hfind Hinp Hup Hpa]];
      unfold ownerOk.
    + now rewrite Hr.
    + rewrite Hpar', findOne_deleteMany_ids, Hfind by eauto.
      now apply Nat.eqb_eq.
  - unfold uniqueIndex in *. rewrite forallb_forall in *. intros e1 He1.
    rewrite forallb_forall. intros e2 He2.
    destruct (Hkeep e1 He1) as [H1 _]. destruct (Hkeep e2 He2) as [H2 _].
    specialize (Hu e1 H1). rewrite forallb_forall in Hu. auto.
Qed.
(** X14: the soft delete of a folder and the restore of a folder or an
    image leave a well-formed folder collection well formed, whatever
    they answer: paths, names and parent links are untouched by the
    trash.  So does the hard delete of a folder whose path holds no
    metacharacter: it leaves no folder behind whose parent it removed. *)
Theorem trash_and_hard_delete_keep_hierarchy (rx : Regex.engine) (s : store) :
  wellFormed (folders s) = true ->
  (forall tF tI u id r s',
      softDeleteFolder rx tF tI u id s = (r, s') ->
      wellFormed (folders s') = true
      /\ map Folder.path (folders s') = map Folder.path (folders s))
  /\ (forall u type id r s',
        restoreItem u type id s = (r, s') ->
        wellFormed (folders s') = true
        /\ map Folder.path (folders s') = map Folder.path (folders s))
  /\ (forall ok u id r s' calls,
        hardDeleteFolder rx ok u id s = (r, s', calls) ->
        plainPath u id (folders s) ->
        wellFormed (folders s') = true).
Proof.
  intros Hwf. pose proof (wellFormed_parts _ Hwf) as (Hd & _).
  split; [|split].
  - intros tF tI u id r s' H. unfold softDeleteFolder in H.
    destruct (findOne _ (folders s)); [|injection H as _ <-; auto].
    destruct (findByPathRegex _ _ _ _) as [m|]; [|injection H as _ <-; auto].
    injection H as _ <-. simpl. unfold updateMany. split.
    + apply wellFormed_map; [|assumption].
      intros e. destruct (inIds (Folder._id e) (map Folder._id m)); simpl; auto.
    + rewrite map_map. apply map_ext. intros e.
      now destruct (inIds (Folder._id e) (map Folder._id m)).
  - intros u type id r s' H. unfold restoreItem in H.
    destruct (String.eqb (normType type) "folder").
    + unfold restoreFolder in H.
      destruct (findOne (fun f => Nat.eqb (Folder._id f) id
                                  && Nat.eqb (Folder.user f) u
                                  && Folder.isDeleted f) (folders s))
        as [F|] eqn:E.
      * rewrite (findOneAndUpdate_by_id Folder._id id _ _ _ F Hd
                   (trashQuery_id u id) E) in H.
        injection H as _ <-. simpl. split.
        -- apply wellFormed_map; [|assumption].
           intros e. destruct (Nat.eqb (Folder._id e) id); simpl; auto.
        -- rewrite map_map. apply map_ext. intros e.
           now destruct (Nat.eqb (Folder._id e) id).
      * rewrite (findOneAndUpdate_none _ _ _ E) in H.
        injection H as _ <-. auto.
    + rewrite restoreImage_refused in H.
      destruct (String.eqb (normType type) "image");
        injection H as _ <-; auto.
  - intros ok u id r s' calls H Hplain. unfold hardDeleteFolder in H.
    destruct (findOne _ (folders s)) as [F|] eqn:EF;
      [|injection H as _ <- _; auto].
    apply findOne_some in EF. destruct EF as [HF Hq].
    apply andb_true_iff in Hq. destruct Hq as [Hid Hu].
    apply Nat.eqb_eq in Hid, Hu.
    rewrite (findByPathRegex_literal rx u _ _ (Hplain F HF Hid Hu)) in H.
    injection H as _ <- _. simpl.
    now apply wellFormed_prefix_removed.
Qed.

Lemma trash_and_hard_delete_keep_hierarchy_witness :
  wellFormed (folders storeDocs) = true
  /\ plainPath alice 2 (folders storeDocs)
  /\ wellFormed [Folder.mk 1 "A" None alice "A" false None] = true.
Proof.
  assert (Hp : plainPath alice 2 (folders storeDocs)).
  { intros f Hf Hid _. simpl in Hf.
    destruct Hf as [<-|[<-|[<-|[]]]]; try discriminate Hid; reflexivity. }
  split; [reflexivity|]. split; [exact Hp|].
  exact (proj2 (proj2 (trash_and_hard_delete_keep_hierarchy noEngine storeDocs
                         eq_refl))
               allReject alice 2
               (Json200 "Folder, subfolders, and all images permanently deleted"
                        None)
               (mkStore [Folder.mk 1 "A" None alice "A" false None]
                        [pic 10 1 alice "app/pic10"])
               ["app/pic11"] eq_refl Hp).
Defined.

(** ** Creating folders and uploading images *)

Lemma trim_blank (name : string) :
  JsString.trim name = EmptyString -> nameMissing name = true.
Proof.
  unfold nameMissing. intros ->. simpl. apply orb_true_r.
Qed.

(** X15: a create with a name that is empty after trimming answers 400;
    every create that does not answer 201 leaves the store as it was.  A
    create under a folder of the caller succeeds whenever the id is new
    and no folder of the caller has the trimmed name under that parent,
    whether or not the parent is in the trash: it appends one active
    folder with the computed path and changes nothing else. *)
Theorem create_outcomes (newId u : ObjectId) (name : string)
  (parent : option ObjectId) (s : store) :
  (JsString.trim name = EmptyString ->
   createFolder newId u name parent s
   = (Status400 "Folder name is required", s))
  /\ (forall r s', createFolder newId u name parent s = (r, s') ->
                   (forall f, r <> Json201 f) -> s' = s)
  /\ (forall p,
        nameMissing name = false ->
        distinct (map Folder._id (folders s)) = true ->
        In p (folders s) -> Folder.user p = u -> parent = Some (Folder._id p) ->
        (forall e, In e (folders s) ->
                   Folder._id e <> newId
                   /\ ~ (Folder.user e = u
                         /\ Folder.parentFolder e = parent
                         /\ Folder.name e = JsString.trim name)) ->
        let f := Folder.mk newId (JsString.trim name) parent u
                           (Folder.path p ++ "/" ++ JsString.trim name)
                           false None in
        createFolder newId u name parent s
        = (Json201 f, mkStore (folders s ++ [f])%list (images s))).
Proof.
  split; [|split].
  - intros Hb. unfold createFolder. now rewrite (trim_blank name Hb).
  - intros r s' H Hno. unfold createFolder in H.
    destruct (nameMissing name); [now injection H as _ <-|].
    destruct (match parent with Some _ => _ | None => _ end) as [path|];
      [|now injection H as _ <-].
    destruct (Folder.insert _ _); [|now injection H as _ <-].
    injection H as <- _. exfalso. eapply Hno. reflexivity.
  - intros p Hmiss Hd Hp Hu -> Hfree f. unfold createFolder.
    rewrite Hmiss.
    rewrite (findOne_by_id Folder._id _ (folders s) p); auto.
    + unfold Folder.insert. fold f.
      assert (existsb (fun e => Nat.eqb (Folder._id e) (Folder._id f)
                                || Folder.sameKey e f) (folders s) = false)
        as ->; [|reflexivity].
      destruct (existsb _ (folders s)) eqn:Ex; [|reflexivity].
      apply existsb_exists in Ex. destruct Ex as [e [He Hq]].
      destruct (Hfree e He) as [Hne Hk].
      apply orb_true_iff in Hq. destruct Hq as [Hq|Hq].
      * apply Nat.eqb_eq in Hq. simpl in Hq. congruence.
      * apply sameKey_eq in Hq. simpl in Hq. tauto.
    + now rewrite Hu, !Nat.eqb_refl.
    + intros e He. apply andb_true_iff in He. destruct He as [He _].
      now apply Nat.eqb_eq in He.
Qed.

Lemma create_outcomes_witness :
  createFolder 5 alice " New " (Some 2) storeDocsTrashed
  = (Json201 (Folder.mk 5 "New" (Some 2) alice "A/Docs/New" false None),
     mkStore (folders storeDocsTrashed
              ++ [Folder.mk 5 "New" (Some 2) alice "A/Docs/New" false None])%list
             (images storeDocsTrashed)).
Proof.
  apply (proj2 (proj2 (create_outcomes 5 alice " New " (Some 2)
                         storeDocsTrashed))
               (Folder.mk 2 "Docs" (Some 1) alice "A/Docs" true (Some 100%Z)));
    try reflexivity.
  - simpl. auto.
  - intros e [<-|[<-|[<-|[]]]]; simpl; split; try discriminate;
      intros (_ & _ & H); discriminate H.
Defined.

Lemma find_app {A} (q : A -> bool) (c l : list A) :
  find q (c ++ l)%list = (find q c ++ find q l)%list.
Proof. unfold find. apply filter_app. Qed.

(** X16: an upload into a folder that is not the caller's or is in the
    trash answers 404; every upload that does not answer 201 leaves the
    store as it was.  A successful upload changes no folder and no
    existing image and appends the new image, whose name is the trimmed
    part of the original file name before its first dot and is not
    empty; the image listing of the folder is empty afterwards all the
    same. *)
Theorem upload_outcomes (newId u id : ObjectId) (reqFile : option file)
  (uploaded : option uploadResult) (s : store) :
  ((forall f, In f (folders s) -> Folder._id f = id -> Folder.user f = u ->
              Folder.isDeleted f = true) ->
   uploadImage newId u id reqFile uploaded s
   = (Status404 "Folder not found", s))
  /\ (forall r s', uploadImage newId u id reqFile uploaded s = (r, s') ->
                   (forall msg i, r <> Json201Image msg i) -> s' = s)
  /\ (forall msg i s',
        uploadImage newId u id reqFile uploaded s
        = (Json201Image msg i, s') ->
        (exists f upl result,
            In f (folders s) /\ Folder._id f = id /\ Folder.user f = u
            /\ Folder.isDeleted f = false
            /\ reqFile = Some upl /\ uploaded = Some result
            /\ i = Image.mk newId
                            (JsString.trim
                               (hd EmptyString (split "." (originalname upl))))
                            (originalname upl) (secure_url result)
                            (public_id result) id u (fileSize upl)
                            (mimetype upl))
        /\ JsString.truthy (Image.name i) = true
        /\ folders s' = folders s
        /\ images s' = (images s ++ [i])%list
        /\ (forall j, In j (images s) -> Image._id j <> newId)
        /\ listImages u id s' = []).
Proof.
  split; [|split].
  - intros Hno. unfold uploadImage.
    destruct (findOne _ (folders s)) as [f|] eqn:E; [|reflexivity].
    exfalso. apply findOne_some in E. destruct E as [Hf Hq].
    apply andb_true_iff in Hq. destruct Hq as [Hq Hd].
    apply andb_true_iff in Hq. destruct Hq as [Hi Hu].
    apply Nat.eqb_eq in Hi, Hu. apply negb_true_iff in Hd.
    rewrite (Hno f Hf Hi Hu) in Hd. discriminate.
  - intros r s' H Hno. unfold uploadImage in H.
    destruct (findOne _ (folders s)); [|now injection H as _ <-].
    destruct reqFile; [|now injection H as _ <-].
    destruct uploaded; [|now injection H as _ <-].
    destruct (Image.insert _ _); [|now injection H as _ <-].
    injection H as <- _. exfalso. eapply Hno. reflexivity.
  - intros msg i s' H. unfold uploadImage in H.
    destruct (findOne _ (folders s)) as [F|] eqn:E; [|discriminate H].
    destruct reqFile as [upl|]; [|discriminate H].
    destruct uploaded as [result|]; [|discriminate H].
    unfold Image.insert in H.
    destruct (negb _ || existsb _ (images s)) eqn:Ex; [discriminate H|].
    apply orb_false_iff in Ex. destruct Ex as [Hv Ex].
    apply negb_false_iff in Hv.
    injection H as _ <- <-.
    apply findOne_some in E. destruct E as [Hf Hq].
    apply andb_true_iff in Hq. destruct Hq as [Hq Hd].
    apply andb_true_iff in Hq. destruct Hq as [Hi Hu].
    apply Nat.eqb_eq in Hi, Hu. apply negb_true_iff in Hd.
    rewrite Hi in *.
    split; [exists F, upl, result; repeat split; auto|].
    split.
    { unfold Image.valid in Hv.
      repeat (apply andb_true_iff in Hv; destruct Hv as [Hv _]).
      exact Hv. }
    repeat (split; [reflexivity|]). split.
    + intros j Hj Ej. pose proof (existsb_false_in _ _ j Ex Hj) as Hx.
      simpl in Hx. rewrite Ej, Nat.eqb_refl in Hx. discriminate.
    + apply find_image_trash.
Qed.

Lemma upload_outcomes_witness :
  uploadImage 12 alice 2 (Some picFile) (Some (storedAs "app/pic12")) storeDocs
  = (Json201Image "Image uploaded successfully" (pic 12 2 alice "app/pic12"),
     mkStore (folders storeDocs)
             (images storeDocs ++ [pic 12 2 alice "app/pic12"])%list)
  /\ listImages alice 2
       (mkStore (folders storeDocs)
                (images storeDocs ++ [pic 12 2 alice "app/pic12"])%list)
     = [].
Proof.
  split; [reflexivity|].
  apply (proj2 (proj2 (upload_outcomes 12 alice 2 (Some picFile)
                         (Some (storedAs "app/pic12")) storeDocs))
               "Image uploaded successfully" (pic 12 2 alice "app/pic12")
               (mkStore (folders storeDocs)
                        (images storeDocs
                         ++ [pic 12 2 alice "app/pic12"])%list)
               eq_refl).
Defined.

(** ** Which documents the deletes reach *)

Lemma inIds_picked {A} (key : A -> ObjectId) (q : A -> bool) (c : list A)
  (k : ObjectId) :
  inIds k (map key (find q c)) = existsb (fun g => q g && Nat.eqb (key g) k) c.
Proof.
  unfold inIds, find. induction c as [|d c IH]; simpl; [reflexivity|].
  destruct (q d); simpl; [now rewrite IH, (Nat.eqb_sym k) | exact IH].
Qed.

Lemma inIds_picked_self {A} (key : A -> ObjectId) (q : A -> bool) (c : list A)
  (d : A) :
  distinct (map key c) = true -> In d c ->
  inIds (key d) (map key (find q c)) = q d.
Proof.
  intros Hd Hin. destruct (q d) eqn:E.
  - apply inIds_In, in_map. unfold find. apply filter_In. auto.
  - destruct (inIds _ _) eqn:Ei; [|reflexivity].
    apply inIds_In, in_map_iff in Ei. destruct Ei as [e [Ee He]].
    unfold find in He. apply filter_In in He. destruct He as [He Hq].
    assert (e = d) by (eapply distinct_ids_inj; eauto). congruence.
Qed.


(** X17: with distinct folder ids, for a folder [F] of the caller whose
    path has no metacharacter, the soft delete succeeds, stamps exactly
    the caller's folders whose path has the path of [F] as a string
    prefix and changes nothing else, no image included; the hard delete
    succeeds, removes exactly these folders and the images whose folder is
    one of them, keeps the rest unchanged, and calls [destroy] once for
    each removed image that has a public id, in store order. *)
Theorem delete_exact_reach (rx : Regex.engine) (u id : ObjectId) (s : store)
  (F : Folder.doc) :
  distinct (map Folder._id (folders s)) = true ->
  In F (folders s) -> Folder._id F = id -> Folder.user F = u ->
  Regex.literal (Folder.path F) = true ->
  (forall tF tI,
      softDeleteFolder rx tF tI u id s
      = (Json200 "Folder and contents moved to trash" None,
         mkStore
           (map (fun g => if prefixHit u (Folder.path F) g
                          then Folder.setTrash true (Some tF) g else g)
                (folders s))
           (images s)))
  /\ (forall ok,
        hardDeleteFolder rx ok u id s
        = (Json200 "Folder, subfolders, and all images permanently deleted"
                   None,
           mkStore
             (List.filter (fun g => negb (prefixHit u (Folder.path F) g))
                          (folders s))
             (List.filter
                (fun i => negb (inHitFolder u (Folder.path F) (folders s) i))
                (images s)),
           map Image.cloudinaryPublicId
               (find (fun i => JsString.truthy (Image.cloudinaryPublicId i)
                               && inHitFolder u (Folder.path F) (folders s) i)
                     (images s)))).
Proof.
  intros Hd HF Hid Hu Hl.
  pose proof (findOne_owned u id _ F Hd HF Hid Hu) as EF.
  split.
  - intros tF tI. rewrite (softDelete_plain rx tF tI u id s F EF Hl).
    do 2 f_equal. apply map_ext_in. intros g Hg.
    now rewrite (inIds_picked_self Folder._id _ _ g Hd Hg).
  - intros ok. unfold hardDeleteFolder. rewrite EF.
    rewrite (findByPathRegex_literal rx u _ _ Hl).
    fold (prefixHit u (Folder.path F)).
    rewrite destroyEachCaught_calls, find_find. unfold deleteMany.
    f_equal; [f_equal; f_equal|].
    + apply filter_ext_in. intros g Hg. f_equal.
      now apply (inIds_picked_self Folder._id).
    + apply filter_ext. intros i. f_equal. now rewrite inIds_picked.
    + f_equal. apply filter_ext. intros i. f_equal.
      now rewrite inIds_picked.
Qed.

Lemma delete_exact_reach_witness :
  distinct (map Folder._id (folders storeFoo)) = true
  /\ softDeleteFolder noEngine 100 101 alice 1 storeFoo
     = (Json200 "Folder and contents moved to trash" None,
        mkStore
          (map (fun g => if prefixHit alice "Foo" g
                         then Folder.setTrash true (Some 100%Z) g else g)
               (folders storeFoo))
          (images storeFoo)).
Proof.
  split; [reflexivity|].
  apply (proj1 (delete_exact_reach noEngine alice 1 storeFoo
                  (Folder.mk 1 "Foo" None alice "Foo" false None)
                  eq_refl (or_introl eq_refl) eq_refl eq_refl eq_refl)).
Defined.

(** ** Which paths a rename rewrites *)

(** X18: on a well-formed collection, a successful rename of a folder
    whose old path holds no metacharacter to a name without separator,
    with a new path without dollar, gives the renamed folder the new name
    and the path computed from its parent's path, gives every other
    folder of the caller whose path starts with the old path followed by
    the separator the new path followed by the rest of its own path, and
    changes no other folder and no image. *)
Theorem rename_rewrites_prefix (rx : Regex.engine) (u id : ObjectId)
  (name msg : string) (f : Folder.doc) (s s' : store) :
  wellFormed (folders s) = true ->
  plainPath u id (folders s) ->
  JsString.hasChar "/" (JsString.trim name) = false ->
  JsString.hasChar "$" (Folder.path f) = false ->
  renameFolder rx u id name s = (Json200 msg (Some f), s') ->
  exists F,
    In F (folders s) /\ Folder._id F = id /\ Folder.user F = u
    /\ f = Folder.setNamePath (JsString.trim name) (Folder.path f) F
    /\ Folder.path f
       = PathModel.computePath (JsString.trim name)
           (match Folder.parentFolder F with
            | Some pid => option_map Folder.path (findOne (byId pid) (folders s))
            | None => None
            end)
    /\ folders s'
       = map (fun e =>
                if Nat.eqb (Folder._id e) id then f
                else if Nat.eqb (Folder.user e) u
                        && JsString.startsWith (Folder.path F ++ "/")
                                               (Folder.path e)
                     then Folder.setPath
                            (Folder.path f
                             ++ JsString.drop (String.length (Folder.path F))
                                              (Folder.path e)) e
                     else e)
             (folders s)
    /\ images s' = images s.
Proof.
  intros Hwf Hplain Hslash Hdollar H.
  pose proof (wellFormed_parts _ Hwf) as (Hd & _).
  destruct (renameFolder_success _ _ _ _ _ _ _ _ Hwf Hplain Hslash Hdollar H)
    as (F & HF & Hid & Hu & Ef & Hnew & _ & Efs & Eim).
  exists F. repeat (split; [assumption|]). split; [|split; [|assumption]].
  - destruct Hnew as [[-> ->]|[p (-> & Hfind & ->)]]; [reflexivity|].
    now rewrite Hfind.
  - rewrite Efs. apply map_ext_in. intros e He. unfold renamedDoc, belowOld.
    destruct (Nat.eqb (Folder._id e) id) eqn:Ee; [|reflexivity].
    apply Nat.eqb_eq in Ee.
    assert (e = F)
      by (apply (distinct_ids_inj Folder._id (folders s)); auto; congruence).
    subst e. now symmetry.
Qed.


Lemma rename_rewrites_prefix_witness :
  wellFormed (folders storeDocs) = true
  /\ plainPath alice 2 (folders storeDocs)
  /\ exists F,
       In F (folders storeDocs) /\ Folder._id F = 2 /\ Folder.user F = alice
       /\ [Folder.mk 1 "A" None alice "A" false None;
           Folder.mk 2 "Papers" (Some 1) alice "A/Papers" false None;
           Folder.mk 3 "Old" (Some 2) alice "A/Papers/Old" false None]
          = map (fun e =>
                   if Nat.eqb (Folder._id e) 2
                   then Folder.mk 2 "Papers" (Some 1) alice "A/Papers" false None
                   else if Nat.eqb (Folder.user e) alice
                           && JsString.startsWith (Folder.path F ++ "/")
                                                  (Folder.path e)
                        then Folder.setPath
                               ("A/Papers"
                                ++ JsString.drop (String.length (Folder.path F))
                                                 (Folder.path e)) e
                        else e)
                (folders storeDocs).
Proof.
  assert (Hp : plainPath alice 2 (folders storeDocs)).
  { intros f Hf Hid _. simpl in Hf.
    destruct Hf as [<-|[<-|[<-|[]]]]; try discriminate Hid; reflexivity. }
  split; [reflexivity|]. split; [exact Hp|].
  destruct (rename_rewrites_prefix noEngine alice 2 "Papers"
              "Folder renamed successfully"
              (Folder.mk 2 "Papers" (Some 1) alice "A/Papers" false None)
              storeDocs
              (mkStore
                 [Folder.mk 1 "A" None alice "A" false None;
                  Folder.mk 2 "Papers" (Some 1) alice "A/Papers" false None;
                  Folder.mk 3 "Old" (Some 2) alice "A/Papers/Old" false None]
                 (images storeDocs))
              eq_refl Hp eq_refl eq_refl eq_refl)
    as (F & H1 & H2 & H3 & _ & _ & H4 & _).
  exists F. auto.
Defined.

(** ** Paths that are patterns *)

(** X20: stored paths go into the patterns as they are.  The soft delete
    of the root folder [a.b] also marks the root folder [aXb], which the
    dot matches.  The rename of the root folder [A(1)] answers 200 and
    leaves its subfolder at the path [A(1)/c], which the pattern with the
    group does not match.  The rename of the root folder [A(] answers
    500 after the folder was saved with its new name and path: the
    database rejects the pattern, and the subfolder keeps the path
    [A(/c]. *)
Theorem unescaped_path_patterns (rx : Regex.engine) :
  softDeleteFolder rx 100 100 alice 1 storeDot
  = (Json200 "Folder and contents moved to trash" None,
     mkStore [Folder.mk 1 "a.b" None alice "a.b" true (Some 100%Z);
              Folder.mk 2 "aXb" None alice "aXb" true (Some 100%Z)] [])
  /\ renameFolder rx alice 1 "x" storeParen
     = (Json200 "Folder renamed successfully"
                (Some (Folder.mk 1 "x" None alice "x" false None)),
        mkStore [Folder.mk 1 "x" None alice "x" false None;
                 Folder.mk 2 "c" (Some 1) alice "A(1)/c" false None]
                (images storeParen))
  /\ renameFolder rx alice 1 "B" storeOpen
     = (Status500 "Server error renaming folder",
        mkStore [Folder.mk 1 "B" None alice "B" false None;
                 Folder.mk 2 "c" (Some 1) alice "A(/c" false None] []).
Proof. repeat split; reflexivity. Qed.

